(** * reddit_scraper: the resumable ingestion pipeline

    A shallow embedding of [reddit_scraper/infra/reddit.py],
    [reddit_scraper/services/scraper.py] and [reddit_scraper/cli.py].

    Python values are represented as follows.
    - [int] is [Z]; [Optional[T]] is [option T]; [str] is [string], the
      UTF-8 bytes of the text;
    - what Python, its libraries and the environment of the process decide
      is taken from a host ([Py.Host]) that the theorems leave arbitrary:
      [str.lower], [str.strip], [datetime.fromisoformat] beyond a bare date,
      whether progress bars are disabled, whether a step outside the scraper
      fails;
    - the timestamp of a listing record is the whole number [int(...)] makes
      of its [created_utc];
    - a generator is the finite sequence of its yields together with the way
      the sequence ends ([iter]);
    - statements run in a state-and-exception monad [M] over a [world] that
      holds the checkpoint stores, the output sinks, the progress bar and the
      log of observable events;
    - [while True] is given fuel: an exhausted fuel is the result [Diverge],
      which stands for a loop that is still running. *)

From Stdlib Require Import ZArith Ascii String.
From Stdlib Require QArith.
From stdpp Require Import base numbers list strings gmap.

(* ===================================================================== *)
(** ** Exceptions *)
(* ===================================================================== *)

(** An exception value is represented by its class.  [praw] and [prawcore]
    are not part of the repository; of their classes the embedding has the
    five that the [except] clause of [fetch_submission_tree] names and the
    classes [prawcore] raises for a request the platform refuses:
    [BadRequest] (HTTP 400), [InvalidToken] (401), [Forbidden] (403) and
    [NotFound] (404), which [prawcore] declares as subclasses of
    [ResponseException], as it does [ServerError].  [OtherException] is an
    exception that is an instance of none of the five named classes. *)
Inductive exc : Type :=
  | APIException
  | RedditAPIException
  | RequestException
  | ResponseException
  | ServerError
  | BadRequest
  | InvalidToken
  | Forbidden
  | NotFound
  | ValueError
  | SystemExit (code : Z)
  | OtherException (name : string).

Global Instance exc_eq_dec : EqDecision exc.
Proof. solve_decision. Defined.

(** The steps [main] takes outside the scraper once a run has saved posts. *)
Inductive external_step : Type :=
  | CsvExport
  | TxtExport
  | MergeScript
  | RenameMerged.

(* ===================================================================== *)
(** ** Python strings *)
(* ===================================================================== *)

Module Py.

Definition is_upper (c : ascii) : bool :=
  let n := N_of_ascii c in ((65 <=? n) && (n <=? 90))%N.

Definition lower_char (c : ascii) : ascii :=
  if is_upper c then ascii_of_N (N_of_ascii c + 32) else c.

(** [str.lower()] on ASCII text: the letters A to Z are lowered. *)
Fixpoint ascii_lower (s : string) : string :=
  match s with
  | EmptyString => EmptyString
  | String c s' => String (lower_char c) (ascii_lower s')
  end.

(** [s.replace(a, b)] for one-character [a] and [b] *)
Fixpoint replace_char (a b : ascii) (s : string) : string :=
  match s with
  | EmptyString => EmptyString
  | String c s' =>
      String (if Ascii.eqb c a then b else c) (replace_char a b s')
  end.

(** [sep.join(parts)] *)
Fixpoint join (sep : string) (parts : list string) : string :=
  match parts with
  | [] => ""
  | [p] => p
  | p :: ps => p +:+ sep +:+ join sep ps
  end.

(** [s.split(sep)] for a one-character separator: never the empty list. *)
Fixpoint split (sep : ascii) (s : string) : list string :=
  match s with
  | EmptyString => [""]
  | String c s' =>
      if Ascii.eqb c sep then "" :: split sep s'
      else match split sep s' with
           | [] => [String c ""]
           | field :: fields => String c field :: fields
           end
  end.

(** [c in s] for a character [c] *)
Fixpoint contains (c : ascii) (s : string) : bool :=
  match s with
  | EmptyString => false
  | String c' s' => Ascii.eqb c' c || contains c s'
  end.

(** The white space of ASCII as [str.strip()] sees it. *)
Definition is_space (c : ascii) : bool :=
  let n := N_of_ascii c in
  (((9 <=? n) && (n <=? 13)) || ((28 <=? n) && (n <=? 32)))%N.

Fixpoint lstrip (s : string) : string :=
  match s with
  | EmptyString => EmptyString
  | String c s' => if is_space c then lstrip s' else s
  end.
(** [str.strip()] on ASCII text. *)
Definition ascii_strip (s : string) : string :=
  String.rev (lstrip (String.rev (lstrip s))).

(** The text is ASCII: every byte is below 128. *)
Fixpoint is_ascii (s : string) : bool :=
  match s with
  | EmptyString => true
  | String c s' => (N_of_ascii c <? 128)%N && is_ascii s'
  end.

(** Truthiness of the values the code tests with a bare [if x]. *)
Definition truthy_int (o : option Z) : bool :=
  match o with Some z => negb (z =? 0)%Z | None => false end.
Definition truthy_list {A} (o : option (list A)) : bool :=
  match o with Some (_ :: _) => true | _ => false end.
Definition truthy_str (o : option string) : bool :=
  match o with Some (String _ _) => true | _ => false end.
Definition truthy_set (o : option (gset string)) : bool :=
  match o with Some s => negb (bool_decide (s = ∅)) | None => false end.

(** [int(x)] of a finite float [x], read as the rational it denotes: the
    fraction is cut off, towards zero. *)
Definition int_of_float (x : QArith_base.Q) : Z :=
  Z.quot (QArith_base.Qnum x) (Z.pos (QArith_base.Qden x)).

(** [x or ""] *)
Definition or_empty (o : option string) : string :=
  match o with Some (String c s) => String c s | _ => "" end.

(** The host of the program: what Python's Unicode database, the installed
    [datetime] and [tqdm], the environment of the process and the file
    system decide.  The theorems hold for every host.
    - [lower] is [str.lower()] and [strip] is [str.strip()], both
      Unicode-aware.  On ASCII text [lower] lowers the letters A to Z, and
      the lower case of a text is empty only for the empty text.
    - [fromisoformat_timestamp s] is [int(dt.timestamp())] for
      [dt = datetime.fromisoformat(s)], taken as UTC when it carries no
      offset, for a string other than a bare [YYYY-MM-DD]; [None] is
      [ValueError].  Which such strings are accepted depends on the version
      of Python.
    - [tqdm_disable] tells whether progress bars are created disabled, as
      the environment variable [TQDM_DISABLE] makes them.
    - [export_failure step] is the exception with which a step outside the
      scraper fails, if it does. *)
Class Host : Type := {
  lower : string → string;
  strip : string → string;
  fromisoformat_timestamp : string → option Z;
  tqdm_disable : bool;
  export_failure : external_step → option exc;
  lower_ascii : ∀ s, is_ascii s = true → lower s = ascii_lower s;
  lower_nonempty : ∀ s, lower s = "" → s = "";
}.

(** The host of the scenarios, whose texts are ASCII: it knows no date
    string but the bare date, its progress bars count, and no step outside
    the scraper fails. *)
Definition ascii_host : Host :=
  {| lower := ascii_lower;
     strip := ascii_strip;
     fromisoformat_timestamp := λ _, None;
     tqdm_disable := false;
     export_failure := λ _, None;
     lower_ascii := λ s _, eq_refl;
     lower_nonempty := λ s,
       match s return ascii_lower s = "" → s = "" with
       | EmptyString => λ _, eq_refl
       | String c s' => λ H, False_ind _ (eq_ind (String (lower_char c) (ascii_lower s'))
                                            (λ t, match t with EmptyString => False
                                                             | String _ _ => True end)
                                            I "" H)
       end |}.

(** The host of the scenarios with its progress bars disabled. *)
Definition disabled_bar_host : Host :=
  {| lower := ascii_lower;
     strip := ascii_strip;
     fromisoformat_timestamp := λ _, None;
     tqdm_disable := true;
     export_failure := λ _, None;
     lower_ascii := @lower_ascii ascii_host;
     lower_nonempty := @lower_nonempty ascii_host |}.

(** The host of the scenarios on which the merge script ends with a status
    other than zero. *)
Definition failing_merge_host : Host :=
  {| lower := ascii_lower;
     strip := ascii_strip;
     fromisoformat_timestamp := λ _, None;
     tqdm_disable := false;
     export_failure := λ step,
       match step with
       | MergeScript => Some (OtherException "CalledProcessError")
       | _ => None
       end;
     lower_ascii := @lower_ascii ascii_host;
     lower_nonempty := @lower_nonempty ascii_host |}.

End Py.

(* ===================================================================== *)
(** ** Calendar dates: [datetime.fromisoformat] on a bare date *)
(* ===================================================================== *)

Module Datetime.

Definition digit (c : ascii) : option Z :=
  let n := Z.of_N (N_of_ascii c) in
  if ((48 <=? n) && (n <=? 57))%Z then Some (n - 48)%Z else None.

Definition is_leap (year : Z) : bool :=
  ((year mod 4 =? 0) && (negb (year mod 100 =? 0) || (year mod 400 =? 0)))%Z.

Definition days_before_year (year : Z) : Z :=
  let y := (year - 1)%Z in (y * 365 + y / 4 - y / 100 + y / 400)%Z.

Definition days_in_month (year month : Z) : Z :=
  if ((month =? 2) && is_leap year)%Z then 29%Z
  else nth (Z.to_nat month) [-1; 31; 28; 31; 30; 31; 30; 31; 31; 30; 31; 30; 31]%Z 0%Z.

Definition days_before_month (year month : Z) : Z :=
  (nth (Z.to_nat month) [-1; 0; 31; 59; 90; 120; 151; 181; 212; 243; 273; 304; 334] 0
   + (if (2 <? month) && is_leap year then 1 else 0))%Z.

(** Proleptic Gregorian ordinal: 0001-01-01 is day 1. *)
Definition ymd2ord (year month day : Z) : Z :=
  (days_before_year year + days_before_month year month + day)%Z.

(** The range checks of the [date] constructor. *)
Definition check_date_fields (year month day : Z) : bool :=
  ((1 <=? year) && (year <=? 9999) && (1 <=? month) && (month <=? 12)
   && (1 <=? day) && (day <=? days_in_month year month))%Z.

(** The string has the shape of a bare date: four digits, two digits and
    two digits, with a hyphen between them, and nothing else. *)
Definition is_bare_date (iso : string) : bool :=
  match iso with
  | String y1 (String y2 (String y3 (String y4 (String "-"
    (String m1 (String m2 (String "-"
    (String d1 (String d2 EmptyString))))))))) =>
      forallb (λ c, bool_decide (is_Some (digit c))) [y1; y2; y3; y4; m1; m2; d1; d2]
  | _ => false
  end.

(** [date.fromisoformat] on a bare date: [YYYY-MM-DD] to its fields, [None]
    when the string is no bare date or its fields are out of range. *)
Definition parse_isoformat_date (iso : string) : option (Z * Z * Z) :=
  match iso with
  | String y1 (String y2 (String y3 (String y4 (String "-"
    (String m1 (String m2 (String "-"
    (String d1 (String d2 EmptyString))))))))) =>
      y1 ← digit y1; y2 ← digit y2; y3 ← digit y3; y4 ← digit y4;
      m1 ← digit m1; m2 ← digit m2; d1 ← digit d1; d2 ← digit d2;
      let year := (1000 * y1 + 100 * y2 + 10 * y3 + y4)%Z in
      let month := (10 * m1 + m2)%Z in
      let day := (10 * d1 + d2)%Z in
      if check_date_fields year month day then Some (year, month, day) else None
  | _ => None
  end.

(** [datetime(1970, 1, 1).toordinal()] *)
Definition epoch_ordinal : Z := 719163.

(** [dt.replace(tzinfo=timezone.utc).timestamp()] of midnight on the date. *)
Definition timestamp_utc_midnight (year month day : Z) : Z :=
  ((ymd2ord year month day - epoch_ordinal) * 86400)%Z.

End Datetime.

(* ===================================================================== *)
(** ** Observable events *)
(* ===================================================================== *)

(** A [pathlib] path, as the list of its parts. *)
Abbreviation path := (list string).

Inductive level : Type := DEBUG | INFO | WARNING | ERROR | CRITICAL.

(** Arguments of a logging call, kept next to the format string. *)
Inductive log_arg : Type :=
  | ArgS (s : string)
  | ArgD (n : Z)
  | ArgL (l : list string).

Inductive signum : Type := SIGHUP | SIGINT | SIGQUIT | SIGTERM.

(** What a discovery generator asks of the platform: the listing it opens
    and each record it pulls from it. *)
Inductive upstream_event : Type :=
  | ListNew (subreddit : string)
  | Search (subreddit query sort time_filter : string)
  | FeedNext (submission_id : string).

Inductive event : Type :=
  | EvLog (lvl : level) (fmt : string) (args : list log_arg)
  | EvDiscovery (u : upstream_event)
  | EvRequest (submission_id : string)
  | EvSleep (seconds : Z)
  | EvAppend (sink : path) (submission_id : string)
  | EvMarkDone (store : path) (submission_id : string)
  | EvStoreOpen (store : path)
  | EvStoreClose (store : path)
  | EvBarOpen
  | EvBarUpdate
  | EvBarClose
  | EvSignalHandler (sig : signum)
  | EvSetupLogging (lvl : string) (file : option string)
  | EvCsvExport (src sub_csv com_csv : path)
  | EvTxtExport (src dir : path)
  | EvMergeScript (script dir out_dir : path)
  | EvRenameIfExists (src dst : path).

Global Instance level_eq_dec : EqDecision level.
Proof. solve_decision. Defined.
Global Instance log_arg_eq_dec : EqDecision log_arg.
Proof. solve_decision. Defined.
Global Instance signum_eq_dec : EqDecision signum.
Proof. solve_decision. Defined.
Global Instance upstream_event_eq_dec : EqDecision upstream_event.
Proof. solve_decision. Defined.
Global Instance event_eq_dec : EqDecision event.
Proof. solve_decision. Defined.

(* ===================================================================== *)
(** ** What the platform returns *)
(* ===================================================================== *)

(** The attributes of a PRAW submission that discovery reads. *)
Record praw_listing : Type := {
  sub_id : string;
  sub_created_utc : Z;
  sub_score : Z;
  sub_link_flair_text : option string;
}.

(** A listing as the client sees it: the records it delivers, newest first,
    and whether it then ends or raises. *)
Record feed : Type := {
  records : list praw_listing;
  failure : option exc;
}.

Set Warnings "-register-all".

(** A PRAW [Redditor]: the code reads its name. *)
Record redditor : Type := {
  redditor_name : string;
  redditor_id : string;
}.

(** A PRAW comment after [replace_more(limit=None)]: the attributes
    [_extract_comment] reads, [created_utc] being a float and [author] a
    [Redditor] or [None], and the permalink, which it does not read. *)
Inductive praw_comment : Type :=
  PrawComment (c_id c_parent_id c_link_id : string) (c_author : option redditor)
              (c_body : string) (c_created_utc : QArith_base.Q) (c_score c_depth : Z)
              (c_permalink : string) (c_replies : list praw_comment).

(** A PRAW submission with its comment forest; its id is the requested one. *)
Record praw_submission : Type := {
  s_title : string;
  s_selftext : string;
  s_created_utc : QArith_base.Q;
  s_author : option redditor;
  s_score : Z;
  s_num_comments : Z;
  s_link_flair_text : option string;
  s_url : string;
  s_permalink : string;
  s_comments : list praw_comment;
}.

(** The outcome of one attempt to load a thread. *)
Inductive reply : Type :=
  | Delivered (sub : praw_submission)
  | Failed (e : exc).

(** [praw.Reddit]: the platform as an oracle.  [submission id n] is the
    outcome of the thread request issued when [n] requests went before. *)
Record praw_api : Type := {
  new : string → feed;
  search : string → string → string → string → feed;
  submission : string → nat → reply;
}.

(* ===================================================================== *)
(** ** Generators *)
(* ===================================================================== *)

(** What iterating a generator produces: requests to the platform, yields,
    and the end of the sequence ([Stop]) or an exception ([Fail]). *)
Inductive iter (A : Type) : Type :=
  | Stop
  | Fail (e : exc)
  | Effect (u : upstream_event) (rest : iter A)
  | Yield (a : A) (rest : iter A).
Arguments Stop {A}.
Arguments Fail {A} e.
Arguments Effect {A} u rest.
Arguments Yield {A} a rest.

Fixpoint iter_items {A} (it : iter A) : list A :=
  match it with
  | Stop | Fail _ => []
  | Effect _ rest => iter_items rest
  | Yield a rest => a :: iter_items rest
  end.

Fixpoint iter_events {A} (it : iter A) : list upstream_event :=
  match it with
  | Stop | Fail _ => []
  | Effect u rest => u :: iter_events rest
  | Yield _ rest => iter_events rest
  end.

Fixpoint iter_end {A} (it : iter A) : option exc :=
  match it with
  | Stop => None
  | Fail e => Some e
  | Effect _ rest | Yield _ rest => iter_end rest
  end.

(* ===================================================================== *)
(** ** The thread model *)
(* ===================================================================== *)

(** The dictionary [_extract_comment] builds. *)
Inductive comment_dict : Type :=
  CommentDict (id parent_id link_id : string) (author : option string)
              (body : string) (created_utc score depth : Z)
              (replies : list comment_dict).

(** The dictionary [_extract_submission] builds. *)
Record submission_dict : Type := {
  d_id : string;
  d_title : string;
  d_selftext : string;
  d_created_utc : Z;
  d_author : option string;
  d_score : Z;
  d_num_comments : Z;
  d_link_flair_text : option string;
  d_url : string;
  d_permalink : string;
}.

(** The value [fetch_submission_tree] returns. *)
Record raw_tree : Type := {
  rt_submission : submission_dict;
  rt_comments : list comment_dict;
}.

(** Modelled from the spec: [reddit_scraper.core.models.Submission] is not
    among the sources.  The spec gives its shape: identifier, title, body,
    creation timestamp, optional author, score, declared comment count,
    optional flair, URL, permalink and the ordered forest of top-level
    comments, each comment carrying the fields of [comment_dict].
    [from_pushshift_reddit] builds the Submission of a fetched tree field by
    field and keeps the order of the comments. *)
Module Submission.

Record t : Type := {
  id : string;
  title : string;
  selftext : string;
  created_utc : Z;
  author : option string;
  score : Z;
  num_comments : Z;
  link_flair_text : option string;
  url : string;
  permalink : string;
  comments : list comment_dict;
}.

Definition from_pushshift_reddit (raw : raw_tree) : t :=
  let d := rt_submission raw in
  {| id := d_id d;
     title := d_title d;
     selftext := d_selftext d;
     created_utc := d_created_utc d;
     author := d_author d;
     score := d_score d;
     num_comments := d_num_comments d;
     link_flair_text := d_link_flair_text d;
     url := d_url d;
     permalink := d_permalink d;
     comments := rt_comments raw |}.

End Submission.

(* ===================================================================== *)
(** ** The world and the monad of statements *)
(* ===================================================================== *)

(** A Python-level signal handler, as the closure it is: [_handler] of the
    Scraper whose checkpoint store is [progress_db]. *)
Inductive handler : Type :=
  | GracefulExit (progress_db : path).

Record world : Type := {
  w_progress : gmap path (gset string);   (* checkpoint stores, by file *)
  w_output : gmap path (list Submission.t); (* record sinks, by file *)
  w_open : gset path;                     (* checkpoint stores held open *)
  w_store_faults : list (option exc);     (* outcome of the coming store operations *)
  w_requests : nat;                       (* thread requests issued so far *)
  w_bar_n : Z;                            (* the counter of the progress bar *)
  w_handlers : list (signum * handler);   (* [signal.signal] registrations, latest first *)
  w_trace : list event;                   (* everything observable, oldest first *)
}.

Definition set_progress (f : gmap path (gset string) → gmap path (gset string)) (w : world) : world :=
  {| w_progress := f (w_progress w); w_output := w_output w; w_open := w_open w;
     w_store_faults := w_store_faults w; w_requests := w_requests w;
     w_bar_n := w_bar_n w; w_handlers := w_handlers w; w_trace := w_trace w |}.
Definition set_output (f : gmap path (list Submission.t) → gmap path (list Submission.t)) (w : world) : world :=
  {| w_progress := w_progress w; w_output := f (w_output w); w_open := w_open w;
     w_store_faults := w_store_faults w; w_requests := w_requests w;
     w_bar_n := w_bar_n w; w_handlers := w_handlers w; w_trace := w_trace w |}.
Definition set_open (f : gset path → gset path) (w : world) : world :=
  {| w_progress := w_progress w; w_output := w_output w; w_open := f (w_open w);
     w_store_faults := w_store_faults w; w_requests := w_requests w;
     w_bar_n := w_bar_n w; w_handlers := w_handlers w; w_trace := w_trace w |}.
Definition set_store_faults (f : list (option exc) → list (option exc)) (w : world) : world :=
  {| w_progress := w_progress w; w_output := w_output w; w_open := w_open w;
     w_store_faults := f (w_store_faults w); w_requests := w_requests w;
     w_bar_n := w_bar_n w; w_handlers := w_handlers w; w_trace := w_trace w |}.
Definition set_requests (f : nat → nat) (w : world) : world :=
  {| w_progress := w_progress w; w_output := w_output w; w_open := w_open w;
     w_store_faults := w_store_faults w; w_requests := f (w_requests w);
     w_bar_n := w_bar_n w; w_handlers := w_handlers w; w_trace := w_trace w |}.
Definition set_bar_n (f : Z → Z) (w : world) : world :=
  {| w_progress := w_progress w; w_output := w_output w; w_open := w_open w;
     w_store_faults := w_store_faults w; w_requests := w_requests w;
     w_bar_n := f (w_bar_n w); w_handlers := w_handlers w; w_trace := w_trace w |}.
Definition set_handlers (f : list (signum * handler) → list (signum * handler)) (w : world) : world :=
  {| w_progress := w_progress w; w_output := w_output w; w_open := w_open w;
     w_store_faults := w_store_faults w; w_requests := w_requests w;
     w_bar_n := w_bar_n w; w_handlers := f (w_handlers w); w_trace := w_trace w |}.
Definition set_trace (f : list event → list event) (w : world) : world :=
  {| w_progress := w_progress w; w_output := w_output w; w_open := w_open w;
     w_store_faults := w_store_faults w; w_requests := w_requests w;
     w_bar_n := w_bar_n w; w_handlers := w_handlers w; w_trace := f (w_trace w) |}.

(** How a statement ends. *)
Inductive result (A : Type) : Type :=
  | Ret (a : A)
  | Raise (e : exc)
  | Diverge.
Arguments Ret {A} a.
Arguments Raise {A} e.
Arguments Diverge {A}.

Definition M (A : Type) : Type := world → result A * world.

Definition ret {A} (a : A) : M A := λ w, (Ret a, w).
Definition raise {A} (e : exc) : M A := λ w, (Raise e, w).
Definition diverge {A} : M A := λ w, (Diverge, w).

Definition bind {A B} (m : M A) (k : A → M B) : M B :=
  λ w, match m w with
       | (Ret a, w') => k a w'
       | (Raise e, w') => (Raise e, w')
       | (Diverge, w') => (Diverge, w')
       end.

Declare Scope py_scope.
Delimit Scope py_scope with py.
Notation "x <- m ;; k" := (bind m (λ x, k))
  (at level 100, m at next level, k at level 200, right associativity) : py_scope.
Notation "m ;; k" := (bind m (λ _, k))
  (at level 100, k at level 200, right associativity) : py_scope.
Local Open Scope py_scope.

(** [try: body finally: cleanup].  The cleanup runs however the body ends,
    unless the body is still running. *)
Definition try_finally {A} (body : M A) (cleanup : M unit) : M A :=
  λ w, match body w with
       | (Diverge, w') => (Diverge, w')
       | (r, w') =>
           match cleanup w' with
           | (Ret _, w'') => (r, w'')
           | (Raise e, w'') => (Raise e, w'')
           | (Diverge, w'') => (Diverge, w'')
           end
       end.

Definition emit (ev : event) : M unit :=
  λ w, (Ret tt, set_trace (λ t, t ++ [ev]) w).

Definition log (lvl : level) (fmt : string) (args : list log_arg) : M unit :=
  emit (EvLog lvl fmt args).

Definition modify (f : world → world) : M unit := λ w, (Ret tt, f w).
Definition gets {A} (f : world → A) : M A := λ w, (Ret (f w), w).

(** The exit status of the process when a statement ends at top level. *)
Definition exit_status {A} (r : result A) : option Z :=
  match r with
  | Ret _ => Some 0%Z
  | Raise (SystemExit code) => Some code
  | Raise _ => Some 1%Z
  | Diverge => None
  end.

(* ===================================================================== *)
(** ** [reddit_scraper/infra/reddit.py] *)
(* ===================================================================== *)

(** The dictionary both discovery generators yield. *)
Record item : Type := {
  item_id : string;
  item_created_utc : Z;
  item_score : Z;
  item_link_flair_text : option string;
}.

(** The double quote character. *)
Definition dquote : string := String "034"%char EmptyString.

Module RedditClient.

Record t : Type := {
  reddit : praw_api;
  ratelimit_sleep : Z;
}.

Section host.
Context {host : Py.Host}.

Definition __init__ (api : praw_api) (ratelimit_sleep : Z) : t :=
  {| reddit := api; ratelimit_sleep := ratelimit_sleep |}.

(** A bare date is midnight UTC of that day, and [ValueError] ([None]) when
    its fields are out of range; for any other string the outcome of
    [fromisoformat], with the offset the string carries or UTC when it
    carries none, is the host's. *)
Definition _to_ts (iso : string) : option Z :=
  match Datetime.parse_isoformat_date iso with
  | Some (year, month, day) => Some (Datetime.timestamp_utc_midnight year month day)
  | None =>
      if Datetime.is_bare_date iso then None else Py.fromisoformat_timestamp iso
  end.

(** [{f.lower() for f in flairs} if flairs else None] *)
Definition flair_set_of (flairs : option (list string)) : option (gset string) :=
  if Py.truthy_list flairs
  then Some (list_to_set (Py.lower <$> default [] flairs))
  else None.

(** The body of [for sub in sub_ref.new(limit=None)]. *)
Fixpoint list_submission_ids_loop (after before : Z) (min_score : option Z)
    (flair_set : option (gset string)) (subs : list praw_listing)
    (failure : option exc) : iter item :=
  match subs with
  | [] => match failure with Some e => Fail e | None => Stop end
  | sub :: rest =>
      Effect (FeedNext (sub_id sub))
        (let ts := sub_created_utc sub in
         if (ts <? after)%Z then Stop
         else if (before <? ts)%Z then
           list_submission_ids_loop after before min_score flair_set rest failure
         else if Py.truthy_int min_score && (sub_score sub <? default 0 min_score)%Z then
           list_submission_ids_loop after before min_score flair_set rest failure
         else if Py.truthy_set flair_set
                 && negb (bool_decide (Py.lower (Py.or_empty (sub_link_flair_text sub))
                                       ∈ default ∅ flair_set)) then
           list_submission_ids_loop after before min_score flair_set rest failure
         else
           Yield {| item_id := sub_id sub;
                    item_created_utc := ts;
                    item_score := sub_score sub;
                    item_link_flair_text := sub_link_flair_text sub |}
                 (list_submission_ids_loop after before min_score flair_set rest failure))
  end.

Definition list_submission_ids (self : t) (subreddit start_date end_date : string)
    (min_score : option Z) (flairs : option (list string)) : iter item :=
  let flair_set := flair_set_of flairs in
  match _to_ts start_date with
  | None => Fail ValueError
  | Some after =>
      match _to_ts end_date with
      | None => Fail ValueError
      | Some end_ts =>
          let before := (end_ts + 86399)%Z in
          let sub_ref := new (reddit self) subreddit in
          Effect (ListNew subreddit)
            (list_submission_ids_loop after before min_score flair_set
               (records sub_ref) (failure sub_ref))
      end
  end.

(** The body of [for sub in sub_ref.search(...)]. *)
Fixpoint search_submissions_loop (min_score : option Z)
    (flair_set : option (gset string)) (subs : list praw_listing)
    (failure : option exc) : iter item :=
  match subs with
  | [] => match failure with Some e => Fail e | None => Stop end
  | sub :: rest =>
      Effect (FeedNext (sub_id sub))
        (if Py.truthy_int min_score && (sub_score sub <? default 0 min_score)%Z then
           search_submissions_loop min_score flair_set rest failure
         else if Py.truthy_set flair_set
                 && negb (bool_decide (Py.lower (Py.or_empty (sub_link_flair_text sub))
                                       ∈ default ∅ flair_set)) then
           search_submissions_loop min_score flair_set rest failure
         else
           Yield {| item_id := sub_id sub;
                    item_created_utc := sub_created_utc sub;
                    item_score := sub_score sub;
                    item_link_flair_text := sub_link_flair_text sub |}
                 (search_submissions_loop min_score flair_set rest failure))
  end.

Definition search_submissions (self : t) (subreddit : string)
    (keywords : list string) (time_filter : string)
    (min_score : option Z) (flairs : option (list string)) : iter item :=
  let query := Py.join " OR " ((λ k, dquote +:+ k +:+ dquote) <$> keywords) in
  let flair_set := flair_set_of flairs in
  let sub_ref := search (reddit self) subreddit query "new" time_filter in
  Effect (Search subreddit query "new" time_filter)
    (search_submissions_loop min_score flair_set (records sub_ref) (failure sub_ref)).

Fixpoint _extract_comment (c : praw_comment) : comment_dict :=
  match c with
  | PrawComment id parent_id link_id author body created_utc score depth _ replies =>
      CommentDict id parent_id link_id (redditor_name <$> author) body
                  (Py.int_of_float created_utc) score depth
                  (map _extract_comment replies)
  end.

(** [_extract_submission], on the submission loaded for [id]. *)
Definition _extract_submission (id : string) (sub : praw_submission) : submission_dict :=
  {| d_id := id;
     d_title := s_title sub;
     d_selftext := s_selftext sub;
     d_created_utc := Py.int_of_float (s_created_utc sub);
     d_author := redditor_name <$> s_author sub;
     d_score := s_score sub;
     d_num_comments := s_num_comments sub;
     d_link_flair_text := s_link_flair_text sub;
     d_url := s_url sub;
     d_permalink := s_permalink sub |}.

(** The [except] clause of [fetch_submission_tree]: the exception is an
    instance of one of the five classes it names, which the subclasses of
    [ResponseException] are. *)
Definition transient (e : exc) : bool :=
  match e with
  | APIException | RedditAPIException | RequestException
  | ResponseException | ServerError => true
  | BadRequest | InvalidToken | Forbidden | NotFound => true
  | ValueError | SystemExit _ | OtherException _ => false
  end.

(** [self.reddit.submission(id=...)] with [replace_more(limit=None)]: one
    request to the platform. *)
Definition load (self : t) (submission_id : string) : M reply :=
  emit (EvRequest submission_id) ;;
  n <- gets w_requests ;;
  modify (set_requests S) ;;
  ret (submission (reddit self) submission_id n).

Definition sleep (seconds : Z) : M unit := emit (EvSleep seconds).

(** [while True: try: ... except (...): time.sleep(...); continue] *)
Fixpoint fetch_submission_tree (fuel : nat) (self : t) (submission_id : string)
    : M raw_tree :=
  match fuel with
  | O => diverge
  | S fuel' =>
      r <- load self submission_id ;;
      match r with
      | Delivered sub =>
          ret {| rt_submission := _extract_submission submission_id sub;
                 rt_comments := _extract_comment <$> s_comments sub |}
      | Failed e =>
          if transient e then
            sleep (ratelimit_sleep self) ;;
            fetch_submission_tree fuel' self submission_id
          else raise e
      end
  end.

End host.

End RedditClient.

(** Modelled from the spec: [reddit_scraper.core.models.export_ndjson] is not
    among the sources.  It serializes each Submission into one record and
    appends it to the sink; the sink is kept as the list of the Submissions
    written, so existing content is never rewritten when [append] holds. *)
Definition export_ndjson (subs : list Submission.t) (sink : path) (append : bool) : M unit :=
  modify (set_output (λ o, <[sink := (if append then o !!! sink else []) ++ subs]> o)) ;;
  modify (set_trace (λ t, t ++ (EvAppend sink ∘ Submission.id <$> subs))).

(** Modelled from the spec: [reddit_scraper.services.progress.ProgressTracker]
    is not among the sources.  The spec gives its contract: a durable set of
    completed identifiers per store file; [is_done]; [mark_done], idempotent;
    [close], safe to call several times.  An I/O failure of the store is an
    exception of [is_done] or [mark_done]; which coming operations fail is
    fixed by [w_store_faults]. *)
Module ProgressTracker.

Record t : Type := { db_path : path }.

Definition __init__ (db_path : path) : M t :=
  modify (set_open (λ o, {[db_path]} ∪ o)) ;;
  emit (EvStoreOpen db_path) ;;
  ret {| db_path := db_path |}.

(** One operation on the store file: it consumes the next entry of
    [w_store_faults] and fails when that entry holds an exception. *)
Definition store_io : M unit :=
  λ w, let w' := set_store_faults tail w in
       match head (w_store_faults w) with
       | Some (Some e) => (Raise e, w')
       | _ => (Ret tt, w')
       end.

Definition is_done (self : t) (sid : string) : M bool :=
  store_io ;;
  gets (λ w, bool_decide (sid ∈ w_progress w !!! db_path self)).

Definition mark_done (self : t) (sid : string) : M unit :=
  store_io ;;
  modify (set_progress (λ p, <[db_path self := {[sid]} ∪ p !!! db_path self]> p)) ;;
  emit (EvMarkDone (db_path self) sid).

Definition close (self : t) : M unit :=
  modify (set_open (λ o, o ∖ {[db_path self]})) ;;
  emit (EvStoreClose (db_path self)).

End ProgressTracker.

(** [tqdm]: the progress bar of [run], with its counter [n].  The bar is
    created with [n = 0]; [update()] adds 1 to [n] unless the bar is
    disabled, in which case it returns at once.  The events are the calls. *)
Module tqdm.
Section host.
Context {host : Py.Host}.
Definition __init__ : M unit := modify (set_bar_n (λ _, 0%Z)) ;; emit EvBarOpen.
Definition update : M unit :=
  modify (set_bar_n (λ n, if Py.tqdm_disable then n else (n + 1)%Z)) ;; emit EvBarUpdate.
Definition n : M Z := gets w_bar_n.
Definition close : M unit := emit EvBarClose.
End host.
End tqdm.

(* ===================================================================== *)
(** ** [reddit_scraper/services/scraper.py] *)
(* ===================================================================== *)

(** [signal.Signals(sig_num).name] *)
Definition Signals_name (sig_num : signum) : string :=
  match sig_num with
  | SIGHUP => "SIGHUP"
  | SIGINT => "SIGINT"
  | SIGQUIT => "SIGQUIT"
  | SIGTERM => "SIGTERM"
  end.

(** The handler [signal.signal] last installed for a signal, if any. *)
Fixpoint handler_of (hs : list (signum * handler)) (sig : signum) : option handler :=
  match hs with
  | [] => None
  | (s, h) :: hs' => if decide (s = sig) then Some h else handler_of hs' sig
  end.

Module Scraper.

Record t : Type := {
  subreddit : string;
  start_date : string;
  end_date : string;
  min_score : option Z;
  flairs : option (list string);
  keywords : option (list string);
  output : path;
  reddit : RedditClient.t;
  progress : ProgressTracker.t;
}.

Section host.
Context {host : Py.Host}.

(** The closure [_handler] of [_setup_signals]; of [self] it uses the
    checkpoint store (and the logger). *)
Definition _handler (progress : ProgressTracker.t) (sig_num : signum) : M unit :=
  let sig_name := Signals_name sig_num in
  log WARNING "Received %s – shutting down gracefully…" [ArgS sig_name] ;;
  ProgressTracker.close progress ;;
  raise (SystemExit 0).

Definition _setup_signals (self : t) : M unit :=
  let h := GracefulExit (ProgressTracker.db_path (progress self)) in
  modify (set_handlers (λ hs, (SIGINT, h) :: hs)) ;;
  emit (EvSignalHandler SIGINT) ;;
  modify (set_handlers (λ hs, (SIGTERM, h) :: hs)) ;;
  emit (EvSignalHandler SIGTERM).

Definition __init__ (api : praw_api) (subreddit start_date end_date : string)
    (output : path) (min_score : option Z) (flairs keywords : option (list string))
    (progress_db : path) : M t :=
  let reddit := RedditClient.__init__ api 2 in
  progress <- ProgressTracker.__init__ progress_db ;;
  let self := {| subreddit := subreddit; start_date := start_date;
                 end_date := end_date; min_score := min_score;
                 flairs := flairs; keywords := keywords; output := output;
                 reddit := reddit; progress := progress |} in
  _setup_signals self ;;
  ret self.

(** [for item in submission_iterator: ...] *)
Fixpoint run_loop (fuel : nat) (self : t) (submission_iterator : iter item) : M unit :=
  match submission_iterator with
  | Stop => ret tt
  | Fail e => raise e
  | Effect u rest => emit (EvDiscovery u) ;; run_loop fuel self rest
  | Yield item rest =>
      let sid := item_id item in
      done <- ProgressTracker.is_done (progress self) sid ;;
      if done : bool then
        log DEBUG "Skip already-scraped id=%s" [ArgS sid] ;;
        run_loop fuel self rest
      else
        raw_tree <- RedditClient.fetch_submission_tree fuel (reddit self) sid ;;
        let submission := Submission.from_pushshift_reddit raw_tree in
        export_ndjson [submission] (output self) true ;;
        ProgressTracker.mark_done (progress self) sid ;;
        tqdm.update ;;
        log DEBUG "Saved id=%s  (%d comments)"
            [ArgS (Submission.id submission);
             ArgD (Z.of_nat (length (Submission.comments submission)))] ;;
        run_loop fuel self rest
  end.

Definition run (fuel : nat) (self : t) : M Z :=
  log INFO "Starting scrape of r/%s from %s to %s"
      [ArgS (subreddit self); ArgS (start_date self); ArgS (end_date self)] ;;
  submission_iterator <-
    (if Py.truthy_list (keywords self) then
       log INFO "Searching with keywords: %s" [ArgL (default [] (keywords self))] ;;
       ret (RedditClient.search_submissions (reddit self) (subreddit self)
              (default [] (keywords self)) "year" (min_score self) (flairs self))
     else
       log INFO "Listing recent posts from /new" [] ;;
       ret (RedditClient.list_submission_ids (reddit self) (subreddit self)
              (start_date self) (end_date self) (min_score self) (flairs self))) ;;
  tqdm.__init__ ;;
  try_finally
    (run_loop fuel self submission_iterator ;;
     n <- tqdm.n ;;
     log INFO "Scraping finished – %d new posts saved" [ArgD n] ;;
     ret n)
    (tqdm.close ;;
     ProgressTracker.close (progress self)).

End host.

End Scraper.

(** The Python-level handler of the world, run on receipt of [sig]; [None]
    when no handler is installed for it. *)
Definition on_signal (sig : signum) (w : world) : option (result unit * world) :=
  match handler_of (w_handlers w) sig with
  | Some (GracefulExit progress_db) =>
      Some (Scraper._handler {| ProgressTracker.db_path := progress_db |} sig w)
  | None => None
  end.

(* ===================================================================== *)
(** ** [reddit_scraper/cli.py] *)
(* ===================================================================== *)

(** [pathlib] on POSIX: the parts of a relative string, and [p / s]. *)
Module Pathlib.

Definition parts (s : string) : list string :=
  filter (λ c, c ≠ "" ∧ c ≠ ".") (Py.split "/" s).

Definition div (p : path) (s : string) : path :=
  match s with
  | String "/" _ => "/" :: parts s
  | _ => p ++ parts s
  end.

Definition parent (p : path) : path := removelast p.
Definition name (p : path) : string := List.last p "".

End Pathlib.

Module cli.

Record Namespace : Type := {
  subreddit : string;
  start_date : string;
  end_date : string;
  min_score : option Z;
  flair : option string;
  keywords : option string;
  csv : bool;
  txt : bool;
  merged : bool;
  log_level : string;
  log_file : option string;
}.

Definition _slug (date : string) : string := Py.replace_char "-" "_" date.

Record paths : Type := {
  p_tag : string;
  p_ndjson : path;
  p_progress : path;
  p_csv_sub : path;
  p_csv_com : path;
  p_txt_dir : path;
  p_merged : path;
}.

Section WithRoot.

Context {host : Py.Host}.

(** [ROOT = Path(__file__).parent.parent] *)
Variable ROOT : path.

Definition OUT_BASE : path := Pathlib.div ROOT "outputs".

Definition build_paths (sub start end_ : string) : paths :=
  let tag := sub +:+ "_" +:+ _slug start +:+ "__" +:+ _slug end_ in
  let txt_root := Pathlib.div OUT_BASE "txt" in
  {| p_tag := tag;
     p_ndjson := Pathlib.div (Pathlib.div OUT_BASE "data") ("output_" +:+ tag +:+ ".ndjson");
     p_progress := Pathlib.div (Pathlib.div OUT_BASE "progress") ("progress_" +:+ tag +:+ ".sqlite");
     p_csv_sub := Pathlib.div (Pathlib.div OUT_BASE "csv") ("output_" +:+ tag +:+ "_submissions.csv");
     p_csv_com := Pathlib.div (Pathlib.div OUT_BASE "csv") ("output_" +:+ tag +:+ "_comments.csv");
     p_txt_dir := Pathlib.div txt_root ("conversations_" +:+ tag);
     p_merged := Pathlib.div txt_root ("all_conversations_" +:+ tag +:+ ".txt") |}.

(** The Scraper [main] builds from its arguments (lines 71 to 94). *)
Definition make_scraper (api : praw_api) (args : Namespace) : M Scraper.t :=
  let flair_list :=
    if Py.truthy_str (flair args)
    then Some (Py.strip <$> Py.split "," (default "" (flair args)))
    else None in
  let keyword_list :=
    if Py.truthy_str (keywords args)
    then Some (Py.strip <$> Py.split "," (default "" (keywords args)))
    else None in
  let paths := build_paths (subreddit args) (start_date args) (end_date args) in
  Scraper.__init__ api (subreddit args) (start_date args) (end_date args)
    (p_ndjson paths) (min_score args) flair_list keyword_list (p_progress paths).

(** Modelled from the spec: the exporters [ndjson_to_csv] and
    [ndjson_to_txt] and the merge script are external collaborators, not
    among the sources.  A step outside the scraper is a call that is made
    and that raises when the host makes it fail: an exporter by an exception
    of its own, [subprocess.run] with [check=True] on a status other than
    zero, [rename] on an error of the file system. *)
Definition external (step : external_step) (ev : event) : M unit :=
  emit ev ;;
  match Py.export_failure step with
  | Some e => raise e
  | None => ret tt
  end.

(** What [main] does with the count [scraper.run()] returned (lines 98 to 132). *)
Definition export_steps (args : Namespace) (posts_saved_count : Z) : M unit :=
  let paths := build_paths (subreddit args) (start_date args) (end_date args) in
  if (posts_saved_count =? 0)%Z then
    log INFO "No new posts were saved, skipping export steps." []
  else
    (if csv args then
       log INFO "CSV export …" [] ;;
       external CsvExport
         (EvCsvExport (p_ndjson paths) (p_csv_sub paths) (p_csv_com paths)) ;;
       log INFO "CSV ready in %s" [ArgL (Pathlib.parent (p_csv_sub paths))]
     else ret tt) ;;
    (if txt args || merged args then
       log INFO "TXT export …" [] ;;
       external TxtExport (EvTxtExport (p_ndjson paths) (p_txt_dir paths)) ;;
       log INFO "TXT files in %s" [ArgL (p_txt_dir paths)]
     else ret tt) ;;
    (if merged args then
       log INFO "Merging TXT files …" [] ;;
       let merge_script := Pathlib.div (Pathlib.div ROOT "scripts") "merge_contents.py" in
       external MergeScript
         (EvMergeScript merge_script (p_txt_dir paths) (Pathlib.parent (p_txt_dir paths))) ;;
       let generated := Pathlib.div (Pathlib.parent (p_txt_dir paths))
                                    (Pathlib.name (p_txt_dir paths) +:+ ".txt") in
       external RenameMerged (EvRenameIfExists generated (p_merged paths)) ;;
       log INFO "Merged → %s" [ArgL (p_merged paths)]
     else ret tt).

Definition main (fuel : nat) (api : praw_api) (args : Namespace) : M unit :=
  emit (EvSetupLogging (log_level args) (log_file args)) ;;
  scraper <- make_scraper api args ;;
  posts_saved_count <- Scraper.run fuel scraper ;;
  export_steps args posts_saved_count.

End WithRoot.

End cli.

(* ===================================================================== *)
(** ** Notions the statements use *)
(* ===================================================================== *)

Section Verification.
Context {host : Py.Host}.

(** The iterator [run] binds to [submission_iterator] (lines 53 to 71). *)
Definition iterator_of (self : Scraper.t) : iter item :=
  if Py.truthy_list (Scraper.keywords self) then
    RedditClient.search_submissions (Scraper.reddit self) (Scraper.subreddit self)
      (default [] (Scraper.keywords self)) "year"
      (Scraper.min_score self) (Scraper.flairs self)
  else
    RedditClient.list_submission_ids (Scraper.reddit self) (Scraper.subreddit self)
      (Scraper.start_date self) (Scraper.end_date self)
      (Scraper.min_score self) (Scraper.flairs self).

(** The identifiers a discovery sequence yields, in order. *)
Definition yielded_ids (it : iter item) : list string := item_id <$> iter_items it.

(** The candidates left once the identifiers reported done are skipped: an
    identifier is skipped when it is in [seen] or came earlier in the
    sequence. *)
Fixpoint fresh_ids (seen : gset string) (ids : list string) : list string :=
  match ids with
  | [] => []
  | sid :: rest =>
      if decide (sid ∈ seen) then fresh_ids seen rest
      else sid :: fresh_ids ({[sid]} ∪ seen) rest
  end.

(** No coming operation on the checkpoint store fails. *)
Definition no_faults (w : world) : Prop := Forall (λ o, o = None) (w_store_faults w).

(** The next operation on the checkpoint store does not fail. *)
Definition next_store_op_ok (w : world) : Prop :=
  ∀ e, head (w_store_faults w) ≠ Some (Some e).

(** From request number [t] on, the platform fails [n] times in a row with
    errors the [except] clause names. *)
Definition fails_transiently (api : praw_api) (sid : string) (t n : nat) : Prop :=
  ∀ k, k < n → ∃ e, submission api sid (t + k) = Failed e ∧ RedditClient.transient e = true.

(** Whenever a thread is asked for, the platform delivers it after at most
    [N] transient failures. *)
Definition delivers_within (api : praw_api) (N : nat) : Prop :=
  ∀ sid t, ∃ n sub, n ≤ N ∧ fails_transiently api sid t n
                    ∧ submission api sid (t + n) = Delivered sub.

(** The events of [n] failed attempts, each followed by the backoff. *)
Definition retry_trace (sid : string) (seconds : Z) (n : nat) : list event :=
  mjoin (replicate n [EvRequest sid; EvSleep seconds]).

(** The world after [n] failed attempts and the request that comes next. *)
Definition after_attempts (sid : string) (seconds : Z) (n : nat) (w : world) : world :=
  set_requests (λ r, r + S n)
    (set_trace (λ t, t ++ retry_trace sid seconds n ++ [EvRequest sid]) w).

(** The tree [fetch_submission_tree] builds from a delivered thread. *)
Definition tree_of (sid : string) (sub : praw_submission) : raw_tree :=
  {| rt_submission := RedditClient._extract_submission sid sub;
     rt_comments := RedditClient._extract_comment <$> s_comments sub |}.

(** The three steps that persist one thread, as events. *)
Definition persist_steps (self : Scraper.t) (sid : string) : list event :=
  [EvAppend (Scraper.output self) sid;
   EvMarkDone (ProgressTracker.db_path (Scraper.progress self)) sid;
   EvBarUpdate].

Definition is_persist_step (ev : event) : bool :=
  match ev with
  | EvAppend _ _ | EvMarkDone _ _ | EvBarUpdate => true
  | _ => false
  end.

(** The append, mark-done and count events of a trace, in order. *)
Definition persist_events (tr : list event) : list event :=
  List.filter is_persist_step tr.

(** The checkpointed identifiers of the store of [self]. *)
Definition done_ids (self : Scraper.t) (w : world) : gset string :=
  w_progress w !!! ProgressTracker.db_path (Scraper.progress self).

(** The records in the sink of [self]. *)
Definition sink (self : Scraper.t) (w : world) : list Submission.t :=
  w_output w !!! Scraper.output self.

(** The world after the candidate [sid] was found done and skipped. *)
Definition skipped (sid : string) (w : world) : world :=
  set_trace (λ t, t ++ [EvLog DEBUG "Skip already-scraped id=%s" [ArgS sid]])
    (set_store_faults tail w).

(** The world after the tree [raw] was appended to the sink of [self]. *)
Definition appended (self : Scraper.t) (raw : raw_tree) (w : world) : world :=
  let submission := Submission.from_pushshift_reddit raw in
  set_trace (λ t, t ++ [EvAppend (Scraper.output self) (Submission.id submission)])
    (set_output (λ o, <[Scraper.output self := o !!! Scraper.output self ++ [submission]]> o) w).

(** The world after [sid], appended, was also marked done and the bar
    updated. *)
Definition checkpointed (self : Scraper.t) (sid : string) (raw : raw_tree) (w : world) : world :=
  let db := ProgressTracker.db_path (Scraper.progress self) in
  let submission := Submission.from_pushshift_reddit raw in
  set_trace (λ t, t ++ [EvMarkDone db sid; EvBarUpdate;
                        EvLog DEBUG "Saved id=%s  (%d comments)"
                          [ArgS (Submission.id submission);
                           ArgD (Z.of_nat (length (Submission.comments submission)))]])
    (set_bar_n (λ n, if Py.tqdm_disable then n else (n + 1)%Z)
       (set_progress (λ p, <[db := {[sid]} ∪ p !!! db]> p)
          (set_store_faults tail w))).

(** The world after [is_done] answered and a fetch made [k] requests with
    the events [tr]. *)
Definition fetched (tr : list event) (k : nat) (w : world) : world :=
  set_requests (λ n, n + k) (set_trace (λ t, t ++ tr) (set_store_faults tail w)).

(** The events a fetch of [sid] by [self] can leave. *)
Definition fetch_events (self : Scraper.t) (sid : string) (tr : list event) : Prop :=
  Forall (λ ev, ev = EvRequest sid
                ∨ ev = EvSleep (RedditClient.ratelimit_sleep (Scraper.reddit self))) tr.

(** The ways the loop of [run] can go, one rule for each way out of a turn. *)
Inductive loop_run (self : Scraper.t) : iter item → world → result unit → world → Prop :=
  | LR_stop w :
      loop_run self Stop w (Ret tt) w
  | LR_fail e w :
      loop_run self (Fail e) w (Raise e) w
  | LR_effect u rest w r w' :
      loop_run self rest (set_trace (λ t, t ++ [EvDiscovery u]) w) r w' →
      loop_run self (Effect u rest) w r w'
  | LR_is_done_error it rest w e :
      head (w_store_faults w) = Some (Some e) →
      loop_run self (Yield it rest) w (Raise e) (set_store_faults tail w)
  | LR_skip it rest w r w' :
      next_store_op_ok w →
      item_id it ∈ done_ids self w →
      loop_run self rest (skipped (item_id it) w) r w' →
      loop_run self (Yield it rest) w r w'
  | LR_fetch_error it rest w tr k e :
      next_store_op_ok w →
      item_id it ∉ done_ids self w →
      fetch_events self (item_id it) tr →
      RedditClient.transient e = false →
      loop_run self (Yield it rest) w (Raise e) (fetched tr k w)
  | LR_fetch_running it rest w tr k :
      next_store_op_ok w →
      item_id it ∉ done_ids self w →
      fetch_events self (item_id it) tr →
      loop_run self (Yield it rest) w Diverge (fetched tr k w)
  | LR_mark_done_error it rest w tr k sub e :
      next_store_op_ok w →
      item_id it ∉ done_ids self w →
      fetch_events self (item_id it) tr →
      head (w_store_faults (fetched tr k w)) = Some (Some e) →
      loop_run self (Yield it rest) w (Raise e)
        (set_store_faults tail (appended self (tree_of (item_id it) sub) (fetched tr k w)))
  | LR_save it rest w tr k sub r w' :
      next_store_op_ok w →
      item_id it ∉ done_ids self w →
      fetch_events self (item_id it) tr →
      next_store_op_ok (fetched tr k w) →
      loop_run self rest
        (checkpointed self (item_id it) (tree_of (item_id it) sub)
           (appended self (tree_of (item_id it) sub) (fetched tr k w))) r w' →
      loop_run self (Yield it rest) w r w'.

(** What a run of the loop over the candidates [ids] leaves behind, from the
    world [w] to the world [w'] with result [r]: the candidates [processed]
    before the loop ended, the records [recs] it appended and the identifiers
    [saved] it appended, marked done and counted. *)
Definition loop_summary (self : Scraper.t) (ids : list string)
    (w : world) (r : result unit) (w' : world)
    (tr : list event) (processed : list string)
    (recs : list Submission.t) (saved : list string) : Prop :=
  w_trace w' = w_trace w ++ tr
  ∧ processed `prefix_of` ids
  ∧ (r = Ret tt → processed = ids)
  ∧ sink self w' = sink self w ++ recs
  ∧ Submission.id <$> recs = fresh_ids (done_ids self w) processed
  ∧ done_ids self w' = done_ids self w ∪ list_to_set saved
  ∧ w_bar_n w' = (if Py.tqdm_disable then w_bar_n w
                  else w_bar_n w + Z.of_nat (length saved))%Z
  ∧ (∀ s, EvRequest s ∈ tr → s ∉ done_ids self w)
  ∧ ((persist_events tr = saved ≫= persist_steps self
      ∧ Submission.id <$> recs = saved)
     ∨ (∃ sid e, r = Raise e
          ∧ persist_events tr
            = (saved ≫= persist_steps self) ++ [EvAppend (Scraper.output self) sid]
          ∧ Submission.id <$> recs = saved ++ [sid])).

(** The events [run] adds around those of its loop. *)
Definition run_prologue (self : Scraper.t) : list event :=
  [EvLog INFO "Starting scrape of r/%s from %s to %s"
     [ArgS (Scraper.subreddit self); ArgS (Scraper.start_date self);
      ArgS (Scraper.end_date self)];
   (if Py.truthy_list (Scraper.keywords self)
    then EvLog INFO "Searching with keywords: %s" [ArgL (default [] (Scraper.keywords self))]
    else EvLog INFO "Listing recent posts from /new" []);
   EvBarOpen].

Definition run_epilogue (self : Scraper.t) : list event :=
  [EvBarClose; EvStoreClose (ProgressTracker.db_path (Scraper.progress self))].

(** The world when [run] enters its [try]: two lines logged, the bar opened. *)
Definition started (self : Scraper.t) (w : world) : world :=
  set_trace (λ t, t ++ run_prologue self) (set_bar_n (λ _, 0%Z) w).

(** The world after the [finally] of [run]. *)
Definition cleaned_up (self : Scraper.t) (w : world) : world :=
  set_trace (λ t, t ++ run_epilogue self)
    (set_open (λ o, o ∖ {[ProgressTracker.db_path (Scraper.progress self)]}) w).

(** The world after the loop of [run] ended normally and the count was logged. *)
Definition finished (w : world) : world :=
  set_trace (λ t, t ++ [EvLog INFO "Scraping finished – %d new posts saved" [ArgD (w_bar_n w)]]) w.

(** The dictionary a discovery generator yields for a record. *)
Definition item_of (sub : praw_listing) : item :=
  {| item_id := sub_id sub;
     item_created_utc := sub_created_utc sub;
     item_score := sub_score sub;
     item_link_flair_text := sub_link_flair_text sub |}.

(** The record gets past the score test and the flair test of the loops. *)
Definition kept (min_score : option Z) (flair_set : option (gset string))
    (sub : praw_listing) : bool :=
  negb (Py.truthy_int min_score && (sub_score sub <? default 0 min_score)%Z)
  && negb (Py.truthy_set flair_set
           && negb (bool_decide (Py.lower (Py.or_empty (sub_link_flair_text sub))
                                 ∈ default ∅ flair_set))).

(** The filters in the words of the spec: the score is not strictly below a
    supplied minimum, and the flair, the empty string when absent, matches a
    value of a supplied allow-list up to case. *)
Definition score_ok (min_score : option Z) (sub : praw_listing) : Prop :=
  match min_score with
  | Some m => (m ≤ sub_score sub)%Z
  | None => True
  end.

Definition flair_ok (flairs : option (list string)) (sub : praw_listing) : Prop :=
  match flairs with
  | Some allowed =>
      Py.lower (default "" (sub_link_flair_text sub)) ∈ Py.lower <$> allowed
  | None => True
  end.

Global Instance score_ok_dec min_score sub : Decision (score_ok min_score sub).
Proof. destruct min_score; cbn; apply _. Defined.
Global Instance flair_ok_dec flairs sub : Decision (flair_ok flairs sub).
Proof. destruct flairs; cbn; apply _. Defined.

(** The records the range scan goes through: those that come before the
    first record older than the start boundary. *)
Fixpoint scanned (after : Z) (subs : list praw_listing) : list praw_listing :=
  match subs with
  | [] => []
  | sub :: rest =>
      if (sub_created_utc sub <? after)%Z then [] else sub :: scanned after rest
  end.

(** The records the range scan pulls from the listing: the scanned ones and
    the first record older than the start boundary. *)
Fixpoint pulled (after : Z) (subs : list praw_listing) : list praw_listing :=
  match subs with
  | [] => []
  | sub :: rest =>
      sub :: (if (sub_created_utc sub <? after)%Z then [] else pulled after rest)
  end.

(** A listing that is newest first. *)
Fixpoint newest_first (subs : list praw_listing) : Prop :=
  match subs with
  | [] => True
  | sub :: rest =>
      Forall (λ s, (sub_created_utc s ≤ sub_created_utc sub)%Z) rest ∧ newest_first rest
  end.

(** The same Scraper asked for other dates. *)
Definition with_dates (self : Scraper.t) (start_date end_date : string) : Scraper.t :=
  {| Scraper.subreddit := Scraper.subreddit self;
     Scraper.start_date := start_date;
     Scraper.end_date := end_date;
     Scraper.min_score := Scraper.min_score self;
     Scraper.flairs := Scraper.flairs self;
     Scraper.keywords := Scraper.keywords self;
     Scraper.output := Scraper.output self;
     Scraper.reddit := Scraper.reddit self;
     Scraper.progress := Scraper.progress self |}.

(** A listing record with the given identifier, timestamp, score and flair. *)
Definition record_of (sid : string) (ts sc : Z) (flair : option string) : praw_listing :=
  {| sub_id := sid; sub_created_utc := ts; sub_score := sc; sub_link_flair_text := flair |}.

(** A record with a negative score and the flair "Discussion". *)
Definition downvoted : praw_listing := record_of "p" 0 (-1) (Some "Discussion").

(** The listing of the early-termination scenario of the spec. *)
Definition feed_100_90_50_10 : list praw_listing :=
  [record_of "a" 100 1 None; record_of "b" 90 1 None;
   record_of "c" 50 1 None; record_of "d" 10 1 None].

(** The query [search_submissions] sends for a list of keywords. *)
Definition or_query (keywords : list string) : string :=
  Py.join " OR " ((λ k, dquote +:+ k +:+ dquote) <$> keywords).

(** The string is a bare ISO calendar date. *)
Definition is_iso_date (s : string) : Prop := is_Some (Datetime.parse_isoformat_date s).

(** The string has no path separator in it. *)
Definition no_slash (s : string) : Prop := Py.contains "/" s = false.

(** The checkpoint store of the Scraper [main] builds from its arguments. *)
Definition checkpoint_store_of (ROOT : path) (api : praw_api) (args : cli.Namespace)
    (w : world) : option path :=
  match (cli.make_scraper ROOT api args w).1 with
  | Ret self => Some (ProgressTracker.db_path (Scraper.progress self))
  | _ => None
  end.

(** A platform with nothing on it. *)
Definition quiet_api : praw_api :=
  {| new := λ _, {| records := []; failure := None |};
     search := λ _ _ _ _, {| records := []; failure := None |};
     submission := λ _ _, Failed NotFound |}.

(** The world before anything ran. *)
Definition empty_world : world :=
  {| w_progress := ∅; w_output := ∅; w_open := ∅; w_store_faults := [];
     w_requests := 0; w_bar_n := 0; w_handlers := []; w_trace := [] |}.

(** Two command lines that differ in the keyword query only. *)
Definition args_keywords (kw : string) : cli.Namespace :=
  {| cli.subreddit := "python"; cli.start_date := "2024-01-01";
     cli.end_date := "2024-01-31"; cli.min_score := None; cli.flair := None;
     cli.keywords := Some kw; cli.csv := false; cli.txt := false;
     cli.merged := false; cli.log_level := "INFO"; cli.log_file := None |}.

(** The command line [--merged] alone, for r/python on 1970-01-01. *)
Definition args_merged : cli.Namespace :=
  {| cli.subreddit := "python"; cli.start_date := "1970-01-01";
     cli.end_date := "1970-01-01"; cli.min_score := None; cli.flair := None;
     cli.keywords := None; cli.csv := false; cli.txt := false;
     cli.merged := true; cli.log_level := "INFO"; cli.log_file := None |}.

(** *** Scenarios *)

(** A thread with no comment. *)
Definition a_thread : praw_submission :=
  {| s_title := "title"; s_selftext := ""; s_created_utc := QArith_base.Qmake 201 2;
     s_author := Some {| redditor_name := "author"; redditor_id := "t2_1" |};
     s_score := 1; s_num_comments := 0; s_link_flair_text := None;
     s_url := "https://example.org/"; s_permalink := "/r/python/"; s_comments := [] |}.

(** A platform whose listings hold [subs] and whose first [failures] thread
    requests fail with [e]; the later ones are answered by [answer]. *)
Definition scripted_api (subs : list praw_listing) (failures : nat) (e : exc)
    (answer : reply) : praw_api :=
  {| new := λ _, {| records := subs; failure := None |};
     search := λ _ _ _ _, {| records := subs; failure := None |};
     submission := λ _ n, if decide (n < failures) then Failed e else answer |}.

(** A world in which the store [db] holds [ids] and nothing else happened. *)
Definition world_with_done (db : path) (ids : list string) : world :=
  {| w_progress := {[ db := list_to_set ids ]}; w_output := ∅; w_open := {[ db ]};
     w_store_faults := []; w_requests := 0; w_bar_n := 0; w_handlers := [];
     w_trace := [] |}.

(** A Scraper of r/python for 1970-01-01 on the platform [api]. *)
Definition scenario_scraper (api : praw_api) (keywords : option (list string)) : Scraper.t :=
  {| Scraper.subreddit := "python"; Scraper.start_date := "1970-01-01";
     Scraper.end_date := "1970-01-01"; Scraper.min_score := None;
     Scraper.flairs := None; Scraper.keywords := keywords;
     Scraper.output := ["output.ndjson"];
     Scraper.reddit := RedditClient.__init__ api 2;
     Scraper.progress := {| ProgressTracker.db_path := ["progress.sqlite"] |} |}.

(** Resume: everything is delivered at once; [a] and [b] are done. *)
Definition resume_api : praw_api :=
  scripted_api feed_100_90_50_10 0 ServerError (Delivered a_thread).
Definition resume_scraper : Scraper.t := scenario_scraper resume_api None.
Definition resume_world : world := world_with_done ["progress.sqlite"] ["a"; "b"].

(** Transient retry: the thread [p4] is delivered at the third request. *)
Definition p4 : item := item_of (record_of "p4" 100 1 None).
Definition retry_api : praw_api :=
  scripted_api [record_of "p4" 100 1 None] 2 ServerError (Delivered a_thread).
Definition retry_scraper : Scraper.t := scenario_scraper retry_api None.
Definition fresh_world : world := world_with_done ["progress.sqlite"] [].

(** Fail fast: the first request for [p4] is refused for good. *)
Definition refusing_api : praw_api :=
  scripted_api [record_of "p4" 100 1 None] 1 (OtherException "OAuthException")
    (Delivered a_thread).
Definition refused_scraper : Scraper.t := scenario_scraper refusing_api None.

(** A deleted thread: the listing still has [p4], and every request for the
    thread is answered with 404. *)
Definition deleted_api : praw_api :=
  scripted_api [record_of "p4" 100 1 None] 0 ServerError (Failed NotFound).

(** Keyword mode: two keywords. *)
Definition keyword_scraper : Scraper.t :=
  scenario_scraper resume_api (Some ["rust"; "golang"]).

(** Fresh run: three threads, all delivered at once, nothing done yet. *)
Definition fresh_api : praw_api :=
  scripted_api [record_of "p1" 300 1 None; record_of "p2" 200 1 None;
                record_of "p3" 100 1 None] 0 ServerError (Delivered a_thread).
Definition fresh_scraper : Scraper.t := scenario_scraper fresh_api None.

(** A world in which the second operation on the checkpoint store fails. *)
Definition failing_store_world : world :=
  set_store_faults (λ _, [None; Some (OtherException "sqlite3.OperationalError")])
    fresh_world.

(** *** Notions of the further properties *)

(** What a dictionary holds of a comment, and the number of its replies. *)
Record comment_row : Type := {
  row_id : string;
  row_parent_id : string;
  row_link_id : string;
  row_author : option string;
  row_body : string;
  row_created_utc : Z;
  row_score : Z;
  row_depth : Z;
  row_replies : nat;
}.

(** The rows of a comment and of its replies at every depth, the comment
    first: what [_extract_comment] is to keep of each, the author by name
    and the timestamp as the whole number [int] makes of it. *)
Fixpoint praw_comment_rows (c : praw_comment) : list comment_row :=
  match c with
  | PrawComment id parent_id link_id author body created_utc score depth _ replies =>
      {| row_id := id; row_parent_id := parent_id; row_link_id := link_id;
         row_author := redditor_name <$> author; row_body := body;
         row_created_utc := Py.int_of_float created_utc; row_score := score;
         row_depth := depth; row_replies := length replies |}
      :: concat (map praw_comment_rows replies)
  end.

(** The rows of a dictionary and of its replies at every depth. *)
Fixpoint comment_dict_rows (c : comment_dict) : list comment_row :=
  match c with
  | CommentDict id parent_id link_id author body created_utc score depth replies =>
      {| row_id := id; row_parent_id := parent_id; row_link_id := link_id;
         row_author := author; row_body := body; row_created_utc := created_utc;
         row_score := score; row_depth := depth; row_replies := length replies |}
      :: concat (map comment_dict_rows replies)
  end.

(** The platform answers every request for [sid], from request number [t]
    on, with an error the [except] clause names. *)
Definition always_transient (api : praw_api) (sid : string) (t : nat) : Prop :=
  ∀ k, ∃ e, submission api sid (t + k) = Failed e ∧ RedditClient.transient e = true.

(** The exceptions [prawcore] raises for a request the platform refuses:
    malformed (400), not authenticated (401), forbidden (403), not found
    (404). *)
Definition refusals : list exc := [BadRequest; InvalidToken; Forbidden; NotFound].

(** The platform refuses every request for [sid], from request number [t]
    on. *)
Definition always_refused (api : praw_api) (sid : string) (t : nat) : Prop :=
  ∀ k, ∃ e, submission api sid (t + k) = Failed e ∧ e ∈ refusals.

(** Calendar order on year, month and day. *)
Definition date_lt (a b : Z * Z * Z) : Prop :=
  let '(y, m, d) := a in
  let '(y', m', d') := b in
  (y < y' ∨ (y = y' ∧ (m < m' ∨ (m = m' ∧ d < d'))))%Z.

(** The first candidate a discovery sequence yields, if it yields one. *)
Fixpoint first_candidate (it : iter item) : option item :=
  match it with
  | Yield a _ => Some a
  | Effect _ rest => first_candidate rest
  | Stop | Fail _ => None
  end.

(** The events of the listing before its first candidate. *)
Fixpoint events_before_first (it : iter item) : list event :=
  match it with
  | Effect u rest => EvDiscovery u :: events_before_first rest
  | _ => []
  end.

(** The export steps [main] can take after a run. *)
Definition is_export_step (ev : event) : bool :=
  match ev with
  | EvCsvExport _ _ _ | EvTxtExport _ _ | EvMergeScript _ _ _ | EvRenameIfExists _ _ => true
  | _ => false
  end.

Definition exports (tr : list event) : list event := List.filter is_export_step tr.

(** The export steps the flags of the command line ask for, in the order
    [main] takes them. *)
Definition exports_for (ROOT : path) (args : cli.Namespace)
    : list (external_step * event) :=
  let paths := cli.build_paths ROOT (cli.subreddit args) (cli.start_date args)
                 (cli.end_date args) in
  (if cli.csv args
   then [(CsvExport,
          EvCsvExport (cli.p_ndjson paths) (cli.p_csv_sub paths) (cli.p_csv_com paths))]
   else [])
  ++ (if cli.txt args || cli.merged args
      then [(TxtExport, EvTxtExport (cli.p_ndjson paths) (cli.p_txt_dir paths))]
      else [])
  ++ (if cli.merged args
      then [(MergeScript,
             EvMergeScript (Pathlib.div (Pathlib.div ROOT "scripts") "merge_contents.py")
               (cli.p_txt_dir paths) (Pathlib.parent (cli.p_txt_dir paths)));
            (RenameMerged,
             EvRenameIfExists
               (Pathlib.div (Pathlib.parent (cli.p_txt_dir paths))
                  (Pathlib.name (cli.p_txt_dir paths) +:+ ".txt"))
               (cli.p_merged paths))]
      else []).

(** The steps taken of a list of steps, up to the first one that fails, and
    the exception it fails with. *)
Fixpoint attempted (steps : list (external_step * event)) : list event * option exc :=
  match steps with
  | [] => ([], None)
  | (step, ev) :: rest =>
      match Py.export_failure step with
      | Some e => ([ev], Some e)
      | None => (ev :: (attempted rest).1, (attempted rest).2)
      end
  end.

(** The file the merge script writes before [main] renames it. *)
Definition generated_of (paths : cli.paths) : path :=
  Pathlib.div (Pathlib.parent (cli.p_txt_dir paths))
    (Pathlib.name (cli.p_txt_dir paths) +:+ ".txt").

(* ===================================================================== *)
(** * Proofs *)
(* ===================================================================== *)

Set Warnings "-clear-no-such-hyp".

(** ** The monad *)

Lemma bind_ret {A B} (m : M A) (k : A → M B) w a w' :
  m w = (Ret a, w') → bind m k w = k a w'.
Proof. unfold bind. by intros ->. Qed.

Lemma bind_raise {A B} (m : M A) (k : A → M B) w e w' :
  m w = (Raise e, w') → bind m k w = (Raise e, w').
Proof. unfold bind. by intros ->. Qed.

Lemma bind_diverge {A B} (m : M A) (k : A → M B) w w' :
  m w = (Diverge, w') → bind m k w = (Diverge, w').
Proof. unfold bind. by intros ->. Qed.

Lemma world_eq w1 w2 :
  w_progress w1 = w_progress w2 → w_output w1 = w_output w2 →
  w_open w1 = w_open w2 → w_store_faults w1 = w_store_faults w2 →
  w_requests w1 = w_requests w2 → w_bar_n w1 = w_bar_n w2 →
  w_handlers w1 = w_handlers w2 → w_trace w1 = w_trace w2 → w1 = w2.
Proof. destruct w1, w2; simpl; congruence. Qed.

(** ** [fetch_submission_tree] *)

Lemma retry_trace_S sid secs n :
  retry_trace sid secs (S n) = EvRequest sid :: EvSleep secs :: retry_trace sid secs n.
Proof. reflexivity. Qed.

Lemma fails_transiently_S api sid t n :
  fails_transiently api sid t (S n) →
  (∃ e, submission api sid t = Failed e ∧ RedditClient.transient e = true)
  ∧ fails_transiently api sid (S t) n.
Proof.
  intros H. split.
  - destruct (H 0) as (e & He & Ht); [lia|]. exists e. by rewrite Nat.add_0_r in He.
  - intros k Hk. destruct (H (S k)) as (e & He & Ht); [lia|].
    exists e. by replace (S t + k) with (t + S k) by lia.
Qed.

Lemma fetch_succeeds n : ∀ fuel self sid w sub,
  fails_transiently (RedditClient.reddit self) sid (w_requests w) n →
  submission (RedditClient.reddit self) sid (w_requests w + n) = Delivered sub →
  n < fuel →
  RedditClient.fetch_submission_tree fuel self sid w
  = (Ret (tree_of sid sub), after_attempts sid (RedditClient.ratelimit_sleep self) n w).
Proof.
  induction n as [|n IH]; intros fuel self sid w sub Hf Hd Hfuel;
    (destruct fuel as [|fuel]; [lia|]); cbn.
  - rewrite Nat.add_0_r in Hd. unfold bind; cbn. rewrite Hd. cbn.
    unfold ret, tree_of, after_attempts. f_equal.
    apply world_eq; cbn; auto. lia.
  - apply fails_transiently_S in Hf as [(e & He & Ht) Hf].
    unfold bind; cbn. rewrite He, Ht. cbn.
    rewrite (IH fuel self sid _ sub); cbn.
    + f_equal. apply world_eq; cbn; auto; try lia.
      unfold retry_trace. by rewrite <- !app_assoc.
    + exact Hf.
    + rewrite <- Hd. f_equal. lia.
    + lia.
Qed.

Lemma fetch_fails_fast n : ∀ fuel self sid w e,
  fails_transiently (RedditClient.reddit self) sid (w_requests w) n →
  submission (RedditClient.reddit self) sid (w_requests w + n) = Failed e →
  RedditClient.transient e = false →
  n < fuel →
  RedditClient.fetch_submission_tree fuel self sid w
  = (Raise e, after_attempts sid (RedditClient.ratelimit_sleep self) n w).
Proof.
  induction n as [|n IH]; intros fuel self sid w e Hf Hd Hnt Hfuel;
    (destruct fuel as [|fuel]; [lia|]); cbn.
  - rewrite Nat.add_0_r in Hd. unfold bind; cbn. rewrite Hd, Hnt. cbn.
    unfold raise, after_attempts. f_equal.
    apply world_eq; cbn; auto. lia.
  - apply fails_transiently_S in Hf as [(e' & He & Ht) Hf].
    unfold bind; cbn. rewrite He, Ht. cbn.
    rewrite (IH fuel self sid _ e); cbn.
    + f_equal. apply world_eq; cbn; auto; try lia.
      unfold retry_trace. by rewrite <- !app_assoc.
    + exact Hf.
    + rewrite <- Hd. f_equal. lia.
    + exact Hnt.
    + lia.
Qed.

Lemma fetch_keeps_retrying n : ∀ self sid w,
  fails_transiently (RedditClient.reddit self) sid (w_requests w) n →
  RedditClient.fetch_submission_tree n self sid w
  = (Diverge,
     set_requests (λ r, r + n)
       (set_trace (λ t, t ++ retry_trace sid (RedditClient.ratelimit_sleep self) n) w)).
Proof.
  induction n as [|n IH]; intros self sid w Hf; cbn.
  - unfold diverge. f_equal. apply world_eq; cbn; auto using app_nil_r. 
  - apply fails_transiently_S in Hf as [(e' & He & Ht) Hf].
    unfold bind; cbn. rewrite He, Ht. cbn.
    rewrite IH by exact Hf. cbn.
    f_equal. apply world_eq; cbn; auto; try lia.
    unfold retry_trace. by rewrite <- !app_assoc.
Qed.

(** Whatever the platform does, only requests and the trace change, the new
    events are requests for [sid] and sleeps, an exception that comes out is
    not one the [except] clause names, and a tree that comes out is the tree
    of [sid]. *)
Lemma fetch_frame fuel : ∀ self sid w r w',
  RedditClient.fetch_submission_tree fuel self sid w = (r, w') →
  ∃ tr k,
    w' = set_requests (λ n, n + k) (set_trace (λ t, t ++ tr) w)
    ∧ Forall (λ ev, ev = EvRequest sid ∨ ev = EvSleep (RedditClient.ratelimit_sleep self)) tr
    ∧ (∀ e, r = Raise e → RedditClient.transient e = false)
    ∧ (∀ raw, r = Ret raw → ∃ sub, raw = tree_of sid sub).
Proof.
  induction fuel as [|fuel IH]; intros self sid w r w' H; cbn in H.
  - injection H as <- <-. exists [], 0. split_and!; try done.
    apply world_eq; cbn; auto using app_nil_r.
  - unfold bind in H; cbn in H.
    destruct (submission (RedditClient.reddit self) sid (w_requests w)) as [sub|e] eqn:Hs.
    + injection H as <- <-. exists [EvRequest sid], 1. split_and!.
      * apply world_eq; cbn; auto. lia.
      * constructor; [by left|]. constructor.
      * done.
      * intros raw [= <-]. by exists sub.
    + destruct (RedditClient.transient e) eqn:Ht; cbn in H.
      * apply IH in H as (tr & k & -> & Htr & Hr & Hraw).
        exists (EvRequest sid :: EvSleep (RedditClient.ratelimit_sleep self) :: tr), (S k).
        split_and!.
        -- apply world_eq; cbn; auto; try lia. by rewrite <- !app_assoc.
        -- constructor; [by left|]. constructor; [by right|]. exact Htr.
        -- exact Hr.
        -- exact Hraw.
      * injection H as <- <-. exists [EvRequest sid], 1. split_and!.
        -- apply world_eq; cbn; auto. lia.
        -- constructor; [by left|]. constructor.
        -- by intros ? [= <-].
        -- done.
Qed.

(** ** One turn of the loop of [run] *)

Section LoopSteps.

Variables (fuel : nat) (self : Scraper.t) (item0 : item) (rest : iter item).
Let sid := item_id item0.

Lemma store_io_ok w :
  next_store_op_ok w →
  ProgressTracker.store_io w = (Ret tt, set_store_faults tail w).
Proof.
  unfold next_store_op_ok, ProgressTracker.store_io. intros H.
  destruct (head (w_store_faults w)) as [[e|]|]; try done. by destruct (H e).
Qed.

Lemma store_io_fails w e :
  head (w_store_faults w) = Some (Some e) →
  ProgressTracker.store_io w = (Raise e, set_store_faults tail w).
Proof. unfold ProgressTracker.store_io. by intros ->. Qed.

Lemma loop_is_done_fails w e :
  head (w_store_faults w) = Some (Some e) →
  Scraper.run_loop fuel self (Yield item0 rest) w = (Raise e, set_store_faults tail w).
Proof.
  intros H. cbn. unfold ProgressTracker.is_done.
  unfold bind at 1 2. by rewrite (store_io_fails _ _ H).
Qed.

Lemma loop_skip w :
  next_store_op_ok w →
  sid ∈ done_ids self w →
  Scraper.run_loop fuel self (Yield item0 rest) w
  = Scraper.run_loop fuel self rest (skipped sid w).
Proof.
  intros H Hin. cbn. unfold ProgressTracker.is_done.
  unfold bind at 1 2. rewrite (store_io_ok _ H). cbn.
  fold sid. unfold done_ids in Hin. cbn.
  rewrite bool_decide_eq_true_2 by exact Hin. reflexivity.
Qed.

Lemma loop_fetch_raises w e w1 :
  next_store_op_ok w →
  sid ∉ done_ids self w →
  RedditClient.fetch_submission_tree fuel (Scraper.reddit self) sid
    (set_store_faults tail w) = (Raise e, w1) →
  Scraper.run_loop fuel self (Yield item0 rest) w = (Raise e, w1).
Proof.
  intros H Hin Hf. cbn. unfold ProgressTracker.is_done.
  unfold bind at 1 2. rewrite (store_io_ok _ H). cbn.
  fold sid. unfold done_ids in Hin.
  rewrite bool_decide_eq_false_2 by exact Hin.
  unfold bind at 1. by rewrite Hf.
Qed.

Lemma loop_fetch_diverges w w1 :
  next_store_op_ok w →
  sid ∉ done_ids self w →
  RedditClient.fetch_submission_tree fuel (Scraper.reddit self) sid
    (set_store_faults tail w) = (Diverge, w1) →
  Scraper.run_loop fuel self (Yield item0 rest) w = (Diverge, w1).
Proof.
  intros H Hin Hf. cbn. unfold ProgressTracker.is_done.
  unfold bind at 1 2. rewrite (store_io_ok _ H). cbn.
  fold sid. unfold done_ids in Hin.
  rewrite bool_decide_eq_false_2 by exact Hin.
  unfold bind at 1. by rewrite Hf.
Qed.

Lemma loop_mark_done_fails w raw w1 e :
  next_store_op_ok w →
  sid ∉ done_ids self w →
  RedditClient.fetch_submission_tree fuel (Scraper.reddit self) sid
    (set_store_faults tail w) = (Ret raw, w1) →
  head (w_store_faults w1) = Some (Some e) →
  Scraper.run_loop fuel self (Yield item0 rest) w
  = (Raise e, set_store_faults tail (appended self raw w1)).
Proof.
  intros H Hin Hf He. cbn. unfold ProgressTracker.is_done.
  unfold bind at 1 2. rewrite (store_io_ok _ H). cbn.
  fold sid. unfold done_ids in Hin.
  rewrite bool_decide_eq_false_2 by exact Hin.
  unfold bind at 1. rewrite Hf.
  unfold bind at 1. cbn. unfold ProgressTracker.mark_done.
  unfold bind at 1 2 3. rewrite (store_io_fails _ e) by exact He.
  reflexivity.
Qed.

Lemma loop_save w raw w1 :
  next_store_op_ok w →
  sid ∉ done_ids self w →
  RedditClient.fetch_submission_tree fuel (Scraper.reddit self) sid
    (set_store_faults tail w) = (Ret raw, w1) →
  next_store_op_ok w1 →
  Scraper.run_loop fuel self (Yield item0 rest) w
  = Scraper.run_loop fuel self rest (checkpointed self sid raw (appended self raw w1)).
Proof.
  intros H Hin Hf He. cbn. unfold ProgressTracker.is_done.
  unfold bind at 1 2. rewrite (store_io_ok _ H). cbn.
  fold sid. unfold done_ids in Hin.
  rewrite bool_decide_eq_false_2 by exact Hin.
  unfold bind at 1. rewrite Hf.
  unfold bind at 1. cbn. unfold ProgressTracker.mark_done.
  unfold bind at 1 2 3. rewrite store_io_ok by exact He.
  cbn. f_equal. apply world_eq; cbn; auto. by rewrite <- !app_assoc.
Qed.

End LoopSteps.

(** ** Every run of the loop follows the rules of [loop_run] *)

Lemma head_store_fault_dec w :
  next_store_op_ok w ∨ ∃ e, head (w_store_faults w) = Some (Some e).
Proof.
  unfold next_store_op_ok.
  destruct (head (w_store_faults w)) as [[e|]|]; [right; by exists e|left..]; done.
Qed.

Lemma run_loop_runs fuel self it : ∀ w,
  loop_run self it w (Scraper.run_loop fuel self it w).1 (Scraper.run_loop fuel self it w).2.
Proof.
  induction it as [|e|u rest IH|it rest IH]; intros w.
  - constructor.
  - constructor.
  - cbn. constructor. apply IH.
  - destruct (head_store_fault_dec w) as [Hok|[e He]].
    2:{ rewrite loop_is_done_fails with (e := e) by exact He. by constructor. }
    destruct (decide (item_id it ∈ done_ids self w)) as [Hin|Hin].
    { rewrite loop_skip by done. apply LR_skip; [done..|]. apply IH. }
    destruct (RedditClient.fetch_submission_tree fuel (Scraper.reddit self)
                (item_id it) (set_store_faults tail w)) as [r w1] eqn:Hf.
    destruct (fetch_frame _ _ _ _ _ _ Hf) as (tr & k & -> & Htr & Hr & Hraw).
    destruct r as [raw|e|].
    + destruct (Hraw raw eq_refl) as [sub ->].
      destruct (head_store_fault_dec (fetched tr k w)) as [Hok1|[e He]].
      * rewrite loop_save with (raw := tree_of (item_id it) sub) (w1 := fetched tr k w) by done.
        eapply LR_save; [done..|]. apply IH.
      * rewrite loop_mark_done_fails with (raw := tree_of (item_id it) sub)
          (w1 := fetched tr k w) (e := e) by done.
        by constructor.
    + rewrite loop_fetch_raises with (e := e) (w1 := fetched tr k w) by done.
      apply LR_fetch_error; [done..|]. by apply Hr.
    + rewrite loop_fetch_diverges with (w1 := fetched tr k w) by done.
      by constructor.
Qed.

(** ** What a run of the loop leaves behind *)

Lemma persist_events_app tr1 tr2 :
  persist_events (tr1 ++ tr2) = persist_events tr1 ++ persist_events tr2.
Proof. apply List.filter_app. Qed.

Lemma persist_events_fetch self sid tr :
  fetch_events self sid tr → persist_events tr = [].
Proof.
  induction 1 as [|ev tr [-> | ->] _ IH]; [done|..]; cbn; exact IH.
Qed.

Lemma fetch_events_request self sid tr s :
  fetch_events self sid tr → EvRequest s ∈ tr → s = sid.
Proof.
  intros Hf Hin. unfold fetch_events in Hf. rewrite Forall_forall in Hf.
  destruct (Hf _ Hin) as [[= ->]|[=]]. done.
Qed.

Lemma done_ids_checkpointed self sid raw w :
  done_ids self (checkpointed self sid raw w) = {[sid]} ∪ done_ids self w.
Proof. unfold done_ids. cbn. by rewrite lookup_total_insert_eq. Qed.

Lemma sink_appended self raw w :
  sink self (appended self raw w) = sink self w ++ [Submission.from_pushshift_reddit raw].
Proof. unfold sink. cbn. by rewrite lookup_total_insert_eq. Qed.

Lemma persist_events_save self sid lvl fmt args tr :
  persist_events (EvAppend (Scraper.output self) sid
                  :: EvMarkDone (ProgressTracker.db_path (Scraper.progress self)) sid
                  :: EvBarUpdate :: EvLog lvl fmt args :: tr)
  = persist_steps self sid ++ persist_events tr.
Proof. reflexivity. Qed.

Lemma loop_run_summary self it w r w' :
  loop_run self it w r w' →
  ∃ tr processed recs saved,
    loop_summary self (yielded_ids it) w r w' tr processed recs saved.
Proof.
  unfold loop_summary.
  induction 1 as
    [ w | e w | u rest w r w' _ IH | it rest w e He
    | it rest w r w' Hok Hin _ IH
    | it rest w tr k e Hok Hin Htr Ht
    | it rest w tr k Hok Hin Htr
    | it rest w tr k sub e Hok Hin Htr He
    | it rest w tr k sub r w' Hok Hin Htr Hok1 _ IH ].
  - exists [], [], [], []. cbn. rewrite !app_nil_r.
    split_and!; try done; [set_solver|by destruct Py.tqdm_disable; lia|set_solver|by left].
  - exists [], [], [], []. cbn. rewrite !app_nil_r.
    split_and!; try done; [set_solver|by destruct Py.tqdm_disable; lia|set_solver|by left].
  - destruct IH as (tr & processed & recs & saved & Htr & Hpre & Hall & Hsink & Hids
                    & Hdone & Hbar & Hreq & Hshape).
    exists (EvDiscovery u :: tr), processed, recs, saved. cbn in *.
    split_and!; try done.
    + by rewrite Htr, <- app_assoc.
    + intros s [[=]|Hs]%elem_of_cons. by apply Hreq.
  - exists [], [], [], []. cbn. rewrite !app_nil_r.
    split_and!; try done; [apply prefix_nil|set_solver|by destruct Py.tqdm_disable; lia|set_solver|by left].
  - destruct IH as (tr & processed & recs & saved & Htr & Hpre & Hall & Hsink & Hids
                    & Hdone & Hbar & Hreq & Hshape).
    exists (EvLog DEBUG "Skip already-scraped id=%s" [ArgS (item_id it)] :: tr),
      (item_id it :: processed), recs, saved.
    cbn in *. split_and!; try done.
    + by rewrite Htr, <- app_assoc.
    + by apply prefix_cons.
    + intros Hr. by rewrite Hall.
    + rewrite decide_True by exact Hin. exact Hids.
    + intros s [[=]|Hs]%elem_of_cons. by apply Hreq.
  - exists tr, [], [], []. cbn. rewrite !app_nil_r.
    split_and!; try done; [apply prefix_nil|set_solver|by destruct Py.tqdm_disable; lia| |].
    + intros s Hs. by rewrite (fetch_events_request _ _ _ _ Htr Hs).
    + left. by rewrite (persist_events_fetch _ _ _ Htr).
  - exists tr, [], [], []. cbn. rewrite !app_nil_r.
    split_and!; try done; [apply prefix_nil|set_solver|by destruct Py.tqdm_disable; lia| |].
    + intros s Hs. by rewrite (fetch_events_request _ _ _ _ Htr Hs).
    + left. by rewrite (persist_events_fetch _ _ _ Htr).
  - exists (tr ++ [EvAppend (Scraper.output self) (item_id it)]), [item_id it],
      [Submission.from_pushshift_reddit (tree_of (item_id it) sub)], [].
    split_and!.
    + cbn. by rewrite <- app_assoc.
    + cbn. apply prefix_cons, prefix_nil.
    + done.
    + apply (sink_appended self _ (fetched tr k w)).
    + cbn. by rewrite decide_False by exact Hin.
    + cbn. set_solver.
    + cbn. destruct Py.tqdm_disable; lia.
    + intros s [Hs|[[=]|Hs%elem_of_nil]%elem_of_cons]%elem_of_app; [|done].
      by rewrite (fetch_events_request _ _ _ _ Htr Hs).
    + right. exists (item_id it), e. split_and!; [done| |done].
      rewrite persist_events_app, (persist_events_fetch _ _ _ Htr). done.
  - destruct IH as (tr' & processed & recs & saved & Htr' & Hpre & Hall & Hsink & Hids
                    & Hdone & Hbar & Hreq & Hshape).
    set (raw := tree_of (item_id it) sub) in *.
    set (submission := Submission.from_pushshift_reddit raw) in *.
    exists (tr ++ EvAppend (Scraper.output self) (item_id it)
               :: EvMarkDone (ProgressTracker.db_path (Scraper.progress self)) (item_id it)
               :: EvBarUpdate
               :: EvLog DEBUG "Saved id=%s  (%d comments)"
                    [ArgS (Submission.id submission);
                     ArgD (Z.of_nat (length (Submission.comments submission)))]
               :: tr'),
      (item_id it :: processed), (submission :: recs), (item_id it :: saved).
    rewrite done_ids_checkpointed in Hids, Hdone, Hreq.
    change (sink self (checkpointed self (item_id it) raw (appended self raw (fetched tr k w))))
      with (sink self (appended self raw (fetched tr k w))) in Hsink.
    rewrite sink_appended in Hsink.
    change (done_ids self (appended self raw (fetched tr k w)))
      with (done_ids self w) in *.
    change (sink self (fetched tr k w)) with (sink self w) in Hsink.
    split_and!.
    + rewrite Htr'. cbn. by rewrite <- !app_assoc.
    + by apply prefix_cons.
    + intros Hr. cbn. by rewrite Hall.
    + rewrite Hsink. by rewrite <- app_assoc.
    + cbn. rewrite decide_False by exact Hin. by rewrite Hids.
    + rewrite Hdone. cbn. set_solver.
    + rewrite Hbar. cbn. destruct Py.tqdm_disable; lia.
    + intros s [Hs|Hs]%elem_of_app.
      { by rewrite (fetch_events_request _ _ _ _ Htr Hs). }
      repeat (apply elem_of_cons in Hs as [[=]|Hs]).
      specialize (Hreq s Hs). set_solver.
    + rewrite persist_events_app, (persist_events_fetch _ _ _ Htr), persist_events_save.
      destruct Hshape as [[Hp Hr]|(sid & e & Hr & Hp & Hrecs)].
      * left. rewrite Hp. cbn. by rewrite Hr.
      * right. exists sid, e. rewrite Hp. cbn. by rewrite Hrecs.
Qed.

(** ** [run] around its loop *)

Lemma run_unfold fuel self w :
  Scraper.run fuel self w
  = match Scraper.run_loop fuel self (iterator_of self) (started self w) with
    | (Ret _, w') => (Ret (w_bar_n w'), cleaned_up self (finished w'))
    | (Raise e, w') => (Raise e, cleaned_up self w')
    | (Diverge, w') => (Diverge, w')
    end.
Proof.
  unfold Scraper.run, iterator_of.
  destruct (Py.truthy_list (Scraper.keywords self)) eqn:Hk;
    match goal with
    | |- context [Scraper.run_loop _ _ ?i _] => generalize i; intros it
    end;
    unfold bind at 1; cbn; unfold bind at 1; cbn; unfold bind at 1; cbn;
    unfold try_finally.
  all: match goal with
       | |- context [Scraper.run_loop _ ?s _ ?w1] =>
           match goal with
           | |- context [started s ?w] =>
               replace w1 with (started s w)
                 by (unfold started, run_prologue; apply world_eq; cbn; rewrite ?Hk; cbn;
                     auto; by rewrite <- !app_assoc)
           end
       end.
  all: match goal with
       | |- context [Scraper.run_loop ?f ?s ?i ?w1] =>
           destruct (Scraper.run_loop f s i w1) as [[[]|e|] w']
       end;
    unfold cleaned_up, finished, run_epilogue, ret; cbn;
    try reflexivity;
    (apply (f_equal (pair _)); apply world_eq; cbn; auto; by rewrite <- !app_assoc).
Qed.

(** ** The candidates that remain *)

Lemma fresh_ids_not_done ids : ∀ seen sid, sid ∈ fresh_ids seen ids → sid ∉ seen.
Proof.
  induction ids as [|x ids IH]; intros seen sid; cbn; [by intros ?%elem_of_nil|].
  destruct (decide (x ∈ seen)) as [Hx|Hx]; [apply IH|].
  intros [->|Hin]%elem_of_cons; [done|].
  apply IH in Hin. set_solver.
Qed.

Lemma fresh_ids_sublist ids : ∀ seen, fresh_ids seen ids `sublist_of` ids.
Proof.
  induction ids as [|x ids IH]; intros seen; cbn; [done|].
  destruct (decide (x ∈ seen)); [by apply sublist_cons|by apply sublist_skip].
Qed.

Lemma filter_ext_elem_of {A} (P Q : A → Prop) `{!∀ x, Decision (P x), !∀ x, Decision (Q x)}
    (l : list A) :
  (∀ x, x ∈ l → P x ↔ Q x) → filter P l = filter Q l.
Proof.
  induction l as [|a l IH]; intros Hext; [done|].
  rewrite !filter_cons.
  assert (filter P l = filter Q l) as -> by (apply IH; intros; apply Hext; by right).
  destruct (decide (P a)) as [HP|HP], (decide (Q a)) as [HQ|HQ]; try done.
  - destruct HQ. by apply (Hext a); [left|].
  - destruct HP. by apply (Hext a); [left|].
Qed.

Lemma fresh_ids_NoDup ids : ∀ seen,
  NoDup ids → fresh_ids seen ids = filter (λ sid, sid ∉ seen) ids.
Proof.
  induction ids as [|x ids IH]; intros seen Hnd; cbn [fresh_ids]; [done|].
  apply NoDup_cons in Hnd as [Hx Hnd].
  destruct (decide (x ∈ seen)) as [Hd|Hd].
  - rewrite filter_cons_False by (intros ?; done). by apply IH.
  - rewrite filter_cons_True by done. f_equal. rewrite IH by done.
    apply filter_ext_elem_of. intros y Hy. split; [set_solver|].
    intros Hyd. apply not_elem_of_union. split; [|done].
    apply not_elem_of_singleton. by intros ->.
Qed.

Lemma elem_of_persist_events ev tr :
  ev ∈ tr → is_persist_step ev = true → ev ∈ persist_events tr.
Proof.
  intros Hin Hp. apply list_elem_of_In, List.filter_In.
  split; [by apply list_elem_of_In|done].
Qed.

Lemma elem_of_persist_steps self ev saved :
  ev ∈ saved ≫= persist_steps self →
  ∃ sid, sid ∈ saved
         ∧ (ev = EvAppend (Scraper.output self) sid
            ∨ ev = EvMarkDone (ProgressTracker.db_path (Scraper.progress self)) sid
            ∨ ev = EvBarUpdate).
Proof.
  intros (sid & Hev & Hsid)%list_elem_of_bind. exists sid. split; [done|].
  unfold persist_steps in Hev.
  repeat (apply elem_of_cons in Hev as [->|Hev]); auto.
  by apply elem_of_nil in Hev.
Qed.

(** ** When nothing fails, the loop returns *)

Lemma no_faults_next w : no_faults w → next_store_op_ok w.
Proof.
  unfold no_faults, next_store_op_ok. intros H e He.
  destruct (w_store_faults w) as [|o l]; [done|].
  apply Forall_cons in H as [-> _]. done.
Qed.

Lemma no_faults_tail w w' :
  w_store_faults w' = tail (w_store_faults w) → no_faults w → no_faults w'.
Proof.
  unfold no_faults. intros -> H.
  destruct (w_store_faults w); [done|]. by apply Forall_cons in H as [_ ?].
Qed.

Lemma run_loop_returns fuel N self it :
  delivers_within (RedditClient.reddit (Scraper.reddit self)) N →
  N < fuel →
  iter_end it = None →
  ∀ w, no_faults w → (Scraper.run_loop fuel self it w).1 = Ret tt.
Proof.
  intros Hd Hfuel. induction it as [|e|u rest IH|it rest IH]; intros Hend w Hnf.
  - done.
  - done.
  - cbn. apply IH; [done|]. exact Hnf.
  - pose proof (no_faults_next _ Hnf) as Hok.
    destruct (decide (item_id it ∈ done_ids self w)) as [Hin|Hin].
    { rewrite loop_skip by done. apply IH; [done|].
      by apply (no_faults_tail w). }
    destruct (Hd (item_id it) (w_requests w)) as (n & sub & Hn & Hfail & Hdel).
    pose proof (fetch_succeeds n fuel (Scraper.reddit self) (item_id it)
                  (set_store_faults tail w) sub Hfail Hdel ltac:(lia)) as Hfetch.
    assert (no_faults (after_attempts (item_id it)
              (RedditClient.ratelimit_sleep (Scraper.reddit self)) n
              (set_store_faults tail w))) as Hnf1 by by apply (no_faults_tail w).
    rewrite (loop_save fuel self it rest w _ _ Hok Hin Hfetch (no_faults_next _ Hnf1)).
    apply IH; [done|]. revert Hnf1. by apply no_faults_tail.
Qed.

(** ** From the loop to [run] *)

Lemma run_loop_summary fuel self w :
  ∃ tr processed recs saved,
    loop_summary self (yielded_ids (iterator_of self)) (started self w)
      (Scraper.run_loop fuel self (iterator_of self) (started self w)).1
      (Scraper.run_loop fuel self (iterator_of self) (started self w)).2
      tr processed recs saved.
Proof. apply loop_run_summary, run_loop_runs. Qed.

Lemma persist_events_prologue self : persist_events (run_prologue self) = [].
Proof. unfold run_prologue. by destruct (Py.truthy_list _). Qed.

Lemma run_prologue_no_request self s : EvRequest s ∉ run_prologue self.
Proof.
  unfold run_prologue. destruct (Py.truthy_list _);
    intros H; repeat (apply elem_of_cons in H as [[=]|H]); by apply elem_of_nil in H.
Qed.

(** The trace, the sink and the store after [run], in terms of its loop. *)
Lemma run_world fuel self w :
  let loop := Scraper.run_loop fuel self (iterator_of self) (started self w) in
  let res := Scraper.run fuel self w in
  ∃ tail_events,
    (∀ tr, w_trace loop.2 = w_trace (started self w) ++ tr →
           w_trace res.2 = w_trace w ++ run_prologue self ++ tr ++ tail_events)
    ∧ persist_events tail_events = []
    ∧ (∀ s, EvRequest s ∉ tail_events)
    ∧ (loop.1 ≠ Diverge → ∃ pre, tail_events = pre ++ run_epilogue self)
    ∧ sink self res.2 = sink self loop.2
    ∧ done_ids self res.2 = done_ids self loop.2
    ∧ res.1 = match loop.1 with
              | Ret _ => Ret (w_bar_n loop.2)
              | Raise e => Raise e
              | Diverge => Diverge
              end.
Proof.
  intros loop res. subst res. rewrite run_unfold. fold loop.
  destruct loop as [[[]|e|] w1] eqn:Hloop; cbn.
  - exists (EvLog INFO "Scraping finished – %d new posts saved" [ArgD (w_bar_n w1)]
            :: run_epilogue self).
    split_and!; try done.
    + intros tr ->. cbn. by rewrite <- !app_assoc.
    + intros s H. repeat (apply elem_of_cons in H as [[=]|H]). by apply elem_of_nil in H.
    + intros _. by eexists [_].
  - exists (run_epilogue self). split_and!; try done.
    + intros tr ->. cbn. by rewrite <- !app_assoc.
    + intros s H. repeat (apply elem_of_cons in H as [[=]|H]). by apply elem_of_nil in H.
    + intros _. by exists [].
  - exists []. split_and!; try done.
    + intros tr ->. cbn. by rewrite <- !app_assoc, app_nil_r.
    + intros s H. by apply elem_of_nil in H.
Qed.

(** ** A candidate the platform never delivers *)

Lemma always_transient_fails api sid t n :
  always_transient api sid t → fails_transiently api sid t n.
Proof. intros H k _. apply H. Qed.

Lemma loop_stuck fuel self it0 : ∀ it w,
  first_candidate it = Some it0 →
  next_store_op_ok w →
  item_id it0 ∉ done_ids self w →
  always_transient (RedditClient.reddit (Scraper.reddit self)) (item_id it0) (w_requests w) →
  Scraper.run_loop fuel self it w
  = (Diverge,
     set_requests (λ r, r + fuel)
       (set_trace (λ t, t ++ events_before_first it
                          ++ retry_trace (item_id it0)
                               (RedditClient.ratelimit_sleep (Scraper.reddit self)) fuel)
          (set_store_faults tail w))).
Proof.
  induction it as [|e|u rest IH|it rest _]; intros w Hfirst Hok Hin Hdown; try done.
  - change (Scraper.run_loop fuel self (Effect u rest) w)
      with (Scraper.run_loop fuel self rest (set_trace (λ t, t ++ [EvDiscovery u]) w)).
    rewrite (IH (set_trace (λ t, t ++ [EvDiscovery u]) w) Hfirst Hok Hin Hdown). f_equal.
    apply world_eq; cbn; auto. by rewrite <- app_assoc.
  - injection Hfirst as ->.
    erewrite loop_fetch_diverges; [reflexivity|done|done|].
    by rewrite (fetch_keeps_retrying fuel (Scraper.reddit self) (item_id it0)
                  (set_store_faults tail w) (always_transient_fails _ _ _ _ Hdown)).
Qed.

Lemma always_refused_transient api sid t :
  always_refused api sid t → always_transient api sid t.
Proof.
  intros H k. destruct (H k) as (e & He & Hin). exists e. split; [done|].
  unfold refusals in Hin.
  repeat (apply elem_of_cons in Hin as [->|Hin]); try done. by apply elem_of_nil in Hin.
Qed.

(* ===================================================================== *)
(** * The claims *)
(* ===================================================================== *)

(** C8. Persistence ordering.  Whatever the platform and the store do and
    however the run ends, the records [run] appends to its sink are those of
    the candidates not yet done among a prefix of the discovery sequence, in
    the order of that sequence, and when [run] returns that prefix is the
    whole sequence: no candidate that was not done is left out.  The append,
    mark-done and count events of the run are, thread after thread, the
    append of the record, then the mark in the checkpoint store, then the
    update of the count, with nothing of another thread in between.  Only
    the last thread can be cut short: its append is followed by no mark when
    the store fails, and then the run raises. *)
Theorem persistence_order fuel self w :
  ∃ tr processed recs saved,
    w_trace (Scraper.run fuel self w).2 = w_trace w ++ tr
    ∧ processed `prefix_of` yielded_ids (iterator_of self)
    ∧ (∀ n, (Scraper.run fuel self w).1 = Ret n →
            processed = yielded_ids (iterator_of self)
            ∧ persist_events tr
              = fresh_ids (done_ids self w) (yielded_ids (iterator_of self))
                ≫= persist_steps self)
    ∧ sink self (Scraper.run fuel self w).2 = sink self w ++ recs
    ∧ Submission.id <$> recs = fresh_ids (done_ids self w) processed
    ∧ Submission.id <$> recs `sublist_of` yielded_ids (iterator_of self)
    ∧ ((persist_events tr = saved ≫= persist_steps self
        ∧ Submission.id <$> recs = saved)
       ∨ (∃ sid e, (Scraper.run fuel self w).1 = Raise e
            ∧ persist_events tr
              = (saved ≫= persist_steps self) ++ [EvAppend (Scraper.output self) sid]
            ∧ Submission.id <$> recs = saved ++ [sid])).
Proof.
  destruct (run_loop_summary fuel self w)
    as (tr & processed & recs & saved & Htr & Hpre & Hall & Hsink & Hids
        & Hdone & Hbar & Hreq & Hshape).
  destruct (run_world fuel self w)
    as (tl & Htrace & Htl & _ & _ & Hsink' & _ & Hres).
  exists (run_prologue self ++ tr ++ tl), processed, recs, saved.
  split_and!.
  - by apply Htrace.
  - exact Hpre.
  - intros n Hn. rewrite Hres in Hn.
    destruct (Scraper.run_loop fuel self (iterator_of self) (started self w)).1
      as [[]|e|] eqn:Hloop; [|done..].
    specialize (Hall eq_refl). subst processed. split; [done|].
    rewrite !persist_events_app, persist_events_prologue, Htl, app_nil_r.
    destruct Hshape as [[Hp Hr]|(? & ? & [=] & _)].
    change ([] ++ persist_events tr) with (persist_events tr).
    rewrite Hp, <- Hr, Hids. done.
  - by rewrite Hsink', Hsink.
  - exact Hids.
  - rewrite Hids. etrans; [apply fresh_ids_sublist|].
    destruct Hpre as [k ->]. by apply sublist_inserts_r.
  - rewrite !persist_events_app, persist_events_prologue, Htl, app_nil_r.
    change ([] ++ persist_events tr) with (persist_events tr).
    destruct Hshape as [?|(sid & e & Hr & Hp & Hrecs)]; [by left|].
    right. exists sid, e. split_and!; [|done..].
    by rewrite Hres, Hr.
Qed.

(** C1. Resume correctness.  When the platform delivers every thread after at
    most [N] transient failures, the store does not fail and discovery ends
    normally, [run] returns; it has appended exactly the records of the
    candidates that remain once those reported done are skipped, in order,
    marked exactly them done, and left no request, append or mark for an
    identifier that was done; a candidate found done is skipped with a debug
    line as its only trace.  The count [run] returns is the counter of its
    progress bar: when the bar is not disabled, it is the number of the
    remaining candidates.  With [a] and [b] done and the candidates
    [a; b; c; d] the run persists [c; d] and, the bar not disabled,
    returns 2.  When [run] returns 0, all [main] does after it is log one
    line: no export step runs. *)
Theorem resume_correctness :
  (∀ fuel N self w,
     delivers_within (RedditClient.reddit (Scraper.reddit self)) N →
     N < fuel →
     no_faults w →
     iter_end (iterator_of self) = None →
     let candidates := yielded_ids (iterator_of self) in
     let remaining := fresh_ids (done_ids self w) candidates in
     ∃ w' tr recs n,
       Scraper.run fuel self w = (Ret n, w')
       ∧ (Py.tqdm_disable = false → n = Z.of_nat (length remaining))
       ∧ w_trace w' = w_trace w ++ tr
       ∧ sink self w' = sink self w ++ recs
       ∧ Submission.id <$> recs = remaining
       ∧ done_ids self w' = done_ids self w ∪ list_to_set remaining
       ∧ persist_events tr = remaining ≫= persist_steps self
       ∧ (∀ sid, sid ∈ done_ids self w →
            (EvRequest sid ∉ tr)
            ∧ (EvAppend (Scraper.output self) sid ∉ tr)
            ∧ (EvMarkDone (ProgressTracker.db_path (Scraper.progress self)) sid ∉ tr))
       ∧ (NoDup candidates →
            remaining = filter (λ sid, sid ∉ done_ids self w) candidates)
       ∧ (done_ids self w = {["a"; "b"]} → candidates = ["a"; "b"; "c"; "d"] →
            Submission.id <$> recs = ["c"; "d"]
            ∧ (Py.tqdm_disable = false → Scraper.run fuel self w = (Ret 2%Z, w'))))
  ∧ (∀ fuel self it rest w,
       next_store_op_ok w →
       item_id it ∈ done_ids self w →
       Scraper.run_loop fuel self (Yield it rest) w
       = Scraper.run_loop fuel self rest
           (set_trace (λ t, t ++ [EvLog DEBUG "Skip already-scraped id=%s" [ArgS (item_id it)]])
              (set_store_faults tail w)))
  ∧ (∀ ROOT fuel api args w scraper w0 w1,
       cli.make_scraper ROOT api args
         (set_trace (λ t, t ++ [EvSetupLogging (cli.log_level args) (cli.log_file args)]) w)
       = (Ret scraper, w0) →
       Scraper.run fuel scraper w0 = (Ret 0%Z, w1) →
       cli.main ROOT fuel api args w
       = (Ret tt, set_trace (λ t, t ++ [EvLog INFO "No new posts were saved, skipping export steps." []]) w1)).
Proof.
  split_and!.
  - intros fuel N self w Hd Hfuel Hnf Hend candidates remaining.
    destruct (run_loop_summary fuel self w)
      as (tr & processed & recs & saved & Htr & Hpre & Hall & Hsink & Hids
          & Hdone & Hbar & Hreq & Hshape).
    destruct (run_world fuel self w)
      as (tl & Htrace & Htl & Htlreq & _ & Hsink' & Hdone' & Hres).
    assert (Hret : (Scraper.run_loop fuel self (iterator_of self) (started self w)).1 = Ret tt).
    { apply (run_loop_returns fuel N); try done. }
    rewrite Hret in Hres, Hshape, Hall.
    specialize (Hall eq_refl). subst processed.
    destruct Hshape as [[Hp Hrecs]|(? & ? & [=] & _)].
    change (done_ids self (started self w)) with (done_ids self w) in *.
    change (sink self (started self w)) with (sink self w) in *.
    fold candidates in Hids. fold remaining in Hids.
    assert (saved = remaining) as -> by congruence.
    assert (Hn : Py.tqdm_disable = false →
                 w_bar_n (Scraper.run_loop fuel self (iterator_of self) (started self w)).2
                 = Z.of_nat (length remaining)).
    { intros Hbar_on. rewrite Hbar, Hbar_on. cbn. lia. }
    exists (Scraper.run fuel self w).2, (run_prologue self ++ tr ++ tl), recs,
      (w_bar_n (Scraper.run_loop fuel self (iterator_of self) (started self w)).2).
    assert (Hrun : Scraper.run fuel self w
                   = (Ret (w_bar_n (Scraper.run_loop fuel self (iterator_of self)
                                      (started self w)).2),
                      (Scraper.run fuel self w).2)).
    { rewrite <- Hres. by destruct (Scraper.run fuel self w). }
    assert (Hpe : persist_events (run_prologue self ++ tr ++ tl)
                  = remaining ≫= persist_steps self).
    { by rewrite !persist_events_app, persist_events_prologue, Htl, app_nil_r. }
    split_and!.
    + exact Hrun.
    + exact Hn.
    + by apply Htrace.
    + by rewrite Hsink', Hsink.
    + exact Hids.
    + by rewrite Hdone', Hdone.
    + exact Hpe.
    + intros sid Hsid. split_and!.
      * intros [Hin|[Hin|Hin]%elem_of_app]%elem_of_app.
        -- by apply run_prologue_no_request in Hin.
        -- by apply Hreq in Hin.
        -- by apply Htlreq in Hin.
      * intros Hin. apply elem_of_persist_events in Hin; [|done].
        rewrite Hpe in Hin. apply elem_of_persist_steps in Hin as (s & Hs & Hev).
        apply fresh_ids_not_done in Hs. destruct Hev as [[= ->]|[[=]|[=]]]. done.
      * intros Hin. apply elem_of_persist_events in Hin; [|done].
        rewrite Hpe in Hin. apply elem_of_persist_steps in Hin as (s & Hs & Hev).
        apply fresh_ids_not_done in Hs. destruct Hev as [[=]|[[= ->]|[=]]]. done.
    + intros Hnd. by apply fresh_ids_NoDup.
    + intros Hab Hcand.
      assert (remaining = ["c"; "d"]) as Hrem.
      { subst remaining. rewrite Hab, Hcand. by vm_compute. }
      split; [by rewrite <- Hrem|].
      intros Hbar_on. rewrite Hrun, (Hn Hbar_on), Hrem. done.
  - intros. by apply loop_skip.
  - intros ROOT fuel api args w scraper w0 w1 Hmk Hrun.
    unfold cli.main, bind, emit. cbv beta iota.
    rewrite Hmk. cbv beta iota. rewrite Hrun. reflexivity.
Qed.

(** C2. Transient-failure retry.  [fetch_submission_tree] never lets an
    exception named by its [except] clause out; when the platform fails [n]
    times with such exceptions and then delivers, it returns the delivered
    tree after [n] requests each followed by a sleep of [ratelimit_sleep]
    seconds and one last request; as long as the platform keeps failing it
    keeps retrying, whatever the number of attempts; and in [run] such a
    thread is appended once, marked done once and counted once, by a
    progress bar that is not disabled.  The client a Scraper builds sleeps
    2 seconds. *)
Theorem transient_retry :
  (∀ fuel self sid w e w',
     RedditClient.fetch_submission_tree fuel self sid w = (Raise e, w') →
     RedditClient.transient e = false)
  ∧ (∀ n fuel self sid w sub,
       fails_transiently (RedditClient.reddit self) sid (w_requests w) n →
       submission (RedditClient.reddit self) sid (w_requests w + n) = Delivered sub →
       n < fuel →
       RedditClient.fetch_submission_tree fuel self sid w
       = (Ret (tree_of sid sub),
          set_requests (λ r, r + S n)
            (set_trace (λ t, t ++ retry_trace sid (RedditClient.ratelimit_sleep self) n
                               ++ [EvRequest sid]) w)))
  ∧ (∀ n self sid w,
       fails_transiently (RedditClient.reddit self) sid (w_requests w) n →
       (RedditClient.fetch_submission_tree n self sid w).1 = Diverge)
  ∧ (∀ n fuel self it rest w sub,
       let sid := item_id it in
       let record := Submission.from_pushshift_reddit (tree_of sid sub) in
       next_store_op_ok w →
       next_store_op_ok (set_store_faults tail w) →
       sid ∉ done_ids self w →
       fails_transiently (RedditClient.reddit (Scraper.reddit self)) sid (w_requests w) n →
       submission (RedditClient.reddit (Scraper.reddit self)) sid (w_requests w + n)
       = Delivered sub →
       n < fuel →
       ∃ w2,
         Scraper.run_loop fuel self (Yield it rest) w = Scraper.run_loop fuel self rest w2
         ∧ sink self w2 = sink self w ++ [record]
         ∧ Submission.id record = sid
         ∧ done_ids self w2 = {[sid]} ∪ done_ids self w
         ∧ w_bar_n w2 = (if Py.tqdm_disable then w_bar_n w else w_bar_n w + 1)%Z
         ∧ w_trace w2
           = w_trace w
             ++ retry_trace sid (RedditClient.ratelimit_sleep (Scraper.reddit self)) n
             ++ [EvRequest sid] ++ persist_steps self sid
             ++ [EvLog DEBUG "Saved id=%s  (%d comments)"
                   [ArgS sid; ArgD (Z.of_nat (length (Submission.comments record)))]])
  ∧ (∀ api subreddit start_date end_date output min_score flairs keywords progress_db
       w self w',
       Scraper.__init__ api subreddit start_date end_date output min_score
         flairs keywords progress_db w = (Ret self, w') →
       RedditClient.ratelimit_sleep (Scraper.reddit self) = 2%Z).
Proof.
  split_and!.
  - intros fuel self sid w e w' H.
    destruct (fetch_frame _ _ _ _ _ _ H) as (_ & _ & _ & _ & Hr & _). by apply Hr.
  - intros. by apply fetch_succeeds.
  - intros n self sid w H. by rewrite fetch_keeps_retrying.
  - intros n fuel self it rest w sub sid record Hok Hok1 Hin Hf Hd Hfuel.
    pose proof (fetch_succeeds n fuel (Scraper.reddit self) sid
                  (set_store_faults tail w) sub Hf Hd Hfuel) as Hfetch.
    eexists. split; [by apply (loop_save fuel self it rest w _ _ Hok Hin Hfetch)|].
    split_and!.
    + unfold sink. cbn. by rewrite lookup_total_insert_eq.
    + done.
    + unfold done_ids. cbn. by rewrite lookup_total_insert_eq.
    + done.
    + cbn. rewrite <- !app_assoc. cbn. reflexivity.
  - intros ? ? ? ? ? ? ? ? ? w self w' [= <- _]. done.
Qed.

(** X20. Fail-fast outside the [except] clause.  An exception that is an
    instance of none of the classes the [except] clause of
    [fetch_submission_tree] names comes out of it at once: after the
    failing request there is no sleep and no further request.  The loop of
    [run] has no handler around the fetch, so the run ends there with that
    exception, the later candidates untouched and nothing appended or marked
    for the failing one; [run] lets it through its [finally], and so does
    [main], which runs no export step. *)
Theorem nontransient_fail_fast :
  (∀ n fuel self sid w e,
     fails_transiently (RedditClient.reddit self) sid (w_requests w) n →
     submission (RedditClient.reddit self) sid (w_requests w + n) = Failed e →
     RedditClient.transient e = false →
     n < fuel →
     RedditClient.fetch_submission_tree fuel self sid w
     = (Raise e,
        set_requests (λ r, r + S n)
          (set_trace (λ t, t ++ retry_trace sid (RedditClient.ratelimit_sleep self) n
                             ++ [EvRequest sid]) w)))
  ∧ (∀ n fuel self it rest w e,
       let sid := item_id it in
       next_store_op_ok w →
       sid ∉ done_ids self w →
       fails_transiently (RedditClient.reddit (Scraper.reddit self)) sid (w_requests w) n →
       submission (RedditClient.reddit (Scraper.reddit self)) sid (w_requests w + n)
       = Failed e →
       RedditClient.transient e = false →
       n < fuel →
       ∃ w1,
         Scraper.run_loop fuel self (Yield it rest) w = (Raise e, w1)
         ∧ sink self w1 = sink self w
         ∧ done_ids self w1 = done_ids self w
         ∧ w_bar_n w1 = w_bar_n w
         ∧ w_trace w1
           = w_trace w
             ++ retry_trace sid (RedditClient.ratelimit_sleep (Scraper.reddit self)) n
             ++ [EvRequest sid])
  ∧ (∀ fuel self w e w1,
       Scraper.run_loop fuel self (iterator_of self) (started self w) = (Raise e, w1) →
       Scraper.run fuel self w = (Raise e, cleaned_up self w1))
  ∧ (∀ ROOT fuel api args w scraper w0 e w1,
       cli.make_scraper ROOT api args
         (set_trace (λ t, t ++ [EvSetupLogging (cli.log_level args) (cli.log_file args)]) w)
       = (Ret scraper, w0) →
       Scraper.run fuel scraper w0 = (Raise e, w1) →
       cli.main ROOT fuel api args w = (Raise e, w1)).
Proof.
  split_and!.
  - intros. by apply fetch_fails_fast.
  - intros n fuel self it rest w e sid Hok Hin Hf Hd Hnt Hfuel.
    pose proof (fetch_fails_fast n fuel (Scraper.reddit self) sid
                  (set_store_faults tail w) e Hf Hd Hnt Hfuel) as Hfetch.
    eexists. split; [by apply (loop_fetch_raises fuel self it rest w _ _ Hok Hin Hfetch)|].
    done.
  - intros fuel self w e w1 H. by rewrite run_unfold, H.
  - intros ROOT fuel api args w scraper w0 e w1 Hmk Hrun.
    unfold cli.main, bind, emit. cbv beta iota.
    rewrite Hmk. cbv beta iota. rewrite Hrun. reflexivity.
Qed.

(** C4, at the failures it names.  A request the platform refuses (a
    malformed request, a failed authentication, an inaccessible or a deleted
    thread) raises a subclass of [ResponseException], which the [except]
    clause names: [fetch_submission_tree] sleeps and asks again.  After [n]
    refusals and a delivery it returns the thread, having slept [n] times.
    When the platform goes on refusing, it is still retrying after any
    number of attempts, each followed by the backoff, and never raises;
    [run] does not end, nothing is appended or marked, and the bar and the
    store are not closed. *)
Theorem refused_request_is_retried :
  (∀ e, e ∈ refusals → RedditClient.transient e = true)
  ∧ (∀ n fuel self sid w sub,
       (∀ k, k < n → ∃ e, submission (RedditClient.reddit self) sid (w_requests w + k)
                          = Failed e ∧ e ∈ refusals) →
       submission (RedditClient.reddit self) sid (w_requests w + n) = Delivered sub →
       n < fuel →
       RedditClient.fetch_submission_tree fuel self sid w
       = (Ret (tree_of sid sub),
          after_attempts sid (RedditClient.ratelimit_sleep self) n w))
  ∧ (∀ fuel self sid w,
       always_refused (RedditClient.reddit self) sid (w_requests w) →
       RedditClient.fetch_submission_tree fuel self sid w
       = (Diverge,
          set_requests (λ r, r + fuel)
            (set_trace (λ t, t ++ retry_trace sid (RedditClient.ratelimit_sleep self) fuel)
               w)))
  ∧ (∀ fuel self it0 w,
       first_candidate (iterator_of self) = Some it0 →
       next_store_op_ok w →
       item_id it0 ∉ done_ids self w →
       always_refused (RedditClient.reddit (Scraper.reddit self)) (item_id it0)
         (w_requests w) →
       let res := Scraper.run fuel self w in
       res.1 = Diverge
       ∧ w_requests res.2 = w_requests w + fuel
       ∧ w_output res.2 = w_output w
       ∧ w_progress res.2 = w_progress w
       ∧ w_open res.2 = w_open w
       ∧ w_trace res.2
         = w_trace w ++ run_prologue self ++ events_before_first (iterator_of self)
           ++ retry_trace (item_id it0) (RedditClient.ratelimit_sleep (Scraper.reddit self))
                fuel).
Proof.
  assert (Ht : ∀ e, e ∈ refusals → RedditClient.transient e = true).
  { intros e Hin. unfold refusals in Hin.
    repeat (apply elem_of_cons in Hin as [->|Hin]); try done. by apply elem_of_nil in Hin. }
  split_and!.
  - exact Ht.
  - intros n fuel self sid w sub Hrefused Hd Hfuel. apply fetch_succeeds; [|done..].
    intros k Hk. destruct (Hrefused k Hk) as (e & He & Hin). exists e. auto.
  - intros fuel self sid w Hdown. apply fetch_keeps_retrying.
    by apply always_transient_fails, always_refused_transient.
  - intros fuel self it0 w Hfirst Hok Hin Hdown res. subst res.
    rewrite run_unfold,
      (loop_stuck fuel self it0 _ (started self w) Hfirst Hok Hin
         (always_refused_transient _ _ _ Hdown)).
    split_and!; try done. cbn. by rewrite <- app_assoc.
Qed.

(** C10. Cleanup on every exit path.  However [run] leaves its loop, by the
    end of the discovery sequence or by an exception of the platform, of the
    discovery generator or of the checkpoint store, the last two things it
    does are to close the progress bar and to close the checkpoint store,
    which is then no longer held open; the result of the loop comes out
    unchanged. *)
Theorem cleanup_on_exit fuel self w r w' :
  Scraper.run fuel self w = (r, w') →
  r ≠ Diverge →
  (∃ tr, w_trace w'
         = w_trace w ++ tr
           ++ [EvBarClose; EvStoreClose (ProgressTracker.db_path (Scraper.progress self))])
  ∧ (ProgressTracker.db_path (Scraper.progress self) ∉ w_open w')
  ∧ match (Scraper.run_loop fuel self (iterator_of self) (started self w)).1 with
    | Ret _ => ∃ n, r = Ret n
    | Raise e => r = Raise e
    | Diverge => False
    end.
Proof.
  intros Hrun Hr.
  destruct (run_loop_summary fuel self w)
    as (tr & _ & _ & _ & Htr & _).
  destruct (run_world fuel self w) as (tl & Htrace & _ & _ & Hend & _ & _ & Hres).
  specialize (Htrace _ Htr). rewrite Hrun in Htrace, Hres. cbn in Htrace, Hres.
  rewrite run_unfold in Hrun.
  destruct (Scraper.run_loop fuel self (iterator_of self) (started self w))
    as [[[]|e|] w1]; cbn in *; try done.
  - destruct (Hend ltac:(done)) as [pre ->].
    injection Hrun as <- <-. split_and!.
    + exists (run_prologue self ++ tr ++ pre). rewrite Htrace. by rewrite <- !app_assoc.
    + cbn. set_solver.
    + by eexists.
  - destruct (Hend ltac:(done)) as [pre ->].
    injection Hrun as <- <-. split_and!.
    + exists (run_prologue self ++ tr ++ pre). rewrite Htrace. by rewrite <- !app_assoc.
    + cbn. set_solver.
    + done.
Qed.
(** ** Discovery *)

Section Discovery.

Variables (min_score : option Z) (flair_set : option (gset string)).

Lemma search_loop_items subs failure :
  iter_items (RedditClient.search_submissions_loop min_score flair_set subs failure)
  = item_of <$> List.filter (kept min_score flair_set) subs.
Proof.
  induction subs as [|sub rest IH]; [by destruct failure|].
  cbn [RedditClient.search_submissions_loop iter_items List.filter]. unfold kept at 1.
  destruct (Py.truthy_int min_score && (sub_score sub <? default 0 min_score)%Z); [done|].
  destruct (Py.truthy_set flair_set && negb _); [done|].
  cbn. by rewrite IH.
Qed.

Lemma search_loop_events subs failure :
  iter_events (RedditClient.search_submissions_loop min_score flair_set subs failure)
  = FeedNext ∘ sub_id <$> subs.
Proof.
  induction subs as [|sub rest IH]; [by destruct failure|].
  cbn [RedditClient.search_submissions_loop iter_events fmap list_fmap].
  destruct (Py.truthy_int min_score && _); [by rewrite IH|].
  destruct (Py.truthy_set flair_set && negb _); cbn; by rewrite IH.
Qed.

Variables (after before : Z).

Lemma range_loop_items subs failure :
  iter_items (RedditClient.list_submission_ids_loop after before min_score flair_set
                subs failure)
  = item_of <$> List.filter (λ sub, (sub_created_utc sub <=? before)%Z
                                    && kept min_score flair_set sub)
                  (scanned after subs).
Proof.
  induction subs as [|sub rest IH]; [by destruct failure|].
  cbn [RedditClient.list_submission_ids_loop iter_items scanned].
  destruct (sub_created_utc sub <? after)%Z; [done|].
  cbn [List.filter]. rewrite Z.leb_antisym. unfold kept at 1.
  destruct (before <? sub_created_utc sub)%Z; [done|].
  destruct (Py.truthy_int min_score && (sub_score sub <? default 0 min_score)%Z); [done|].
  destruct (Py.truthy_set flair_set && negb _); [done|].
  cbn. by rewrite IH.
Qed.

Lemma range_loop_events subs failure :
  iter_events (RedditClient.list_submission_ids_loop after before min_score flair_set
                 subs failure)
  = FeedNext ∘ sub_id <$> pulled after subs.
Proof.
  induction subs as [|sub rest IH]; [by destruct failure|].
  cbn [RedditClient.list_submission_ids_loop iter_events pulled fmap list_fmap].
  destruct (sub_created_utc sub <? after)%Z; [done|].
  destruct (before <? sub_created_utc sub)%Z; [by rewrite IH|].
  destruct (Py.truthy_int min_score && _); [by rewrite IH|].
  destruct (Py.truthy_set flair_set && negb _); cbn; by rewrite IH.
Qed.

(** The scan ends at the first record older than the start boundary: what
    the listing holds after it, and how the listing ends, is never seen. *)
Lemma range_loop_cut pre old suf failure :
  Forall (λ s, (after ≤ sub_created_utc s)%Z) pre →
  (sub_created_utc old < after)%Z →
  RedditClient.list_submission_ids_loop after before min_score flair_set
    (pre ++ old :: suf) failure
  = RedditClient.list_submission_ids_loop after before min_score flair_set
      (pre ++ [old]) None.
Proof.
  intros Hpre Hold. induction Hpre as [|sub pre Hsub _ IH].
  - cbn. by rewrite (proj2 (Z.ltb_lt _ _) Hold).
  - cbn [app RedditClient.list_submission_ids_loop].
    rewrite (proj2 (Z.ltb_ge _ _) Hsub). by rewrite IH.
Qed.

(** A record newer than the end boundary is passed over and the scan goes on. *)
Lemma range_loop_newer sub rest failure :
  (after ≤ sub_created_utc sub)%Z →
  (before < sub_created_utc sub)%Z →
  RedditClient.list_submission_ids_loop after before min_score flair_set
    (sub :: rest) failure
  = Effect (FeedNext (sub_id sub))
      (RedditClient.list_submission_ids_loop after before min_score flair_set rest failure).
Proof.
  intros H1 H2. cbn.
  by rewrite (proj2 (Z.ltb_ge _ _) H1), (proj2 (Z.ltb_lt _ _) H2).
Qed.

(** On records inside the window the two loops agree: same filters. *)
Lemma range_loop_search_loop subs failure :
  Forall (λ s, (after ≤ sub_created_utc s ≤ before)%Z) subs →
  RedditClient.list_submission_ids_loop after before min_score flair_set subs failure
  = RedditClient.search_submissions_loop min_score flair_set subs failure.
Proof.
  induction 1 as [|sub rest [H1 H2] _ IH]; [done|].
  cbn. rewrite (proj2 (Z.ltb_ge _ _) H1), (proj2 (Z.ltb_ge _ _) H2).
  by rewrite IH.
Qed.

(** On a listing that is newest first, ending the scan loses nothing. *)
Lemma scanned_newest_first subs :
  newest_first subs →
  List.filter (λ sub, (sub_created_utc sub <=? before)%Z && kept min_score flair_set sub)
    (scanned after subs)
  = List.filter (λ sub, (after <=? sub_created_utc sub)%Z
                        && (sub_created_utc sub <=? before)%Z
                        && kept min_score flair_set sub) subs.
Proof.
  induction subs as [|sub rest IH]; [done|]. intros [Hle Hnf].
  cbn [scanned List.filter]. rewrite Z.leb_antisym.
  destruct (sub_created_utc sub <? after)%Z eqn:Hlt.
  - cbn. symmetry. apply Z.ltb_lt in Hlt.
    clear IH Hnf. induction Hle as [|s rest Hs _ IH]; [done|].
    cbn. rewrite IH. by rewrite (proj2 (Z.leb_gt _ _)) by lia.
  - cbn. by rewrite IH.
Qed.

End Discovery.

Lemma filter_bool_Prop {A} (f : A → bool) (P : A → Prop) `{!∀ x, Decision (P x)}
    (l : list A) :
  (∀ x, f x = true ↔ P x) → List.filter f l = filter P l.
Proof.
  intros Hf. induction l as [|a l IH]; [done|].
  cbn [List.filter]. rewrite filter_cons, IH.
  destruct (f a) eqn:Hfa, (decide (P a)) as [HP|HP]; try done.
  - destruct HP. by apply Hf.
  - apply Hf in HP. congruence.
Qed.

Lemma or_empty_default o : Py.or_empty o = default "" o.
Proof. by destruct o as [[|]|]. Qed.

(** The lower case of the flairs of the examples. *)
Lemma lower_ascii_text s : Py.is_ascii s = true → Py.lower s = Py.ascii_lower s.
Proof. apply Py.lower_ascii. Qed.

(** Each test is switched on by its own argument: the score test by a
    minimum that is not zero, the flair test by a list that is not empty. *)
Lemma kept_spec min_score flairs sub :
  kept min_score (RedditClient.flair_set_of flairs) sub = true
  ↔ (min_score = Some 0%Z ∨ score_ok min_score sub)
    ∧ (flairs = Some [] ∨ flair_ok flairs sub).
Proof.
  unfold kept. rewrite andb_true_iff, !negb_true_iff.
  assert (∀ A B C D : Prop, (A ↔ C) → (B ↔ D) → (A ∧ B ↔ C ∧ D)) as Hand by tauto.
  apply Hand; clear Hand.
  - destruct min_score as [m|]; cbn; [|by split; [right|]].
    destruct (Z.eqb_spec m 0) as [->|Hm]; cbn.
    + split; [by left|done].
    + rewrite Z.ltb_ge. split; [by right|]. intros [[=]|?]; done.
  - destruct flairs as [[|f allowed]|]; cbn.
    + split; [by left|done].
    + rewrite or_empty_default.
      rewrite bool_decide_eq_false_2 by set_solver. cbn.
      rewrite negb_false_iff, bool_decide_eq_true.
      rewrite elem_of_union, elem_of_singleton, elem_of_list_to_set, elem_of_cons.
      split; [by right|]. intros [[=]|?]; done.
    + by split; [right|].
Qed.

(** C5, as the code has it.  In both discovery modes and for every minimum
    score and allow-list, the records yielded are, in order, those that get
    past two tests, each switched on by its own argument: when the minimum
    score is supplied and is not zero, a score not strictly below it; when
    the allow-list is supplied and is not empty, a flair, the empty string
    when absent, equal up to case to an allowed value.  In range mode this
    is among the records of the window.  A score of 3 is excluded under a
    minimum of 5; the flair "Discussion" is excluded under the allow-list
    ["News"] and included under ["discussion"]. *)
Theorem score_flair_filtering :
  (∀ min_score flairs sub,
     kept min_score (RedditClient.flair_set_of flairs) sub = true
     ↔ (min_score = Some 0%Z ∨ score_ok min_score sub)
       ∧ (flairs = Some [] ∨ flair_ok flairs sub))
  ∧ (∀ min_score flairs self subreddit keywords time_filter,
       iter_items (RedditClient.search_submissions self subreddit keywords time_filter
                     min_score flairs)
       = item_of <$> filter (λ sub, (min_score = Some 0%Z ∨ score_ok min_score sub)
                                    ∧ (flairs = Some [] ∨ flair_ok flairs sub))
                       (records (search (RedditClient.reddit self) subreddit
                                   (or_query keywords) "new" time_filter)))
  ∧ (∀ min_score flairs self subreddit start_date end_date after end_ts,
       RedditClient._to_ts start_date = Some after →
       RedditClient._to_ts end_date = Some end_ts →
       iter_items (RedditClient.list_submission_ids self subreddit start_date end_date
                     min_score flairs)
       = item_of <$> filter (λ sub, (sub_created_utc sub ≤ end_ts + 86399)%Z
                                    ∧ (min_score = Some 0%Z ∨ score_ok min_score sub)
                                    ∧ (flairs = Some [] ∨ flair_ok flairs sub))
                       (scanned after (records (new (RedditClient.reddit self) subreddit))))
  ∧ (∀ flairs sid ts flair failure,
       ¬ score_ok (Some 5%Z) (record_of sid ts 3 flair)
       ∧ iter_items (RedditClient.search_submissions_loop (Some 5%Z)
                       (RedditClient.flair_set_of flairs) [record_of sid ts 3 flair] failure)
         = [])
  ∧ (∀ min_score sid ts sc failure,
       ¬ flair_ok (Some ["News"]) (record_of sid ts sc (Some "Discussion"))
       ∧ iter_items (RedditClient.search_submissions_loop min_score
                       (RedditClient.flair_set_of (Some ["News"]))
                       [record_of sid ts sc (Some "Discussion")] failure)
         = []
       ∧ flair_ok (Some ["discussion"]) (record_of sid ts sc (Some "Discussion"))
       ∧ iter_items (RedditClient.search_submissions_loop None
                       (RedditClient.flair_set_of (Some ["discussion"]))
                       [record_of sid ts sc (Some "Discussion")] failure)
         = [item_of (record_of sid ts sc (Some "Discussion"))]).
Proof.
  assert (Hnews : ∀ sid ts sc,
            ¬ flair_ok (Some ["News"]) (record_of sid ts sc (Some "Discussion"))).
  { intros sid ts sc. cbn. rewrite !lower_ascii_text by done.
    by intros [[=]|?%elem_of_nil]%elem_of_cons. }
  assert (Hdisc : ∀ sid ts sc,
            flair_ok (Some ["discussion"]) (record_of sid ts sc (Some "Discussion"))).
  { intros sid ts sc. cbn. rewrite !lower_ascii_text by done. by left. }
  split_and!.
  - intros. apply kept_spec.
  - intros min_score flairs self subreddit keywords time_filter.
    unfold RedditClient.search_submissions. cbn [iter_items].
    rewrite search_loop_items. f_equal.
    apply filter_bool_Prop. intros sub. apply kept_spec.
  - intros min_score flairs self subreddit start_date end_date after end_ts Ha He.
    unfold RedditClient.list_submission_ids. rewrite Ha, He. cbn [iter_items].
    rewrite range_loop_items. f_equal.
    apply filter_bool_Prop. intros sub.
    rewrite andb_true_iff, Z.leb_le, kept_spec. done.
  - intros flairs sid ts flair failure.
    assert (Hs : ¬ score_ok (Some 5%Z) (record_of sid ts 3 flair)) by (cbn; lia).
    split; [exact Hs|].
    rewrite search_loop_items. cbn [List.filter fmap list_fmap].
    destruct (kept _ _ _) eqn:Hk; [|done].
    apply kept_spec in Hk as [[[=]|?] _]. done.
  - intros min_score sid ts sc failure. split_and!.
    + apply Hnews.
    + rewrite search_loop_items. cbn [List.filter fmap list_fmap].
      destruct (kept _ _ _) eqn:Hk; [|done].
      apply kept_spec in Hk as [_ [[=]|?]]. by destruct (Hnews sid ts sc).
    + apply Hdisc.
    + rewrite search_loop_items. cbn [List.filter fmap list_fmap].
      destruct (kept _ _ _) eqn:Hk; [done|].
      assert (kept None (RedditClient.flair_set_of (Some ["discussion"]))
                (record_of sid ts sc (Some "Discussion")) = true) as Hk'.
      { apply kept_spec. split; [by right|]. right. apply Hdisc. }
      congruence.
Qed.


(** ** The calendar *)

Lemma is_leap_cases y :
  (Datetime.is_leap y = true ∧ (y mod 4 = 0)%Z ∧ ((y mod 100 ≠ 0)%Z ∨ (y mod 400 = 0)%Z))
  ∨ (Datetime.is_leap y = false ∧ ((y mod 4 ≠ 0)%Z ∨ ((y mod 100 = 0)%Z ∧ (y mod 400 ≠ 0)%Z))).
Proof.
  unfold Datetime.is_leap.
  destruct (Z.eqb_spec (y mod 4) 0), (Z.eqb_spec (y mod 100) 0),
    (Z.eqb_spec (y mod 400) 0); cbn; intuition.
Qed.

Lemma days_before_january y : Datetime.days_before_month y 1 = 0%Z.
Proof. unfold Datetime.days_before_month. by destruct (Datetime.is_leap y). Qed.

Lemma days_before_december y :
  Datetime.days_before_month y 12 = (if Datetime.is_leap y then 335 else 334)%Z.
Proof. unfold Datetime.days_before_month. by destruct (Datetime.is_leap y). Qed.

(** The first day of a year comes right after the last day of the year before. *)
Lemma ymd2ord_next_year y :
  Datetime.ymd2ord (y + 1) 1 1 = (Datetime.ymd2ord y 12 31 + 1)%Z.
Proof.
  unfold Datetime.ymd2ord. rewrite days_before_january, days_before_december.
  unfold Datetime.days_before_year. replace (y + 1 - 1)%Z with y by lia.
  destruct (is_leap_cases y) as [(-> & H4 & H100)|(-> & H)];
    Z.div_mod_to_equations; lia.
Qed.

(** The first day of a month comes right after the last day of the month before. *)
Lemma ymd2ord_next_month y m :
  (1 ≤ m < 12)%Z →
  Datetime.ymd2ord y (m + 1) 1
  = (Datetime.ymd2ord y m (Datetime.days_in_month y m) + 1)%Z.
Proof.
  intros Hm. unfold Datetime.ymd2ord, Datetime.days_before_month, Datetime.days_in_month.
  assert (m = 1 ∨ m = 2 ∨ m = 3 ∨ m = 4 ∨ m = 5 ∨ m = 6 ∨ m = 7 ∨ m = 8
          ∨ m = 9 ∨ m = 10 ∨ m = 11)%Z as Hcases by lia.
  destruct (Datetime.is_leap y);
    repeat (destruct Hcases as [->|Hcases]); try subst m;
    repeat match goal with
      | |- context [Z.to_nat ?z] =>
          let v := eval vm_compute in (Z.to_nat z) in change (Z.to_nat z) with v
      | |- context [(?a <? ?b)%Z] =>
          let v := eval vm_compute in (a <? b)%Z in change (a <? b)%Z with v
      | |- context [(?a =? ?b)%Z] =>
          let v := eval vm_compute in (a =? b)%Z in change (a =? b)%Z with v
      end;
    cbn [nth andb]; lia.
Qed.

Lemma ymd2ord_next_day y m d :
  Datetime.ymd2ord y m (d + 1) = (Datetime.ymd2ord y m d + 1)%Z.
Proof. unfold Datetime.ymd2ord. lia. Qed.

Lemma scanned_cut after pre old suf :
  Forall (λ s, (after ≤ sub_created_utc s)%Z) pre →
  (sub_created_utc old < after)%Z →
  scanned after (pre ++ old :: suf) = pre.
Proof.
  intros Hpre Hold. induction Hpre as [|sub pre Hsub _ IH]; cbn.
  - by rewrite (proj2 (Z.ltb_lt _ _) Hold).
  - by rewrite (proj2 (Z.ltb_ge _ _) Hsub), IH.
Qed.

Lemma pulled_cut after pre old suf :
  Forall (λ s, (after ≤ sub_created_utc s)%Z) pre →
  (sub_created_utc old < after)%Z →
  pulled after (pre ++ old :: suf) = pre ++ [old].
Proof.
  intros Hpre Hold. induction Hpre as [|sub pre Hsub _ IH]; cbn.
  - by rewrite (proj2 (Z.ltb_lt _ _) Hold).
  - by rewrite (proj2 (Z.ltb_ge _ _) Hsub), IH.
Qed.

Lemma range_loop_end_cut after before min_score flair_set subs :
  iter_end (RedditClient.list_submission_ids_loop after before min_score flair_set
              subs None) = None.
Proof.
  induction subs as [|sub rest IH]; cbn; [done|].
  repeat case_match; done.
Qed.

(** C3. Range-mode window and early termination.  The start boundary is
    midnight UTC of the start date and the end boundary is midnight UTC of
    the end date plus 86399 seconds, where the timestamp of a date is 86400
    times its number of days since 1970-01-01.  The scan ends at the first
    record whose timestamp is strictly below the start boundary: the records
    after it and the end of the listing are never pulled.  A record above the
    end boundary is passed over and the scan goes on; a record on the end
    boundary is in the window.  For the listing of timestamps 100, 90, 50 and
    10 and the start boundary 60 the scan yields the first two records, pulls
    the third and never the fourth. *)
Theorem range_window :
  (∀ self subreddit start_date end_date min_score flairs y m d y' m' d',
     Datetime.parse_isoformat_date start_date = Some (y, m, d) →
     Datetime.parse_isoformat_date end_date = Some (y', m', d') →
     RedditClient._to_ts start_date = Some (Datetime.timestamp_utc_midnight y m d)
     ∧ RedditClient.list_submission_ids self subreddit start_date end_date min_score flairs
       = Effect (ListNew subreddit)
           (RedditClient.list_submission_ids_loop
              (Datetime.timestamp_utc_midnight y m d)
              (Datetime.timestamp_utc_midnight y' m' d' + 86399)
              min_score (RedditClient.flair_set_of flairs)
              (records (new (RedditClient.reddit self) subreddit))
              (failure (new (RedditClient.reddit self) subreddit))))
  ∧ (Datetime.timestamp_utc_midnight 1970 1 1 = 0%Z
     ∧ (∀ y m d, Datetime.timestamp_utc_midnight y m (d + 1)
                 = (Datetime.timestamp_utc_midnight y m d + 86400)%Z)
     ∧ (∀ y m, (1 ≤ m < 12)%Z →
               Datetime.timestamp_utc_midnight y (m + 1) 1
               = (Datetime.timestamp_utc_midnight y m (Datetime.days_in_month y m) + 86400)%Z)
     ∧ (∀ y, Datetime.timestamp_utc_midnight (y + 1) 1 1
             = (Datetime.timestamp_utc_midnight y 12 31 + 86400)%Z)
     ∧ RedditClient._to_ts "2024-03-15" = Some 1710460800%Z)
  ∧ (∀ after before min_score flair_set pre old suf failure,
       Forall (λ s, (after ≤ sub_created_utc s)%Z) pre →
       (sub_created_utc old < after)%Z →
       let scan := RedditClient.list_submission_ids_loop after before min_score flair_set
                     (pre ++ old :: suf) failure in
       scan = RedditClient.list_submission_ids_loop after before min_score flair_set
                (pre ++ [old]) None
       ∧ iter_end scan = None
       ∧ iter_events scan = FeedNext ∘ sub_id <$> pre ++ [old]
       ∧ iter_items scan
         = item_of <$> List.filter (λ sub, (sub_created_utc sub <=? before)%Z
                                           && kept min_score flair_set sub) pre)
  ∧ (∀ after before min_score flair_set sub rest failure,
       (after ≤ sub_created_utc sub)%Z →
       (before < sub_created_utc sub)%Z →
       RedditClient.list_submission_ids_loop after before min_score flair_set
         (sub :: rest) failure
       = Effect (FeedNext (sub_id sub))
           (RedditClient.list_submission_ids_loop after before min_score flair_set
              rest failure))
  ∧ (∀ after before min_score flair_set sub rest failure,
       (after ≤ sub_created_utc sub)%Z →
       sub_created_utc sub = before →
       kept min_score flair_set sub = true →
       RedditClient.list_submission_ids_loop after before min_score flair_set
         (sub :: rest) failure
       = Effect (FeedNext (sub_id sub))
           (Yield (item_of sub)
              (RedditClient.list_submission_ids_loop after before min_score flair_set
                 rest failure)))
  ∧ (∀ after before min_score flair_set subs failure,
       newest_first subs →
       iter_items (RedditClient.list_submission_ids_loop after before min_score flair_set
                     subs failure)
       = item_of <$> List.filter (λ sub, (after <=? sub_created_utc sub)%Z
                                         && (sub_created_utc sub <=? before)%Z
                                         && kept min_score flair_set sub) subs)
  ∧ (∀ before suf failure,
       (100 ≤ before)%Z →
       let scan := RedditClient.list_submission_ids_loop 60 before None None
                     (feed_100_90_50_10 ++ suf) failure in
       item_id <$> iter_items scan = ["a"; "b"]
       ∧ item_created_utc <$> iter_items scan = [100; 90]%Z
       ∧ iter_events scan = [FeedNext "a"; FeedNext "b"; FeedNext "c"]
       ∧ iter_end scan = None).
Proof.
  split_and!.
  - intros self subreddit start_date end_date min_score flairs y m d y' m' d' Hs He.
    unfold RedditClient.list_submission_ids, RedditClient._to_ts. rewrite Hs, He. done.
  - done.
  - intros. unfold Datetime.timestamp_utc_midnight. rewrite ymd2ord_next_day. lia.
  - intros. unfold Datetime.timestamp_utc_midnight. rewrite ymd2ord_next_month by done. lia.
  - intros. unfold Datetime.timestamp_utc_midnight. rewrite ymd2ord_next_year. lia.
  - done.
  - intros after before min_score flair_set pre old suf failure Hpre Hold scan.
    assert (Hcut : scan = RedditClient.list_submission_ids_loop after before min_score
                            flair_set (pre ++ [old]) None)
      by by apply range_loop_cut.
    split_and!.
    + exact Hcut.
    + rewrite Hcut. apply range_loop_end_cut.
    + subst scan. by rewrite range_loop_events, pulled_cut, fmap_app.
    + subst scan. by rewrite range_loop_items, scanned_cut.
  - intros. by apply range_loop_newer.
  - intros after before min_score flair_set sub rest failure Ha Hb Hk. cbn.
    rewrite (proj2 (Z.ltb_ge _ _) Ha).
    rewrite (proj2 (Z.ltb_ge _ _)) by lia.
    unfold kept in Hk. apply andb_true_iff in Hk as [Hk1 Hk2].
    apply negb_true_iff in Hk1, Hk2. by rewrite Hk1, Hk2.
  - intros. by rewrite range_loop_items, scanned_newest_first.
  - intros before suf failure Hb scan. subst scan. unfold feed_100_90_50_10.
    change ([?a; ?b; ?c; ?d] ++ suf) with ([a; b] ++ c :: d :: suf).
    rewrite (range_loop_cut None None 60 before [_; _] _ (_ :: suf) failure).
    + cbn. rewrite !(proj2 (Z.ltb_ge _ _)) by (cbn; lia). done.
    + repeat constructor; cbn; lia.
    + cbn. lia.
Qed.

(** C7. Keyword-mode discovery.  When the Scraper holds at least one
    keyword, the sequence [run] iterates is that of one search: the query is
    the quoted keywords joined by [OR], the order asked for is newest first
    and the time bucket is the last year; it is the only listing opened, and
    every record of it is pulled.  The records yielded are those the score
    and flair tests keep, the tests of range mode: on records inside a window
    the range scan is the same sequence.  The start and end dates play no
    part: a Scraper that differs in them iterates the same sequence. *)
Theorem keyword_mode self :
  Py.truthy_list (Scraper.keywords self) = true →
  let keywords := default [] (Scraper.keywords self) in
  let query := Py.join " OR " ((λ k, dquote +:+ k +:+ dquote) <$> keywords) in
  let listing := search (RedditClient.reddit (Scraper.reddit self))
                   (Scraper.subreddit self) query "new" "year" in
  let flair_set := RedditClient.flair_set_of (Scraper.flairs self) in
  (∀ fuel w,
     Scraper.run fuel self w
     = match Scraper.run_loop fuel self (iterator_of self) (started self w) with
       | (Ret _, w') => (Ret (w_bar_n w'), cleaned_up self (finished w'))
       | (Raise e, w') => (Raise e, cleaned_up self w')
       | (Diverge, w') => (Diverge, w')
       end)
  ∧ iterator_of self
    = Effect (Search (Scraper.subreddit self) query "new" "year")
        (RedditClient.search_submissions_loop (Scraper.min_score self) flair_set
           (records listing) (failure listing))
  ∧ iter_events (iterator_of self)
    = Search (Scraper.subreddit self) query "new" "year"
      :: (FeedNext ∘ sub_id <$> records listing)
  ∧ iter_items (iterator_of self)
    = item_of <$> List.filter (kept (Scraper.min_score self) flair_set) (records listing)
  ∧ (∀ after before,
       Forall (λ s, (after ≤ sub_created_utc s ≤ before)%Z) (records listing) →
       RedditClient.list_submission_ids_loop after before (Scraper.min_score self)
         flair_set (records listing) (failure listing)
       = RedditClient.search_submissions_loop (Scraper.min_score self) flair_set
           (records listing) (failure listing))
  ∧ (∀ start_date end_date,
       iterator_of (with_dates self start_date end_date) = iterator_of self)
  ∧ (∀ k1 k2 k3,
       Py.join " OR " ((λ k, dquote +:+ k +:+ dquote) <$> [k1; k2; k3])
       = (dquote +:+ k1 +:+ dquote) +:+ " OR " +:+ (dquote +:+ k2 +:+ dquote)
         +:+ " OR " +:+ (dquote +:+ k3 +:+ dquote)).
Proof.
  intros Hk keywords query listing flair_set.
  assert (Hit : iterator_of self
                = Effect (Search (Scraper.subreddit self) query "new" "year")
                    (RedditClient.search_submissions_loop (Scraper.min_score self) flair_set
                       (records listing) (failure listing))).
  { unfold iterator_of. by rewrite Hk. }
  split_and!.
  - intros. apply run_unfold.
  - exact Hit.
  - rewrite Hit. cbn [iter_events]. by rewrite search_loop_events.
  - rewrite Hit. cbn [iter_items]. by rewrite search_loop_items.
  - intros. by apply range_loop_search_loop.
  - intros start_date end_date. unfold iterator_of, with_dates. cbn. by rewrite Hk.
  - done.
Qed.

(** C9. Interrupt handling.  The constructor of the Scraper installs its
    handler for SIGINT and for SIGTERM.  On receipt of either, the handler
    logs one line at warning level, closes the checkpoint store and raises
    [SystemExit(0)]: the exit status of the process is zero, also when the
    exception unwinds through the [finally] of [run], which closes the store
    a second time. *)
Theorem interrupt_handling :
  (∀ api subreddit start_date end_date output min_score flairs keywords progress_db
     w self w',
     Scraper.__init__ api subreddit start_date end_date output min_score
       flairs keywords progress_db w = (Ret self, w') →
     ProgressTracker.db_path (Scraper.progress self) = progress_db
     ∧ handler_of (w_handlers w') SIGINT = Some (GracefulExit progress_db)
     ∧ handler_of (w_handlers w') SIGTERM = Some (GracefulExit progress_db)
     ∧ ∀ sig, sig = SIGINT ∨ sig = SIGTERM →
         on_signal sig w'
         = Some (Raise (SystemExit 0),
                 set_trace (λ t, t ++ [EvLog WARNING "Received %s – shutting down gracefully…"
                                         [ArgS (Signals_name sig)];
                                       EvStoreClose progress_db])
                   (set_open (λ o, o ∖ {[progress_db]}) w')))
  ∧ (∀ progress sig w,
       Scraper._handler progress sig w
       = (Raise (SystemExit 0),
          set_trace (λ t, t ++ [EvLog WARNING "Received %s – shutting down gracefully…"
                                  [ArgS (Signals_name sig)];
                                EvStoreClose (ProgressTracker.db_path progress)])
            (set_open (λ o, o ∖ {[ProgressTracker.db_path progress]}) w)))
  ∧ Signals_name SIGINT = "SIGINT"
  ∧ Signals_name SIGTERM = "SIGTERM"
  ∧ exit_status (Raise (SystemExit 0) : result unit) = Some 0%Z
  ∧ (∀ A (body : M A) progress w w1,
       body w = (Raise (SystemExit 0), w1) →
       (try_finally body (tqdm.close ;; ProgressTracker.close progress) w).1
       = Raise (SystemExit 0)).
Proof.
  assert (Hh : ∀ progress sig w,
    Scraper._handler progress sig w
    = (Raise (SystemExit 0),
       set_trace (λ t, t ++ [EvLog WARNING "Received %s – shutting down gracefully…"
                               [ArgS (Signals_name sig)];
                             EvStoreClose (ProgressTracker.db_path progress)])
         (set_open (λ o, o ∖ {[ProgressTracker.db_path progress]}) w))).
  { intros progress sig w. unfold Scraper._handler, bind. cbn.
    f_equal. apply world_eq; cbn; auto. by rewrite <- app_assoc. }
  split_and!; try done.
  - intros api subreddit start_date end_date output min_score flairs keywords progress_db
      w self w' Hinit.
    unfold Scraper.__init__, bind in Hinit. cbn in Hinit.
    injection Hinit as <- <-. cbn. split_and!; try done.
    intros sig [-> | ->]; unfold on_signal; cbn [handler_of w_handlers set_trace set_handlers];
      repeat case_decide; try done; by rewrite Hh.
  - intros A body progress w w1 Hb. unfold try_finally. by rewrite Hb.
Qed.

(** ** Strings and paths *)

Lemma append_cons c s t : String c s +:+ t = String c (s +:+ t).
Proof. reflexivity. Qed.

Lemma length_append s t : String.length (s +:+ t) = String.length s + String.length t.
Proof. induction s as [|c s IH]; [done|]. rewrite append_cons. cbn. by rewrite IH. Qed.

(** Two concatenations with tails of the same length agree part by part. *)
Lemma append_inj_length s : ∀ s' t t',
  String.length t = String.length t' →
  s +:+ t = s' +:+ t' → s = s' ∧ t = t'.
Proof.
  induction s as [|c s IH]; intros [|c' s'] t t' Hlen Heq.
  - done.
  - change ("" +:+ t) with t in Heq. subst t.
    rewrite append_cons in Hlen. cbn in Hlen. rewrite length_append in Hlen. lia.
  - change ("" +:+ t') with t' in Heq. subst t'.
    rewrite append_cons in Hlen. cbn in Hlen. rewrite length_append in Hlen. lia.
  - rewrite !append_cons in Heq. injection Heq as -> Heq.
    destruct (IH _ _ _ Hlen Heq) as [-> ->]. done.
Qed.

Lemma contains_append c s t :
  Py.contains c (s +:+ t) = Py.contains c s || Py.contains c t.
Proof.
  induction s as [|c' s IH]; [done|]. rewrite append_cons. cbn.
  by rewrite IH, orb_assoc.
Qed.

Lemma split_no_sep sep s : Py.contains sep s = false → Py.split sep s = [s].
Proof.
  induction s as [|c s IH]; [done|]. cbn.
  intros [Hc Hs]%orb_false_iff. by rewrite Hc, IH.
Qed.

(** A name with no separator in it, other than the empty name and ".", is
    one part, and joining it to a path appends it. *)
Lemma div_name p c name :
  no_slash (String c name) →
  String c name ≠ "." →
  Pathlib.div p (String c name) = p ++ [String c name].
Proof.
  intros Hns Hdot. unfold Pathlib.div.
  assert (c ≠ "/"%char) as Hc.
  { intros ->. unfold no_slash in Hns. cbn in Hns. done. }
  assert (Pathlib.parts (String c name) = [String c name]) as ->.
  { unfold Pathlib.parts. rewrite split_no_sep by done.
    rewrite filter_cons_True by done. done. }
  destruct c as [[] [] [] [] [] [] [] []]; try done.
Qed.

Lemma replace_char_length a b s :
  String.length (Py.replace_char a b s) = String.length s.
Proof. induction s as [|c s IH]; [done|]. cbn. by rewrite IH. Qed.

Lemma digit_cases c n :
  Datetime.digit c = Some n →
  c ≠ "-"%char ∧ c ≠ "/"%char ∧ c ≠ "_"%char.
Proof.
  unfold Datetime.digit. intros H. split_and!; intros ->; vm_compute in H; done.
Qed.

(** A bare date has ten characters: digits around two hyphens. *)
Lemma iso_date_shape s :
  is_iso_date s →
  ∃ y1 y2 y3 y4 m1 m2 d1 d2,
    s = String y1 (String y2 (String y3 (String y4 (String "-"
        (String m1 (String m2 (String "-" (String d1 (String d2 "")))))))))
    ∧ Forall (λ c, is_Some (Datetime.digit c)) [y1; y2; y3; y4; m1; m2; d1; d2].
Proof.
  intros [ymd H]. unfold Datetime.parse_isoformat_date in H.
  repeat (match type of H with
          | match ?x with _ => _ end = _ => destruct x eqn:?; try done
          end).
  repeat match goal with
         | Hd : context [mbind _ (Datetime.digit ?c)] |- _ =>
             destruct (Datetime.digit c) eqn:?; cbn in Hd; [|done]
         end.
  do 8 eexists. split; [reflexivity|].
  repeat (constructor; [by eexists|]). constructor.
Qed.

Lemma eqb_digit_dash c : is_Some (Datetime.digit c) → Ascii.eqb c "-" = false.
Proof. intros [n H]. apply Ascii.eqb_neq. by apply (digit_cases c n). Qed.

Lemma eqb_digit_slash c : is_Some (Datetime.digit c) → Ascii.eqb c "/" = false.
Proof. intros [n H]. apply Ascii.eqb_neq. by apply (digit_cases c n). Qed.

Lemma slug_iso_date_shape s :
  is_iso_date s →
  ∃ y1 y2 y3 y4 m1 m2 d1 d2,
    s = String y1 (String y2 (String y3 (String y4 (String "-"
        (String m1 (String m2 (String "-" (String d1 (String d2 "")))))))))
    ∧ cli._slug s
      = String y1 (String y2 (String y3 (String y4 (String "_"
        (String m1 (String m2 (String "_" (String d1 (String d2 "")))))))))
    ∧ Forall (λ c, Ascii.eqb c "/" = false) [y1; y2; y3; y4; m1; m2; d1; d2].
Proof.
  intros (y1 & y2 & y3 & y4 & m1 & m2 & d1 & d2 & -> & Hd)%iso_date_shape.
  exists y1, y2, y3, y4, m1, m2, d1, d2. split; [done|].
  split; [|by eapply Forall_impl; [exact Hd|apply eqb_digit_slash]].
  pose proof (Forall_impl _ _ _ Hd eqb_digit_dash) as Hdash.
  repeat (apply Forall_cons in Hdash as [? Hdash]).
  unfold cli._slug. cbn.
  repeat match goal with H : Ascii.eqb _ "-" = false |- _ => rewrite H; clear H end.
  done.
Qed.

Lemma slug_iso_date s :
  is_iso_date s → String.length (cli._slug s) = 10 ∧ no_slash (cli._slug s).
Proof.
  intros (y1 & y2 & y3 & y4 & m1 & m2 & d1 & d2 & _ & -> & Hd)%slug_iso_date_shape.
  split; [done|].
  repeat (apply Forall_cons in Hd as [? Hd]).
  unfold no_slash. cbn.
  repeat match goal with H : Ascii.eqb _ "/" = false |- _ => rewrite H; clear H end.
  done.
Qed.

Lemma slug_inj s s' :
  is_iso_date s → is_iso_date s' → cli._slug s = cli._slug s' → s = s'.
Proof.
  intros (y1 & y2 & y3 & y4 & m1 & m2 & d1 & d2 & -> & -> & _)%slug_iso_date_shape.
  intros (? & ? & ? & ? & ? & ? & ? & ? & -> & -> & _)%slug_iso_date_shape.
  intros [= -> -> -> -> -> -> -> ->]. done.
Qed.

(** The tag names the subreddit and both dates: it is the same for no other
    subreddit and pair of dates. *)
Lemma tag_inj ROOT sub start end_ sub' start' end_' :
  is_iso_date start → is_iso_date end_ → is_iso_date start' → is_iso_date end_' →
  cli.p_tag (cli.build_paths ROOT sub start end_)
  = cli.p_tag (cli.build_paths ROOT sub' start' end_') →
  sub = sub' ∧ start = start' ∧ end_ = end_'.
Proof.
  intros Hs He Hs' He' Htag. cbn in Htag.
  destruct (slug_iso_date _ Hs) as [Ls _], (slug_iso_date _ He) as [Le _],
    (slug_iso_date _ Hs') as [Ls' _], (slug_iso_date _ He') as [Le' _].
  apply append_inj_length in Htag as [-> Htag].
  2:{ rewrite !length_append. by rewrite Ls, Ls', Le, Le'. }
  change ("_" +:+ ?x) with (String "_" x) in Htag. injection Htag as Htag.
  apply append_inj_length in Htag as [Hss Htag].
  2:{ rewrite !length_append. by rewrite Le, Le'. }
  change ("__" +:+ ?x) with (String "_" (String "_" x)) in Htag. injection Htag as Htag.
  split_and!; [done|by apply slug_inj..].
Qed.

Lemma tag_no_slash ROOT sub start end_ :
  no_slash sub → is_iso_date start → is_iso_date end_ →
  no_slash (cli.p_tag (cli.build_paths ROOT sub start end_)).
Proof.
  intros Hsub [_ Hs]%slug_iso_date [_ He]%slug_iso_date.
  unfold no_slash in *. cbn. rewrite !contains_append, Hsub, Hs, He. done.
Qed.

(** The two files of a run, named after the tag. *)
Lemma build_paths_files ROOT sub start end_ :
  no_slash sub → is_iso_date start → is_iso_date end_ →
  let paths := cli.build_paths ROOT sub start end_ in
  cli.p_progress paths
  = Pathlib.div (cli.OUT_BASE ROOT) "progress"
    ++ ["progress_" +:+ cli.p_tag paths +:+ ".sqlite"]
  ∧ cli.p_ndjson paths
    = Pathlib.div (cli.OUT_BASE ROOT) "data"
      ++ ["output_" +:+ cli.p_tag paths +:+ ".ndjson"].
Proof.
  intros Hsub Hs He paths.
  pose proof (tag_no_slash ROOT sub start end_ Hsub Hs He) as Htag.
  fold paths in Htag. unfold no_slash in Htag.
  split.
  - change (cli.p_progress paths)
      with (Pathlib.div (Pathlib.div (cli.OUT_BASE ROOT) "progress")
              (String "p" ("rogress_" +:+ cli.p_tag paths +:+ ".sqlite"))).
    rewrite div_name; [done| |done].
    unfold no_slash. cbn [Py.contains]. by rewrite !contains_append, Htag.
  - change (cli.p_ndjson paths)
      with (Pathlib.div (Pathlib.div (cli.OUT_BASE ROOT) "data")
              (String "o" ("utput_" +:+ cli.p_tag paths +:+ ".ndjson"))).
    rewrite div_name; [done| |done].
    unfold no_slash. cbn [Py.contains]. by rewrite !contains_append, Htag.
Qed.

Lemma append_inj_suffix s s' t : s +:+ t = s' +:+ t → s = s'.
Proof. intros H. by apply append_inj_length in H as [-> _]. Qed.

(** A run touches no checkpoint store but its own. *)
Lemma loop_run_frame self it w r w' :
  loop_run self it w r w' →
  ∀ p, p ≠ ProgressTracker.db_path (Scraper.progress self) →
       w_progress w' !! p = w_progress w !! p.
Proof.
  induction 1 as
    [ w | e w | u rest w r w' _ IH | it rest w e He
    | it rest w r w' Hok Hin _ IH
    | it rest w tr k e Hok Hin Htr Ht
    | it rest w tr k Hok Hin Htr
    | it rest w tr k sub e Hok Hin Htr He
    | it rest w tr k sub r w' Hok Hin Htr Hok1 _ IH ]; intros p Hp; try done.
  - by rewrite IH.
  - by rewrite IH.
  - rewrite IH by done. cbn. by rewrite lookup_insert_ne.
Qed.

Lemma run_frame fuel self w p :
  p ≠ ProgressTracker.db_path (Scraper.progress self) →
  w_progress (Scraper.run fuel self w).2 !! p = w_progress w !! p.
Proof.
  intros Hp. rewrite run_unfold.
  pose proof (loop_run_frame self _ _ _ _
                (run_loop_runs fuel self (iterator_of self) (started self w)) p Hp) as H.
  destruct (Scraper.run_loop fuel self (iterator_of self) (started self w))
    as [[[]|e|] w1]; exact H.
Qed.

(** C6, as the code has it.  The checkpoint store and the output sink of the
    Scraper [main] builds are the files of [build_paths], each named after
    the tag, which is made of the subreddit and the two dates.  For
    subreddits without a path separator and bare ISO dates, two runs whose
    subreddit, start date or end date differ have different tags,
    different checkpoint stores and different sinks, and a run leaves every
    checkpoint store but its own as it was.  The keyword query is no part of
    the tag. *)
Theorem checkpoint_store_scoping ROOT :
  (∀ api args w self w',
     cli.make_scraper ROOT api args w = (Ret self, w') →
     let paths := cli.build_paths ROOT (cli.subreddit args) (cli.start_date args)
                    (cli.end_date args) in
     ProgressTracker.db_path (Scraper.progress self) = cli.p_progress paths
     ∧ Scraper.output self = cli.p_ndjson paths)
  ∧ (∀ sub start end_,
       no_slash sub → is_iso_date start → is_iso_date end_ →
       let paths := cli.build_paths ROOT sub start end_ in
       cli.p_tag paths = sub +:+ "_" +:+ cli._slug start +:+ "__" +:+ cli._slug end_
       ∧ cli.p_progress paths
         = Pathlib.div (cli.OUT_BASE ROOT) "progress"
           ++ ["progress_" +:+ cli.p_tag paths +:+ ".sqlite"]
       ∧ cli.p_ndjson paths
         = Pathlib.div (cli.OUT_BASE ROOT) "data"
           ++ ["output_" +:+ cli.p_tag paths +:+ ".ndjson"])
  ∧ (∀ sub start end_ sub' start' end_',
       no_slash sub → is_iso_date start → is_iso_date end_ →
       no_slash sub' → is_iso_date start' → is_iso_date end_' →
       (sub, start, end_) ≠ (sub', start', end_') →
       let paths := cli.build_paths ROOT sub start end_ in
       let paths' := cli.build_paths ROOT sub' start' end_' in
       cli.p_tag paths ≠ cli.p_tag paths'
       ∧ cli.p_progress paths ≠ cli.p_progress paths'
       ∧ cli.p_ndjson paths ≠ cli.p_ndjson paths')
  ∧ (∀ fuel self w p,
       p ≠ ProgressTracker.db_path (Scraper.progress self) →
       w_progress (Scraper.run fuel self w).2 !! p = w_progress w !! p).
Proof.
  split_and!.
  - intros api args w self w' H.
    unfold cli.make_scraper, Scraper.__init__, bind in H. cbn in H.
    by injection H as <- <-.
  - intros sub start end_ Hsub Hs He paths.
    split; [done|]. by apply build_paths_files.
  - intros sub start end_ sub' start' end_' Hsub Hs He Hsub' Hs' He' Hne paths paths'.
    assert (Htag : cli.p_tag paths ≠ cli.p_tag paths').
    { intros Heq. apply tag_inj in Heq as (-> & -> & ->); done. }
    destruct (build_paths_files ROOT sub start end_ Hsub Hs He) as [Hp Hn].
    destruct (build_paths_files ROOT sub' start' end_' Hsub' Hs' He') as [Hp' Hn'].
    fold paths in Hp, Hn. fold paths' in Hp', Hn'.
    split_and!; [done| |].
    + rewrite Hp, Hp'. intros [= Heq]%app_inv_head.
      apply Htag. apply String.app_inj in Heq. by apply append_inj_suffix in Heq.
    + rewrite Hn, Hn'. intros [= Heq]%app_inv_head.
      apply Htag. apply String.app_inj in Heq. by apply append_inj_suffix in Heq.
  - intros. by apply run_frame.
Qed.


(** ** The scenarios of the spec *)


(* ===================================================================== *)
(** * Further properties of the code *)
(* ===================================================================== *)

(** ** The comment forest *)

(** Induction on a comment with the hypothesis for every reply. *)
Lemma praw_comment_forall_ind (P : praw_comment → Prop) :
  (∀ id parent_id link_id author body created_utc score depth permalink replies,
     Forall P replies →
     P (PrawComment id parent_id link_id author body created_utc score depth permalink
          replies)) →
  ∀ c, P c.
Proof.
  intros Hstep. fix IH 1.
  intros [id parent_id link_id author body created_utc score depth permalink replies].
  apply Hstep. induction replies as [|r replies IHr]; constructor; [apply IH|exact IHr].
Qed.

(** X1. [_extract_comment] keeps the thread: the dictionaries it builds, for
    a comment and for its replies at every depth, hold in the same order and
    with the same nesting the identifiers, the name of the author, the body,
    the score, the depth and the timestamp cut to whole seconds; nothing
    else of a comment is kept.  [fetch_submission_tree] returns the thread
    the platform delivered at its last request, under the identifier that
    was asked for, with one such dictionary for each top-level comment. *)
Theorem extract_comment_structure :
  (∀ c, comment_dict_rows (RedditClient._extract_comment c) = praw_comment_rows c)
  ∧ (∀ id parent_id link_id author body created_utc created_utc' score depth
       permalink permalink' replies,
       Py.int_of_float created_utc = Py.int_of_float created_utc' →
       RedditClient._extract_comment
         (PrawComment id parent_id link_id author body created_utc score depth permalink
            replies)
       = RedditClient._extract_comment
           (PrawComment id parent_id link_id author body created_utc' score depth
              permalink' replies))
  ∧ (∀ fuel self sid w raw w',
       RedditClient.fetch_submission_tree fuel self sid w = (Ret raw, w') →
       ∃ sub,
         submission (RedditClient.reddit self) sid (Nat.pred (w_requests w')) = Delivered sub
         ∧ d_id (rt_submission raw) = sid
         ∧ d_created_utc (rt_submission raw) = Py.int_of_float (s_created_utc sub)
         ∧ concat (map comment_dict_rows (rt_comments raw))
           = concat (map praw_comment_rows (s_comments sub))
         ∧ length (rt_comments raw) = length (s_comments sub)).
Proof.
  assert (Hrows : ∀ c, comment_dict_rows (RedditClient._extract_comment c)
                       = praw_comment_rows c).
  { induction c
      as [id parent_id link_id author body created_utc score depth permalink replies IH]
      using praw_comment_forall_ind.
    cbn. rewrite length_map. f_equal. f_equal. rewrite map_map.
    induction IH as [|r replies Hr _ IHr]; [done|]. cbn. by rewrite Hr, IHr. }
  split_and!.
  - exact Hrows.
  - intros. cbn. by f_equal.
  - intros fuel. induction fuel as [|fuel IH]; intros self sid w raw w' H; [done|].
    cbn in H. unfold bind in H; cbn in H.
    destruct (submission (RedditClient.reddit self) sid (w_requests w)) as [sub|e] eqn:Hs.
    + injection H as <- <-. exists sub. cbn.
      split_and!; [done|done|done| |by rewrite length_fmap].
      f_equal. rewrite <- list_fmap_compose. apply list_fmap_ext. intros ? c _. apply Hrows.
    + destruct (RedditClient.transient e); [|done]. cbn in H. by apply IH in H.
Qed.

(** ** Every outcome of a fetch *)

Lemma fails_transiently_cons api sid t n e :
  submission api sid t = Failed e →
  RedditClient.transient e = true →
  fails_transiently api sid (S t) n →
  fails_transiently api sid t (S n).
Proof.
  intros He Ht Hf [|k] Hk.
  - exists e. by rewrite Nat.add_0_r.
  - destruct (Hf k ltac:(lia)) as (e' & He' & Ht'). exists e'.
    by replace (t + S k) with (S t + k) by lia.
Qed.

(** X2. Every outcome of [fetch_submission_tree] is accounted for by the
    answers of the platform: it goes through the failures the [except]
    clause names, sleeping [ratelimit_sleep] after each, and ends on the
    first other answer, returning its tree or raising its exception; with
    [fuel] failures in a row it is still retrying.  It changes nothing in
    the world but the count of requests and the trace. *)
Theorem fetch_accounting fuel : ∀ self sid w,
  ∃ n,
    n ≤ fuel
    ∧ fails_transiently (RedditClient.reddit self) sid (w_requests w) n
    ∧ match (RedditClient.fetch_submission_tree fuel self sid w).1 with
      | Ret raw =>
          n < fuel
          ∧ (∃ sub, submission (RedditClient.reddit self) sid (w_requests w + n)
                    = Delivered sub
                    ∧ raw = tree_of sid sub)
          ∧ (RedditClient.fetch_submission_tree fuel self sid w).2
            = after_attempts sid (RedditClient.ratelimit_sleep self) n w
      | Raise e =>
          n < fuel
          ∧ submission (RedditClient.reddit self) sid (w_requests w + n) = Failed e
          ∧ RedditClient.transient e = false
          ∧ (RedditClient.fetch_submission_tree fuel self sid w).2
            = after_attempts sid (RedditClient.ratelimit_sleep self) n w
      | Diverge =>
          n = fuel
          ∧ (RedditClient.fetch_submission_tree fuel self sid w).2
            = set_requests (λ r, r + n)
                (set_trace (λ t, t ++ retry_trace sid (RedditClient.ratelimit_sleep self) n) w)
      end.
Proof.
  induction fuel as [|fuel IH]; intros self sid w.
  - exists 0. split_and!; [lia|intros k Hk; lia|]. cbn. split; [done|].
    apply world_eq; cbn; auto using app_nil_r.
  - destruct (submission (RedditClient.reddit self) sid (w_requests w)) as [sub|e] eqn:Hs.
    + exists 0. split_and!; [lia|intros k Hk; lia|].
      rewrite (fetch_succeeds 0 (S fuel) self sid w sub); cbn;
        [|intros k Hk; lia|by rewrite Nat.add_0_r|lia].
      split; [lia|]. split; [|done]. exists sub. by rewrite Nat.add_0_r.
    + destruct (RedditClient.transient e) eqn:Ht.
      * set (w1 := set_trace (λ t, t ++ [EvSleep (RedditClient.ratelimit_sleep self)])
                     (set_requests S (set_trace (λ t, t ++ [EvRequest sid]) w))).
        assert (Hstep : RedditClient.fetch_submission_tree (S fuel) self sid w
                        = RedditClient.fetch_submission_tree fuel self sid w1).
        { cbn. unfold bind; cbn. by rewrite Hs, Ht. }
        destruct (IH self sid w1) as (n & Hn & Hf & Hres).
        exists (S n). split_and!; [lia|by apply (fails_transiently_cons _ _ _ _ e)|].
        rewrite Hstep.
        destruct (RedditClient.fetch_submission_tree fuel self sid w1) as [[raw|e'|] w'];
          cbn in Hres |- *.
        -- destruct Hres as (Hlt & (sub & Hsub & ->) & ->). split; [lia|]. split.
           ++ exists sub. split; [|done]. rewrite <- Hsub. f_equal. cbn. lia.
           ++ apply world_eq; cbn; auto; try lia;
                unfold retry_trace; cbn; by rewrite <- !app_assoc.
        -- destruct Hres as (Hlt & Hsub & Hnt & ->).
           split; [lia|]. split; [|split; [done|]].
           ++ rewrite <- Hsub. f_equal. cbn. lia.
           ++ apply world_eq; cbn; auto; try lia;
                unfold retry_trace; cbn; by rewrite <- !app_assoc.
        -- destruct Hres as (-> & ->). split; [done|].
           apply world_eq; cbn; auto; try lia;
             unfold retry_trace; cbn; by rewrite <- !app_assoc.
      * exists 0. split_and!; [lia|intros k Hk; lia|].
        rewrite (fetch_fails_fast 0 (S fuel) self sid w e); cbn;
          [|intros k Hk; lia|by rewrite Nat.add_0_r|done|lia].
        split; [lia|]. split; [by rewrite Nat.add_0_r|]. split; done.
Qed.

(** ** The order of dates *)

Lemma days_before_year_succ y :
  Datetime.days_before_year (y + 1)
  = (Datetime.days_before_year y + 365 + (if Datetime.is_leap y then 1 else 0))%Z.
Proof.
  unfold Datetime.days_before_year. replace (y + 1 - 1)%Z with y by lia.
  destruct (is_leap_cases y) as [(-> & H4 & H100)|(-> & H)];
    Z.div_mod_to_equations; lia.
Qed.

Lemma days_before_year_mono y y' :
  (y ≤ y')%Z →
  (Datetime.days_before_year y + 365 * (y' - y) ≤ Datetime.days_before_year y')%Z.
Proof.
  intros Hle. replace y' with (y + Z.of_nat (Z.to_nat (y' - y)))%Z by lia.
  induction (Z.to_nat (y' - y)) as [|n IH].
  - replace (y + Z.of_nat 0)%Z with y by lia. lia.
  - replace (y + Z.of_nat (S n))%Z with (y + Z.of_nat n + 1)%Z by lia.
    rewrite days_before_year_succ. destruct (Datetime.is_leap _); lia.
Qed.

Lemma month_cases m :
  (1 ≤ m ≤ 12)%Z →
  (m = 1 ∨ m = 2 ∨ m = 3 ∨ m = 4 ∨ m = 5 ∨ m = 6 ∨ m = 7 ∨ m = 8 ∨ m = 9
   ∨ m = 10 ∨ m = 11 ∨ m = 12)%Z.
Proof. lia. Qed.

Ltac compute_calendar :=
  repeat match goal with
    | |- context [Z.to_nat ?z] =>
        let v := eval vm_compute in (Z.to_nat z) in change (Z.to_nat z) with v
    | |- context [(?a <? ?b)%Z] =>
        let v := eval vm_compute in (a <? b)%Z in change (a <? b)%Z with v
    | |- context [(?a =? ?b)%Z] =>
        let v := eval vm_compute in (a =? b)%Z in change (a =? b)%Z with v
    end;
  cbn [nth andb].

(** The days before a month and the days of the month never pass the year. *)
Lemma days_in_year_bound y m :
  (1 ≤ m ≤ 12)%Z →
  (0 ≤ Datetime.days_before_month y m
   ∧ Datetime.days_before_month y m + Datetime.days_in_month y m
     ≤ 365 + (if Datetime.is_leap y then 1 else 0))%Z.
Proof.
  intros Hm%month_cases.
  unfold Datetime.days_before_month, Datetime.days_in_month.
  destruct (Datetime.is_leap y);
    repeat (destruct Hm as [->|Hm]); try subst m; compute_calendar; lia.
Qed.

(** A later month starts after the earlier month has ended. *)
Lemma days_before_month_mono y m m' :
  (1 ≤ m)%Z → (m < m')%Z → (m' ≤ 12)%Z →
  (Datetime.days_before_month y m + Datetime.days_in_month y m
   ≤ Datetime.days_before_month y m')%Z.
Proof.
  intros H1 Hlt H12.
  replace m' with (m + 1 + Z.of_nat (Z.to_nat (m' - m - 1)))%Z in * by lia.
  induction (Z.to_nat (m' - m - 1)) as [|n IH].
  - replace (m + 1 + Z.of_nat 0)%Z with (m + 1)%Z by lia.
    pose proof (ymd2ord_next_month y m ltac:(lia)) as H.
    unfold Datetime.ymd2ord in H. lia.
  - assert (Hn : (m + 1 + Z.of_nat n ≤ 12)%Z) by lia.
    assert (Hlt' : (m < m + 1 + Z.of_nat n)%Z) by lia.
    specialize (IH Hlt' Hn).
    replace (m + 1 + Z.of_nat (S n))%Z with (m + 1 + Z.of_nat n + 1)%Z by lia.
    pose proof (ymd2ord_next_month y (m + 1 + Z.of_nat n) ltac:(lia)) as H.
    unfold Datetime.ymd2ord in H.
    assert (0 ≤ Datetime.days_in_month y (m + 1 + Z.of_nat n))%Z.
    { pose proof (days_in_year_bound y (m + 1 + Z.of_nat n) ltac:(lia)).
      pose proof (ymd2ord_next_month y (m + 1 + Z.of_nat n) ltac:(lia)).
      unfold Datetime.days_in_month.
      destruct ((_ =? 2)%Z && _); [lia|].
      assert (Hc := month_cases (m + 1 + Z.of_nat n) ltac:(lia)).
      repeat (destruct Hc as [->|Hc]); try rewrite Hc; compute_calendar; lia. }
    lia.
Qed.

Lemma check_date_fields_spec y m d :
  Datetime.check_date_fields y m d = true →
  (1 ≤ y ≤ 9999 ∧ 1 ≤ m ≤ 12 ∧ 1 ≤ d ≤ Datetime.days_in_month y m)%Z.
Proof.
  unfold Datetime.check_date_fields. rewrite !andb_true_iff, !Z.leb_le. lia.
Qed.

(** An earlier date is at least one day before a later one. *)
Lemma timestamp_lt y m d y' m' d' :
  Datetime.check_date_fields y m d = true →
  Datetime.check_date_fields y' m' d' = true →
  date_lt (y, m, d) (y', m', d') →
  (Datetime.timestamp_utc_midnight y m d + 86400
   ≤ Datetime.timestamp_utc_midnight y' m' d')%Z.
Proof.
  intros (Hy & Hm & Hd)%check_date_fields_spec (Hy' & Hm' & Hd')%check_date_fields_spec Hlt.
  unfold Datetime.timestamp_utc_midnight, Datetime.ymd2ord.
  pose proof (days_in_year_bound y m Hm) as [Hb0 Hb].
  pose proof (days_in_year_bound y' m' Hm') as [Hb0' Hb'].
  cbn in Hlt. destruct Hlt as [Hlt|[-> [Hlt|[-> Hlt]]]].
  - pose proof (days_before_year_mono (y + 1) y' ltac:(lia)) as Hmono.
    rewrite days_before_year_succ in Hmono. lia.
  - pose proof (days_before_month_mono y' m m' ltac:(lia) Hlt ltac:(lia)). lia.
  - lia.
Qed.

Lemma parse_valid s y m d :
  Datetime.parse_isoformat_date s = Some (y, m, d) →
  Datetime.check_date_fields y m d = true.
Proof.
  intros H. unfold Datetime.parse_isoformat_date in H.
  repeat (match type of H with
          | match ?x with _ => _ end = _ => destruct x eqn:?; try done
          end).
  repeat match goal with
         | Hd : context [mbind _ (Datetime.digit ?c)] |- _ =>
             destruct (Datetime.digit c) eqn:?; cbn in Hd; [|done]
         end.
  match type of H with
  | (if ?c then _ else _) = _ => destruct c eqn:Hc; [|done]
  end.
  by injection H as <- <- <-.
Qed.

Lemma date_lt_trichotomy a b : date_lt a b ∨ a = b ∨ date_lt b a.
Proof.
  destruct a as [[y m] d], b as [[y' m'] d']. cbn.
  assert ((y < y' ∨ (y = y' ∧ (m < m' ∨ (m = m' ∧ d < d'))))
          ∨ (y = y' ∧ m = m' ∧ d = d')
          ∨ (y' < y ∨ (y' = y ∧ (m' < m ∨ (m' = m ∧ d' < d)))))%Z as H by lia.
  destruct H as [H|[(-> & -> & ->)|H]]; [by left|by right; left|by right; right].
Qed.

(** X3. On bare dates [_to_ts] is strictly increasing: the timestamp is a
    whole number of days, an earlier date has a smaller timestamp, by at
    least 86400 seconds, and two dates with the same timestamp are the same
    date. *)
Theorem to_ts_monotone s s' ymd ymd' :
  Datetime.parse_isoformat_date s = Some ymd →
  Datetime.parse_isoformat_date s' = Some ymd' →
  ∃ t t',
    RedditClient._to_ts s = Some t
    ∧ RedditClient._to_ts s' = Some t'
    ∧ (t mod 86400 = 0)%Z
    ∧ (date_lt ymd ymd' ↔ (t < t')%Z)
    ∧ (date_lt ymd ymd' → (t + 86400 ≤ t')%Z)
    ∧ (t = t' → ymd = ymd').
Proof.
  destruct ymd as [[y m] d], ymd' as [[y' m'] d']. intros Hs Hs'.
  pose proof (parse_valid _ _ _ _ Hs) as Hv.
  pose proof (parse_valid _ _ _ _ Hs') as Hv'.
  exists (Datetime.timestamp_utc_midnight y m d), (Datetime.timestamp_utc_midnight y' m' d').
  assert (Hlt : date_lt (y, m, d) (y', m', d') →
                (Datetime.timestamp_utc_midnight y m d + 86400
                 ≤ Datetime.timestamp_utc_midnight y' m' d')%Z)
    by by apply timestamp_lt.
  assert (Hgt : date_lt (y', m', d') (y, m, d) →
                (Datetime.timestamp_utc_midnight y' m' d' + 86400
                 ≤ Datetime.timestamp_utc_midnight y m d)%Z)
    by by apply timestamp_lt.
  split_and!.
  - unfold RedditClient._to_ts. by rewrite Hs.
  - unfold RedditClient._to_ts. by rewrite Hs'.
  - unfold Datetime.timestamp_utc_midnight. apply Z.mod_mul. lia.
  - split; [intros H%Hlt; lia|]. intros Ht.
    destruct (date_lt_trichotomy (y, m, d) (y', m', d')) as [?|[[= -> -> ->]|H%Hgt]];
      [done|lia|lia].
  - exact Hlt.
  - intros Ht.
    destruct (date_lt_trichotomy (y, m, d) (y', m', d')) as [H%Hlt|[?|H%Hgt]];
      [lia|done|lia].
Qed.


(** ** A window that ends before it starts *)

Lemma range_loop_inverted after before min_score flair_set subs failure :
  (before < after)%Z →
  iter_items (RedditClient.list_submission_ids_loop after before min_score flair_set
                subs failure) = [].
Proof.
  intros Hlt. induction subs as [|sub rest IH]; [by destruct failure|].
  cbn. destruct (Z.ltb_spec (sub_created_utc sub) after); [done|].
  by rewrite (proj2 (Z.ltb_lt before (sub_created_utc sub))) by lia.
Qed.

(** X4. Range mode with the end before the start yields nothing: as soon as
    the end boundary is below the start boundary, and so whenever the end
    date is an earlier calendar date than the start date, every record of
    the listing is either passed over or ends the scan. *)
Theorem inverted_window_empty :
  (∀ after before min_score flair_set subs failure,
     (before < after)%Z →
     iter_items (RedditClient.list_submission_ids_loop after before min_score flair_set
                   subs failure) = [])
  ∧ (∀ self subreddit start_date end_date min_score flairs ymd ymd',
       Datetime.parse_isoformat_date start_date = Some ymd →
       Datetime.parse_isoformat_date end_date = Some ymd' →
       date_lt ymd' ymd →
       iter_items (RedditClient.list_submission_ids self subreddit start_date end_date
                     min_score flairs) = []).
Proof.
  split; [intros; by apply range_loop_inverted|].
  intros self subreddit start_date end_date min_score flairs [[y m] d] [[y' m'] d'] Hs He Hlt.
  unfold RedditClient.list_submission_ids, RedditClient._to_ts. rewrite Hs, He. cbn.
  apply range_loop_inverted.
  pose proof (timestamp_lt _ _ _ _ _ _ (parse_valid _ _ _ _ He) (parse_valid _ _ _ _ Hs) Hlt).
  lia.
Qed.


(** ** What discovery yields *)

Lemma scanned_spec after subs sub :
  sub ∈ scanned after subs → sub ∈ subs ∧ (after ≤ sub_created_utc sub)%Z.
Proof.
  induction subs as [|s rest IH]; cbn; [by intros ?%elem_of_nil|].
  destruct (Z.ltb_spec (sub_created_utc s) after); [by intros ?%elem_of_nil|].
  intros [->|Hin]%elem_of_cons; [split; [by left|done]|].
  destruct (IH Hin). split; [by right|done].
Qed.

Lemma scanned_prefix after subs : scanned after subs `prefix_of` subs.
Proof.
  induction subs as [|s rest IH]; cbn; [done|].
  destruct (sub_created_utc s <? after)%Z; [apply prefix_nil|by apply prefix_cons].
Qed.

Lemma filter_sublist {A} (f : A → bool) (l : list A) : List.filter f l `sublist_of` l.
Proof.
  induction l as [|a l IH]; cbn; [done|].
  destruct (f a); [by apply sublist_skip|by apply sublist_cons].
Qed.

(** X5. Discovery invents nothing and reorders nothing.  In range mode every
    item yielded is the dictionary of a record of the listing, has its
    timestamp inside the window, bounds included, and got past the score and
    flair tests; in both modes the items yielded are a subsequence of the
    listing, in its order. *)
Theorem discovery_yields_sound :
  (∀ after before min_score flair_set subs failure it,
     it ∈ iter_items (RedditClient.list_submission_ids_loop after before min_score
                        flair_set subs failure) →
     (after ≤ item_created_utc it ≤ before)%Z
     ∧ ∃ sub, sub ∈ subs ∧ it = item_of sub ∧ kept min_score flair_set sub = true)
  ∧ (∀ after before min_score flair_set subs failure,
       iter_items (RedditClient.list_submission_ids_loop after before min_score
                     flair_set subs failure)
       `sublist_of` (item_of <$> subs))
  ∧ (∀ min_score flair_set subs failure it,
       it ∈ iter_items (RedditClient.search_submissions_loop min_score flair_set
                          subs failure) →
       ∃ sub, sub ∈ subs ∧ it = item_of sub ∧ kept min_score flair_set sub = true)
  ∧ (∀ min_score flair_set subs failure,
       iter_items (RedditClient.search_submissions_loop min_score flair_set subs failure)
       `sublist_of` (item_of <$> subs)).
Proof.
  split_and!.
  - intros after before min_score flair_set subs failure it.
    rewrite range_loop_items.
    intros (sub & -> & Hin)%list_elem_of_fmap.
    apply list_elem_of_In, List.filter_In in Hin as [Hin Hf].
    apply list_elem_of_In, scanned_spec in Hin as [Hin Hafter].
    apply andb_true_iff in Hf as [Hb%Z.leb_le Hk].
    split; [cbn; lia|]. by exists sub.
  - intros. rewrite range_loop_items. apply fmap_sublist.
    etrans; [apply filter_sublist|]. destruct (scanned_prefix after subs) as [k Hk].
    rewrite Hk at 2. by apply sublist_inserts_r.
  - intros min_score flair_set subs failure it. rewrite search_loop_items.
    intros (sub & -> & Hin)%list_elem_of_fmap.
    apply list_elem_of_In, List.filter_In in Hin as [Hin%list_elem_of_In Hf].
    by exists sub.
  - intros. rewrite search_loop_items. apply fmap_sublist, filter_sublist.
Qed.

(** X6. How a failure of the listing comes out.  In keyword mode the
    generator ends as the listing ends: an exception of the listing is always
    raised, once its records have been gone through.  In range mode it is
    raised only when no record older than the start boundary came first: such
    a record ends the sequence normally and hides the failure. *)
Theorem listing_failure :
  (∀ min_score flair_set subs failure,
     iter_end (RedditClient.search_submissions_loop min_score flair_set subs failure)
     = failure)
  ∧ (∀ after before min_score flair_set subs failure,
       Forall (λ s, (after ≤ sub_created_utc s)%Z) subs →
       iter_end (RedditClient.list_submission_ids_loop after before min_score flair_set
                   subs failure) = failure)
  ∧ (∀ after before min_score flair_set subs failure,
       Exists (λ s, (sub_created_utc s < after)%Z) subs →
       iter_end (RedditClient.list_submission_ids_loop after before min_score flair_set
                   subs failure) = None).
Proof.
  split_and!.
  - intros min_score flair_set subs failure.
    induction subs as [|sub rest IH]; cbn; [by destruct failure|].
    repeat case_match; done.
  - intros after before min_score flair_set subs failure Hall.
    induction Hall as [|sub rest Hsub _ IH]; cbn; [by destruct failure|].
    rewrite (proj2 (Z.ltb_ge _ _) Hsub). repeat case_match; done.
  - intros after before min_score flair_set subs failure Hex.
    induction subs as [|sub rest IH]; [by apply Exists_nil in Hex|]. cbn.
    destruct (Z.ltb_spec (sub_created_utc sub) after); [done|].
    apply Exists_cons in Hex as [?|Hex]; [lia|].
    specialize (IH Hex). repeat case_match; done.
Qed.


(** ** A date that is no date *)

Lemma parse_is_bare s : is_iso_date s → Datetime.is_bare_date s = true.
Proof.
  intros (y1 & y2 & y3 & y4 & m1 & m2 & d1 & d2 & -> & Hd)%iso_date_shape.
  cbn. repeat (apply Forall_cons in Hd as [? Hd]).
  by rewrite !bool_decide_eq_true_2.
Qed.

(** X7. A date that is no date.  A string of the shape of a bare date whose
    month or day is out of range is rejected by [_to_ts], whatever the
    host; for a string of another shape the host's [fromisoformat] decides.
    In range mode a start or end date that [_to_ts] rejects ends [run] with
    [ValueError] at the first step of the loop: the two opening lines are
    logged and the bar is opened, no listing is opened, nothing is fetched,
    appended or marked, and the bar and the checkpoint store are closed. *)
Theorem bad_date_run :
  (∀ s, Datetime.is_bare_date s = true →
        Datetime.parse_isoformat_date s = None →
        RedditClient._to_ts s = None)
  ∧ (∀ s, Datetime.is_bare_date s = false →
          RedditClient._to_ts s = Py.fromisoformat_timestamp s)
  ∧ (∀ fuel self w,
       Py.truthy_list (Scraper.keywords self) = false →
       RedditClient._to_ts (Scraper.start_date self) = None
       ∨ RedditClient._to_ts (Scraper.end_date self) = None →
       Scraper.run fuel self w
       = (Raise ValueError,
          set_trace (λ t, t ++ run_prologue self ++ run_epilogue self)
            (set_open (λ o, o ∖ {[ProgressTracker.db_path (Scraper.progress self)]})
               (set_bar_n (λ _, 0%Z) w)))).
Proof.
  split_and!.
  - intros s Hbare Hparse. unfold RedditClient._to_ts. by rewrite Hparse, Hbare.
  - intros s Hbare. unfold RedditClient._to_ts.
    destruct (Datetime.parse_isoformat_date s) as [ymd|] eqn:Hparse.
    + assert (Datetime.is_bare_date s = true) by (apply parse_is_bare; by exists ymd).
      congruence.
    + by rewrite Hbare.
  - intros fuel self w Hk Hbad. rewrite run_unfold.
    assert (iterator_of self = Fail ValueError) as ->.
    { unfold iterator_of, RedditClient.list_submission_ids. rewrite Hk.
      destruct Hbad as [-> | Hend]; [done|].
      destruct (RedditClient._to_ts (Scraper.start_date self)); [by rewrite Hend|done]. }
    cbn. f_equal. apply world_eq; cbn; auto. by rewrite <- app_assoc.
Qed.


(** ** Runs over candidates that are done *)

Lemma drop_tail {A} (n : nat) (l : list A) : drop n (tail l) = drop (S n) l.
Proof. destruct l; [by destruct n|done]. Qed.

(** When every candidate is done the loop only asks the store and logs. *)
Lemma loop_all_done fuel self it : ∀ w,
  no_faults w →
  (∀ sid, sid ∈ yielded_ids it → sid ∈ done_ids self w) →
  ∃ tr,
    Scraper.run_loop fuel self it w
    = (match iter_end it with None => Ret tt | Some e => Raise e end,
       set_trace (λ t, t ++ tr)
         (set_store_faults (drop (length (yielded_ids it))) w))
    ∧ persist_events tr = []
    ∧ (∀ s, EvRequest s ∉ tr).
Proof.
  induction it as [|e|u rest IH|it rest IH]; intros w Hnf Hall.
  - exists []. split_and!; [|done|intros s H; by apply elem_of_nil in H].
    cbn. unfold ret. f_equal. apply world_eq; cbn; auto using app_nil_r.
  - exists []. split_and!; [|done|intros s H; by apply elem_of_nil in H].
    cbn. unfold raise. f_equal. apply world_eq; cbn; auto using app_nil_r.
  - destruct (IH (set_trace (λ t, t ++ [EvDiscovery u]) w) Hnf Hall)
      as (tr & Hrun & Hp & Hr).
    exists (EvDiscovery u :: tr). split_and!.
    + change (Scraper.run_loop fuel self (Effect u rest) w)
        with (Scraper.run_loop fuel self rest (set_trace (λ t, t ++ [EvDiscovery u]) w)).
      rewrite Hrun. cbn. f_equal. apply world_eq; cbn; auto. by rewrite <- app_assoc.
    + exact Hp.
    + intros s [[=]|H]%elem_of_cons. by apply (Hr s).
  - assert (Hin : item_id it ∈ done_ids self w).
    { apply Hall. unfold yielded_ids. cbn. by left. }
    rewrite loop_skip by (by try apply no_faults_next).
    destruct (IH (skipped (item_id it) w)) as (tr & Hrun & Hp & Hr).
    { by apply (no_faults_tail w). }
    { intros sid Hsid. apply Hall. unfold yielded_ids. cbn. by right. }
    exists (EvLog DEBUG "Skip already-scraped id=%s" [ArgS (item_id it)] :: tr). split_and!.
    + rewrite Hrun. cbn. f_equal. apply world_eq; cbn; auto.
      * apply drop_tail.
      * by rewrite <- app_assoc.
    + exact Hp.
    + intros s [[=]|H]%elem_of_cons. by apply (Hr s).
Qed.

Lemma run_all_done fuel self w :
  no_faults w →
  (∀ sid, sid ∈ yielded_ids (iterator_of self) → sid ∈ done_ids self w) →
  ∃ tr,
    Scraper.run fuel self w
    = (match iter_end (iterator_of self) with None => Ret 0%Z | Some e => Raise e end,
       set_trace (λ t, t ++ run_prologue self ++ tr ++ run_epilogue self)
         (set_open (λ o, o ∖ {[ProgressTracker.db_path (Scraper.progress self)]})
            (set_bar_n (λ _, 0%Z)
               (set_store_faults (drop (length (yielded_ids (iterator_of self)))) w))))
    ∧ persist_events tr = []
    ∧ (∀ s, EvRequest s ∉ tr).
Proof.
  intros Hnf Hall. rewrite run_unfold.
  destruct (loop_all_done fuel self (iterator_of self) (started self w) Hnf Hall)
    as (tr & -> & Hp & Hr).
  destruct (iter_end (iterator_of self)) as [e|].
  - exists tr. split_and!; [|done..].
    f_equal. apply world_eq; cbn; auto. by rewrite <- !app_assoc.
  - exists (tr ++ [EvLog INFO "Scraping finished – %d new posts saved" [ArgD 0%Z]]).
    split_and!.
    + f_equal. apply world_eq; cbn; auto. by rewrite <- !app_assoc.
    + by rewrite persist_events_app, Hp.
    + intros s [H|[[=]|H%elem_of_nil]%elem_of_cons]%elem_of_app; [|done]. by apply (Hr s).
Qed.

(** X8. A run all of whose candidates are checkpointed asks the platform for
    no thread, whatever the platform would answer and however many attempts
    are allowed: it returns the count 0 (or raises the exception the listing
    ended with), makes no request, leaves every sink and every store as they
    were, and closes the bar and its store. *)
Theorem all_done_run fuel self w :
  no_faults w →
  (∀ sid, sid ∈ yielded_ids (iterator_of self) → sid ∈ done_ids self w) →
  let res := Scraper.run fuel self w in
  res.1 = match iter_end (iterator_of self) with None => Ret 0%Z | Some e => Raise e end
  ∧ w_requests res.2 = w_requests w
  ∧ w_output res.2 = w_output w
  ∧ w_progress res.2 = w_progress w
  ∧ ∃ tr, w_trace res.2 = w_trace w ++ run_prologue self ++ tr ++ run_epilogue self
          ∧ persist_events tr = []
          ∧ (∀ s, EvRequest s ∉ tr).
Proof.
  intros Hnf Hall res. subst res.
  destruct (run_all_done fuel self w Hnf Hall) as (tr & -> & Hp & Hr).
  split_and!; try done. by exists tr.
Qed.


(** ** What a run leaves alone *)

(** The loop changes no handler and no open store, appends to no sink but
    its own, never takes back a request, and uses up operations of the
    store from the front. *)
Lemma loop_run_footprint self it w r w' :
  loop_run self it w r w' →
  w_handlers w' = w_handlers w
  ∧ w_open w' = w_open w
  ∧ (∀ p, p ≠ Scraper.output self → w_output w' !! p = w_output w !! p)
  ∧ w_requests w ≤ w_requests w'
  ∧ ∃ k, w_store_faults w' = drop k (w_store_faults w).
Proof.
  induction 1 as
    [ w | e w | u rest w r w' _ IH | it rest w e He
    | it rest w r w' Hok Hin _ IH
    | it rest w tr k e Hok Hin Htr Ht
    | it rest w tr k Hok Hin Htr
    | it rest w tr k sub e Hok Hin Htr He
    | it rest w tr k sub r w' Hok Hin Htr Hok1 _ IH ].
  - split_and!; try done. by exists 0.
  - split_and!; try done. by exists 0.
  - exact IH.
  - split_and!; try done. exists 1. cbn. by rewrite <- drop_tail.
  - destruct IH as (Hh & Ho & Hout & Hreq & k & Hk).
    split_and!; try done. exists (S k). rewrite Hk. cbn. apply drop_tail.
  - split_and!; try done; [cbn; lia|]. exists 1. cbn. by rewrite <- drop_tail.
  - split_and!; try done; [cbn; lia|]. exists 1. cbn. by rewrite <- drop_tail.
  - split_and!; try done.
    + intros p Hp. cbn. by rewrite lookup_insert_ne.
    + cbn; lia.
    + exists 2. cbn. by rewrite <- !drop_tail.
  - destruct IH as (Hh & Ho & Hout & Hreq & j & Hj).
    split_and!; try done.
    + intros p Hp. rewrite Hout by done. cbn. by rewrite lookup_insert_ne.
    + cbn in Hreq. lia.
    + exists (S (S j)). rewrite Hj. cbn. by rewrite <- !drop_tail.
Qed.

Lemma run_footprint_faults fuel self w :
  ∃ k, w_store_faults (Scraper.run fuel self w).2 = drop k (w_store_faults w).
Proof.
  rewrite run_unfold.
  destruct (loop_run_footprint self _ _ _ _
              (run_loop_runs fuel self (iterator_of self) (started self w)))
    as (_ & _ & _ & _ & k & Hk).
  destruct (Scraper.run_loop fuel self (iterator_of self) (started self w))
    as [[[]|e|] w1]; by exists k.
Qed.

(** X9. The footprint of [run].  A run installs no signal handler, never
    takes back a request, leaves every sink but its own as it was, and
    uses up operations of the store only from the front; when it returns or
    raises, its own store is the one store it has closed, and while it is
    still retrying no store has been closed. *)
Theorem run_footprint fuel self w :
  let res := Scraper.run fuel self w in
  w_handlers res.2 = w_handlers w
  ∧ w_requests w ≤ w_requests res.2
  ∧ (∀ p, p ≠ Scraper.output self → w_output res.2 !! p = w_output w !! p)
  ∧ (∃ k, w_store_faults res.2 = drop k (w_store_faults w))
  ∧ w_open res.2
    = match res.1 with
      | Diverge => w_open w
      | _ => w_open w ∖ {[ProgressTracker.db_path (Scraper.progress self)]}
      end.
Proof.
  intros res. subst res. rewrite run_unfold.
  destruct (loop_run_footprint self _ _ _ _
              (run_loop_runs fuel self (iterator_of self) (started self w)))
    as (Hh & Ho & Hout & Hreq & k & Hk).
  destruct (Scraper.run_loop fuel self (iterator_of self) (started self w))
    as [[[]|e|] w1]; cbn in *; split_and!; try done; try (by exists k); by rewrite Ho.
Qed.

(** ** The books of a run *)

Lemma fresh_ids_cover ids : ∀ seen sid,
  sid ∈ ids → sid ∈ seen ∨ sid ∈ fresh_ids seen ids.
Proof.
  induction ids as [|x ids IH]; intros seen sid; [by intros ?%elem_of_nil|].
  cbn. intros [->|Hin]%elem_of_cons.
  - destruct (decide (x ∈ seen)); [by left|right; by left].
  - destruct (decide (x ∈ seen)); [by apply IH|].
    destruct (IH ({[x]} ∪ seen) sid Hin) as [[->%elem_of_singleton|?]%elem_of_union|?].
    + right. by left.
    + by left.
    + right. by right.
Qed.

Lemma fresh_ids_nodup ids : ∀ seen, NoDup (fresh_ids seen ids).
Proof.
  induction ids as [|x ids IH]; intros seen; cbn; [constructor|].
  destruct (decide (x ∈ seen)); [apply IH|].
  constructor; [|apply IH].
  intros Hin%fresh_ids_not_done. set_solver.
Qed.

(** X10. The books of a run, however it ends.  The records a run appends to
    its sink have pairwise different identifiers, none of which was
    checkpointed when the run began; the identifiers the run checkpoints
    are those of the records it appended, but possibly the last one, which
    lacks its checkpoint only when the run raised; and the count a run
    returns is the counter of its progress bar: the number of records it
    appended when the bar is not disabled, and 0, whatever it appended,
    when the bar is disabled. *)
Theorem run_books fuel self w :
  let res := Scraper.run fuel self w in
  ∃ recs saved,
    sink self res.2 = sink self w ++ recs
    ∧ done_ids self res.2 = done_ids self w ∪ list_to_set saved
    ∧ NoDup (Submission.id <$> recs)
    ∧ (∀ sid, sid ∈ Submission.id <$> recs → sid ∉ done_ids self w)
    ∧ (Submission.id <$> recs = saved
       ∨ ∃ sid e, res.1 = Raise e ∧ Submission.id <$> recs = saved ++ [sid])
    ∧ (∀ n, res.1 = Ret n →
            n = (if Py.tqdm_disable then 0%Z else Z.of_nat (length recs))
            ∧ Submission.id <$> recs = saved).
Proof.
  intros res. subst res.
  destruct (run_loop_summary fuel self w)
    as (tr & processed & recs & saved & Htr & Hpre & Hall & Hsink & Hids
        & Hdone & Hbar & Hreq & Hshape).
  destruct (run_world fuel self w) as (tl & _ & _ & _ & _ & Hs & Hd & Hres).
  cbn zeta in Hs, Hd, Hres.
  exists recs, saved. rewrite Hs, Hd, Hres. split_and!.
  - exact Hsink.
  - exact Hdone.
  - rewrite Hids. apply fresh_ids_nodup.
  - intros sid Hsid. rewrite Hids in Hsid. by apply fresh_ids_not_done in Hsid.
  - destruct Hshape as [[_ Hr]|(sid & e & Hr & _ & Hrecs)]; [by left|].
    right. exists sid, e. by rewrite Hr.
  - intros n Hn.
    destruct (Scraper.run_loop fuel self (iterator_of self) (started self w)).1
      as [[]|e|] eqn:Hloop; [|done..].
    injection Hn as <-.
    destruct Hshape as [[_ Hr]|(sid & e & Hr & _)]; [|done].
    split; [|done]. rewrite Hbar. cbn.
    rewrite <- (length_fmap Submission.id recs), Hr.
    destruct Py.tqdm_disable; lia.
Qed.

(** X11. A completed run makes the next one idle.  After a run that met no
    failure of the store and whose listing ended normally, on a platform
    that delivers every thread within the attempts allowed, a run on the
    same checkpoint store whose candidates are among those of the first
    returns 0 (or raises what its listing ended with), asks for no thread
    and leaves every sink and every store as the first run left them. *)
Theorem rerun_is_idle fuel fuel' N self self' w :
  delivers_within (RedditClient.reddit (Scraper.reddit self)) N →
  N < fuel →
  no_faults w →
  iter_end (iterator_of self) = None →
  Scraper.progress self' = Scraper.progress self →
  (∀ sid, sid ∈ yielded_ids (iterator_of self') → sid ∈ yielded_ids (iterator_of self)) →
  let w1 := (Scraper.run fuel self w).2 in
  let res := Scraper.run fuel' self' w1 in
  res.1 = match iter_end (iterator_of self') with None => Ret 0%Z | Some e => Raise e end
  ∧ w_requests res.2 = w_requests w1
  ∧ w_output res.2 = w_output w1
  ∧ w_progress res.2 = w_progress w1.
Proof.
  intros Hd Hfuel Hnf Hend Hprog Hsub w1 res. subst res.
  assert (Hnf1 : no_faults w1).
  { destruct (run_footprint_faults fuel self w) as [k Hk].
    unfold no_faults. fold w1 in Hk. rewrite Hk. by apply Forall_drop. }
  assert (Hdone : ∀ sid, sid ∈ yielded_ids (iterator_of self') → sid ∈ done_ids self' w1).
  { intros sid Hsid%Hsub.
    destruct (run_loop_summary fuel self w)
      as (tr & processed & recs & saved & Htr & Hpre & Hall & Hsink & Hids
          & Hdn & Hbar & Hreq & Hshape).
    destruct (run_world fuel self w) as (tl & _ & _ & _ & _ & _ & Hdw & _).
    cbn zeta in Hdw.
    pose proof (run_loop_returns fuel N self (iterator_of self) Hd Hfuel Hend
                  (started self w) Hnf) as Hret.
    rewrite Hret in Hall, Hshape. specialize (Hall eq_refl). subst processed.
    destruct Hshape as [[_ Hr]|(? & ? & [=] & _)].
    change (done_ids self' w1) with (w_progress w1 !!! ProgressTracker.db_path (Scraper.progress self')).
    rewrite Hprog. change (sid ∈ done_ids self (Scraper.run fuel self w).2).
    rewrite Hdw, Hdn, <- Hr, Hids.
    destruct (fresh_ids_cover _ (done_ids self (started self w)) sid Hsid) as [?|?];
      set_solver. }
  destruct (run_all_done fuel' self' w1 Hnf1 Hdone) as (tr & -> & _ & _).
  split_and!; done.
Qed.


(** ** A platform that stays down *)

(** X12. A platform that stays down.  When the first candidate is not done
    and the platform answers every request for it with an error of the
    [except] clause, [run] never gets past it: however many attempts are
    allowed, all of them are spent on that thread, each followed by the
    backoff, nothing is appended or marked, and the bar and the store are
    not closed. *)
Theorem stuck_while_platform_is_down fuel self it0 w :
  first_candidate (iterator_of self) = Some it0 →
  next_store_op_ok w →
  item_id it0 ∉ done_ids self w →
  always_transient (RedditClient.reddit (Scraper.reddit self)) (item_id it0) (w_requests w) →
  let res := Scraper.run fuel self w in
  res.1 = Diverge
  ∧ w_requests res.2 = w_requests w + fuel
  ∧ w_output res.2 = w_output w
  ∧ w_progress res.2 = w_progress w
  ∧ w_open res.2 = w_open w
  ∧ w_trace res.2
    = w_trace w ++ run_prologue self ++ events_before_first (iterator_of self)
      ++ retry_trace (item_id it0) (RedditClient.ratelimit_sleep (Scraper.reddit self)) fuel.
Proof.
  intros Hfirst Hok Hin Hdown res. subst res.
  rewrite run_unfold, (loop_stuck fuel self it0 _ (started self w) Hfirst Hok Hin Hdown).
  split_and!; try done. cbn. by rewrite <- app_assoc.
Qed.


(** ** [main]: from the run to the exports *)

Lemma exports_app tr1 tr2 : exports (tr1 ++ tr2) = exports tr1 ++ exports tr2.
Proof. apply List.filter_app. Qed.

Lemma exports_fetch self sid tr : fetch_events self sid tr → exports tr = [].
Proof. induction 1 as [|ev tr [-> | ->] _ IH]; [done|..]; cbn; exact IH. Qed.

Lemma loop_run_exports self it w r w' :
  loop_run self it w r w' → exports (w_trace w') = exports (w_trace w).
Proof.
  induction 1 as
    [ w | e w | u rest w r w' _ IH | it rest w e He
    | it rest w r w' Hok Hin _ IH
    | it rest w tr k e Hok Hin Htr Ht
    | it rest w tr k Hok Hin Htr
    | it rest w tr k sub e Hok Hin Htr He
    | it rest w tr k sub r w' Hok Hin Htr Hok1 _ IH ]; try done.
  - rewrite IH. cbn. by rewrite exports_app, app_nil_r.
  - rewrite IH. cbn. by rewrite exports_app, app_nil_r.
  - cbn. by rewrite exports_app, (exports_fetch _ _ _ Htr), app_nil_r.
  - cbn. by rewrite exports_app, (exports_fetch _ _ _ Htr), app_nil_r.
  - cbn. by rewrite !exports_app, (exports_fetch _ _ _ Htr), !app_nil_r.
  - rewrite IH. cbn. by rewrite !exports_app, (exports_fetch _ _ _ Htr), !app_nil_r.
Qed.

Lemma run_exports fuel self w :
  exports (w_trace (Scraper.run fuel self w).2) = exports (w_trace w).
Proof.
  rewrite run_unfold.
  pose proof (loop_run_exports self _ _ _ _
                (run_loop_runs fuel self (iterator_of self) (started self w))) as H.
  assert (Hs : exports (w_trace (started self w)) = exports (w_trace w)).
  { cbn. rewrite exports_app. unfold run_prologue.
    destruct (Py.truthy_list _); cbn; by rewrite app_nil_r. }
  rewrite Hs in H.
  destruct (Scraper.run_loop fuel self (iterator_of self) (started self w))
    as [[[]|e|] w1]; cbn in *; rewrite ?exports_app, ?H; cbn; by rewrite ?app_nil_r.
Qed.

Lemma export_steps_spec ROOT args n w :
  ∃ tr, cli.export_steps ROOT args n w
        = (if (n =? 0)%Z then Ret tt
           else match (attempted (exports_for ROOT args)).2 with
                | Some e => Raise e
                | None => Ret tt
                end,
           set_trace (λ t, t ++ tr) w)
        ∧ exports tr = if (n =? 0)%Z then [] else (attempted (exports_for ROOT args)).1.
Proof.
  unfold cli.export_steps, exports_for, cli.external. cbv zeta.
  generalize (cli.build_paths ROOT (cli.subreddit args) (cli.start_date args)
                (cli.end_date args)).
  intros paths.
  destruct (n =? 0)%Z.
  { eexists. split; [reflexivity|done]. }
  destruct (cli.csv args), (cli.txt args), (cli.merged args);
    cbn [orb app attempted];
    destruct (Py.export_failure CsvExport), (Py.export_failure TxtExport),
      (Py.export_failure MergeScript), (Py.export_failure RenameMerged);
    (eexists; split;
     [unfold bind, log, emit, ret, raise; cbn [fst snd]; f_equal; apply world_eq;
      try reflexivity;
      cbn [w_trace set_trace]; rewrite <- ?app_assoc; try reflexivity;
      symmetry; apply app_nil_r
     |reflexivity]).
Qed.

(** X13. From the run to the exports.  [main] ends as [run] ends: an
    exception of [run] comes out of [main] and no export step is taken; when
    [run] returns the count 0 none is taken either; otherwise the steps are
    those the flags ask for, in this order: the CSV export, the TXT export
    (also when only the merged file is asked for), then the merge script and
    the renaming of its output.  A step that fails is the last one taken,
    and its exception comes out of [main]. *)
Theorem main_outcome ROOT fuel api args w self w1 :
  cli.make_scraper ROOT api args
    (set_trace (λ t, t ++ [EvSetupLogging (cli.log_level args) (cli.log_file args)]) w)
  = (Ret self, w1) →
  let r := Scraper.run fuel self w1 in
  let res := cli.main ROOT fuel api args w in
  res.1 = match r.1 with
          | Ret n =>
              if (n =? 0)%Z then Ret tt
              else match (attempted (exports_for ROOT args)).2 with
                   | Some e => Raise e
                   | None => Ret tt
                   end
          | Raise e => Raise e
          | Diverge => Diverge
          end
  ∧ exports (w_trace res.2)
    = exports (w_trace w)
      ++ match r.1 with
         | Ret n => if (n =? 0)%Z then [] else (attempted (exports_for ROOT args)).1
         | _ => []
         end.
Proof.
  intros Hmk r res. subst r res.
  assert (Hw1 : exports (w_trace w1) = exports (w_trace w)).
  { unfold cli.make_scraper, Scraper.__init__, bind in Hmk. cbn in Hmk.
    injection Hmk as _ <-. cbn. rewrite !exports_app. cbn. by rewrite !app_nil_r. }
  unfold cli.main.
  erewrite bind_ret; [|reflexivity]. cbv beta.
  erewrite bind_ret; [|exact Hmk]. cbv beta.
  pose proof (run_exports fuel self w1) as Hrun. rewrite Hw1 in Hrun.
  destruct (Scraper.run fuel self w1) as [[n|e|] w2] eqn:Hr.
  - erewrite bind_ret; [|exact Hr]. cbv beta.
    destruct (export_steps_spec ROOT args n w2) as (tr & -> & Htr).
    cbn [fst snd w_trace set_trace] in *.
    by rewrite exports_app, Hrun, Htr.
  - erewrite bind_raise; [|exact Hr]. cbn in *. by rewrite app_nil_r.
  - erewrite bind_diverge; [|exact Hr]. cbn in *. by rewrite app_nil_r.
Qed.


(** ** The files of a run *)

Lemma out_dir ROOT c dir :
  no_slash (String c dir) → String c dir ≠ "." →
  Pathlib.div (cli.OUT_BASE ROOT) (String c dir) = ROOT ++ ["outputs"; String c dir].
Proof.
  intros Hns Hdot. rewrite div_name by done.
  unfold cli.OUT_BASE. rewrite (div_name ROOT "o"%char "utputs") by done.
  by rewrite <- app_assoc.
Qed.

Lemma out_file ROOT sub start end_ c dir c' pre suf :
  no_slash sub → is_iso_date start → is_iso_date end_ →
  no_slash (String c dir) → String c dir ≠ "." →
  no_slash (String c' pre) → no_slash suf →
  Pathlib.div (Pathlib.div (cli.OUT_BASE ROOT) (String c dir))
    (String c' pre +:+ cli.p_tag (cli.build_paths ROOT sub start end_) +:+ suf)
  = ROOT ++ ["outputs"; String c dir;
             String c' pre +:+ cli.p_tag (cli.build_paths ROOT sub start end_) +:+ suf].
Proof.
  intros Hsub Hs He Hdir Hdot Hpre Hsuf.
  pose proof (tag_no_slash ROOT sub start end_ Hsub Hs He) as Htag.
  rewrite out_dir by done.
  rewrite append_cons, div_name.
  - by rewrite <- app_assoc.
  - rewrite <- append_cons. unfold no_slash in *.
    by rewrite !contains_append, Hpre, Htag, Hsuf.
  - rewrite <- append_cons. intros Heq. apply (f_equal String.length) in Heq.
    rewrite !length_append in Heq.
    assert (10 ≤ String.length (cli.p_tag (cli.build_paths ROOT sub start end_))).
    { cbn [cli.p_tag cli.build_paths]. rewrite !length_append.
      destruct (slug_iso_date _ Hs) as [-> _]. lia. }
    cbn [String.length] in Heq. lia.
Qed.

Lemma string_neq_length s t : String.length s ≠ String.length t → s ≠ t.
Proof. by intros H ->. Qed.

(** X14. The files of a run.  For a subreddit without a path separator and
    bare ISO dates, the record sink, the checkpoint store, the two CSV
    files, the TXT directory, the merged file and the file the merge script
    writes are seven different paths under [outputs]; the file the merge
    script writes is the TXT directory's name with [.txt], beside the
    directory, and it is renamed within that parent directory. *)
Theorem build_paths_distinct ROOT sub start end_ :
  no_slash sub → is_iso_date start → is_iso_date end_ →
  let paths := cli.build_paths ROOT sub start end_ in
  NoDup [cli.p_ndjson paths; cli.p_progress paths; cli.p_csv_sub paths;
         cli.p_csv_com paths; cli.p_txt_dir paths; cli.p_merged paths;
         generated_of paths]
  ∧ generated_of paths
    = ROOT ++ ["outputs"; "txt"; "conversations_" +:+ cli.p_tag paths +:+ ".txt"]
  ∧ cli.p_merged paths
    = ROOT ++ ["outputs"; "txt"; "all_conversations_" +:+ cli.p_tag paths +:+ ".txt"]
  ∧ Pathlib.parent (cli.p_txt_dir paths) = ROOT ++ ["outputs"; "txt"].
Proof.
  intros Hsub Hs He paths.
  pose proof (λ c dir c' pre suf, out_file ROOT sub start end_ c dir c' pre suf Hsub Hs He)
    as Hfile.
  fold paths in Hfile.
  set (tag := cli.p_tag paths) in *.
  assert (H1 : cli.p_ndjson paths = ROOT ++ ["outputs"; "data"; "output_" +:+ tag +:+ ".ndjson"])
    by (by apply (Hfile "d"%char "ata" "o"%char "utput_" ".ndjson")).
  assert (H2 : cli.p_progress paths
               = ROOT ++ ["outputs"; "progress"; "progress_" +:+ tag +:+ ".sqlite"])
    by (by apply (Hfile "p"%char "rogress" "p"%char "rogress_" ".sqlite")).
  assert (H3 : cli.p_csv_sub paths
               = ROOT ++ ["outputs"; "csv"; "output_" +:+ tag +:+ "_submissions.csv"])
    by (by apply (Hfile "c"%char "sv" "o"%char "utput_" "_submissions.csv")).
  assert (H4 : cli.p_csv_com paths
               = ROOT ++ ["outputs"; "csv"; "output_" +:+ tag +:+ "_comments.csv"])
    by (by apply (Hfile "c"%char "sv" "o"%char "utput_" "_comments.csv")).
  assert (Hnil : ∀ s, s +:+ "" = s).
  { induction s as [|c s IH]; [done|]. by rewrite append_cons, IH. }
  assert (H5 : cli.p_txt_dir paths
               = ROOT ++ ["outputs"; "txt"; "conversations_" +:+ tag]).
  { pose proof (Hfile "t"%char "xt" "c"%char "onversations_" ""
                  eq_refl ltac:(done) eq_refl eq_refl) as H.
    rewrite (Hnil tag) in H. exact H. }
  assert (H6 : cli.p_merged paths
               = ROOT ++ ["outputs"; "txt"; "all_conversations_" +:+ tag +:+ ".txt"])
    by (by apply (Hfile "t"%char "xt" "a"%char "ll_conversations_" ".txt")).
  assert (Hparent : Pathlib.parent (cli.p_txt_dir paths) = ROOT ++ ["outputs"; "txt"]).
  { rewrite H5. unfold Pathlib.parent.
    change (ROOT ++ ["outputs"; "txt"; ?f]) with (ROOT ++ ["outputs"; "txt"] ++ [f]).
    by rewrite app_assoc, removelast_last. }
  assert (Hname : Pathlib.name (cli.p_txt_dir paths) = "conversations_" +:+ tag).
  { rewrite H5. unfold Pathlib.name.
    change (ROOT ++ ["outputs"; "txt"; ?f]) with (ROOT ++ ["outputs"; "txt"] ++ [f]).
    by rewrite app_assoc, last_last. }
  assert (H7 : generated_of paths
               = ROOT ++ ["outputs"; "txt"; "conversations_" +:+ tag +:+ ".txt"]).
  { unfold generated_of. rewrite Hparent, Hname.
    pose proof (Hfile "t"%char "xt" "c"%char "onversations_" ".txt"
                  eq_refl ltac:(done) eq_refl eq_refl) as Hg.
    rewrite out_dir in Hg by done.
    assert (("conversations_" +:+ tag) +:+ ".txt" = "conversations_" +:+ tag +:+ ".txt") as ->.
    { generalize tag. intros t. by rewrite !append_cons. }
    exact Hg. }
  split_and!; [|exact H7|exact H6|exact Hparent].
  rewrite H1, H2, H3, H4, H5, H6, H7.
  repeat (apply NoDup_cons; split;
          [rewrite ?elem_of_cons, elem_of_nil;
           intros Hin;
           repeat (destruct Hin as [Hin|Hin];
                   [apply app_inv_head in Hin; injection Hin as Hin;
                    try discriminate;
                    apply (f_equal String.length) in Hin;
                    rewrite ?length_append in Hin; cbn in Hin; lia|]);
           exact Hin|]).
  apply NoDup_nil_2.
Qed.


(** ** The slug of a date *)

Lemma replace_char_absent a b s : Py.contains a s = false → Py.replace_char a b s = s.
Proof.
  induction s as [|c s IH]; [done|]. cbn.
  intros [-> Hs]%orb_false_iff. by rewrite IH.
Qed.

Lemma replace_char_gone a b s : a ≠ b → Py.contains a (Py.replace_char a b s) = false.
Proof.
  intros Hab. induction s as [|c s IH]; [done|]. cbn. rewrite IH, orb_false_r.
  destruct (Ascii.eqb_spec c a) as [->|Hc]; by apply Ascii.eqb_neq.
Qed.

(** X15. The slug of a date.  [_slug] keeps the length of the string and
    every character but the hyphen, leaves no hyphen, and changes nothing
    in a string without hyphens, so that slugging twice is slugging once: a
    string with a hyphen and its own slug are two different dates with the
    same slug, and give the same tag. *)
Theorem slug_properties :
  (∀ s, String.length (cli._slug s) = String.length s)
  ∧ (∀ s, Py.contains "-" (cli._slug s) = false)
  ∧ (∀ s, Py.contains "-" s = false → cli._slug s = s)
  ∧ (∀ s, cli._slug (cli._slug s) = cli._slug s)
  ∧ (∀ ROOT sub s end_,
       Py.contains "-" s = true →
       cli._slug s ≠ s
       ∧ cli.p_tag (cli.build_paths ROOT sub (cli._slug s) end_)
         = cli.p_tag (cli.build_paths ROOT sub s end_)).
Proof.
  assert (Hgone : ∀ s, Py.contains "-" (cli._slug s) = false)
    by (intros; by apply replace_char_gone).
  assert (Hidem : ∀ s, cli._slug (cli._slug s) = cli._slug s)
    by (intros; by apply replace_char_absent, Hgone).
  split_and!.
  - intros. apply replace_char_length.
  - exact Hgone.
  - intros. by apply replace_char_absent.
  - exact Hidem.
  - intros ROOT sub s end_ Hs. split.
    + intros Heq. specialize (Hgone s). rewrite Heq in Hgone. congruence.
    + cbn. by rewrite Hidem.
Qed.


(** ** From the command line to the Scraper *)

Lemma split_nonempty sep s : Py.split sep s ≠ [].
Proof.
  induction s as [|c s IH]; [done|]. cbn.
  destruct (Ascii.eqb c sep); [done|]. by destruct (Py.split sep s).
Qed.

(** The flair test is switched on exactly by a list with an element. *)
Lemma flair_set_truthy flairs :
  Py.truthy_set (RedditClient.flair_set_of flairs) = Py.truthy_list flairs.
Proof.
  destruct flairs as [[|f fs]|]; try done.
  unfold RedditClient.flair_set_of. cbn.
  rewrite bool_decide_eq_false_2; [done|]. set_solver.
Qed.

Lemma comma_list_truthy (o : option string) :
  Py.truthy_list (if Py.truthy_str o
                  then Some (Py.strip <$> Py.split "," (default "" o))
                  else None)
  = Py.truthy_str o.
Proof.
  destruct o as [[|c s]|]; try done.
  cbn [Py.truthy_str default from_option id].
  pose proof (split_nonempty "," (String c s)) as H.
  by destruct (Py.split "," (String c s)).
Qed.

(** X16. From the command line to the mode of the run.  The Scraper [main]
    builds runs in keyword mode exactly when [--keywords] is given and is
    not the empty string, and tests flairs exactly when [--flair] is given
    and is not the empty string, whatever else the strings hold: a string
    of blanks or commas only switches the mode or the test on, with empty
    entries.  Subreddit, dates and minimum score are passed on as given. *)
Theorem command_line_modes ROOT api args w self w' :
  cli.make_scraper ROOT api args w = (Ret self, w') →
  Py.truthy_list (Scraper.keywords self) = Py.truthy_str (cli.keywords args)
  ∧ Py.truthy_set (RedditClient.flair_set_of (Scraper.flairs self))
    = Py.truthy_str (cli.flair args)
  ∧ (∀ s, cli.keywords args = Some s → s ≠ "" →
          Scraper.keywords self = Some (Py.strip <$> Py.split "," s))
  ∧ (∀ s, cli.flair args = Some s → s ≠ "" →
          Scraper.flairs self = Some (Py.strip <$> Py.split "," s))
  ∧ Scraper.subreddit self = cli.subreddit args
  ∧ Scraper.start_date self = cli.start_date args
  ∧ Scraper.end_date self = cli.end_date args
  ∧ Scraper.min_score self = cli.min_score args.
Proof.
  intros Hmk. unfold cli.make_scraper, Scraper.__init__, bind in Hmk.
  cbn [ProgressTracker.__init__ modify emit ret fst snd] in Hmk.
  cbv beta iota in Hmk. unfold Scraper._setup_signals, bind, modify, emit, ret in Hmk.
  injection Hmk as <- _.
  cbn [Scraper.keywords Scraper.flairs Scraper.subreddit Scraper.start_date
       Scraper.end_date Scraper.min_score].
  split_and!; try done.
  - apply comma_list_truthy.
  - rewrite flair_set_truthy. apply comma_list_truthy.
  - intros s -> Hs. by destruct s.
  - intros s -> Hs. by destruct s.
Qed.


(** X17. What building a Scraper does.  The constructor opens its
    checkpoint store, installs its handler for SIGINT and then for SIGTERM,
    and nothing else: the handlers of the other signals, the sinks, the
    stores and the count of requests are as before.  The client it builds
    backs off for 2 seconds. *)
Theorem constructor_footprint api subreddit start_date end_date output min_score flairs
    keywords progress_db w self w' :
  Scraper.__init__ api subreddit start_date end_date output min_score flairs keywords
    progress_db w = (Ret self, w') →
  w' = set_trace (λ t, t ++ [EvStoreOpen progress_db; EvSignalHandler SIGINT;
                             EvSignalHandler SIGTERM])
         (set_handlers (λ hs, (SIGTERM, GracefulExit progress_db)
                              :: (SIGINT, GracefulExit progress_db) :: hs)
            (set_open (λ o, {[progress_db]} ∪ o) w))
  ∧ (∀ sig, sig ≠ SIGINT → sig ≠ SIGTERM →
            handler_of (w_handlers w') sig = handler_of (w_handlers w) sig)
  ∧ RedditClient.ratelimit_sleep (Scraper.reddit self) = 2%Z
  ∧ Scraper.output self = output
  ∧ fetch_events self "" [EvSleep 2].
Proof.
  intros Hinit. unfold Scraper.__init__, bind in Hinit.
  cbn [ProgressTracker.__init__ modify emit ret fst snd] in Hinit.
  cbv beta iota in Hinit. unfold Scraper._setup_signals, bind, modify, emit, ret in Hinit.
  injection Hinit as <- <-.
  split_and!; try done.
  - apply world_eq; cbn; auto. by rewrite <- !app_assoc.
  - intros sig H1 H2. cbn. by rewrite !decide_False by done.
  - constructor; [by right|constructor].
Qed.


(** ** The allow-list of flairs *)

Lemma lower_empty s : Py.lower s = "" ↔ s = "".
Proof. split; [apply Py.lower_nonempty|]. intros ->. by rewrite Py.lower_ascii. Qed.

(** X18. The allow-list of flairs is a set of lowered strings.  Two
    allow-lists with the same lowered entries, in whatever order, case and
    number, give the same discovery sequence in both modes; and under a
    list with an entry a record without flair, or with the empty flair,
    gets through exactly when the list has an empty entry. *)
Theorem allow_list_semantics :
  (∀ self subreddit start_date end_date keywords time_filter min_score fs fs',
     (∀ f, f ∈ Py.lower <$> fs ↔ f ∈ Py.lower <$> fs') →
     RedditClient.list_submission_ids self subreddit start_date end_date min_score (Some fs)
     = RedditClient.list_submission_ids self subreddit start_date end_date min_score (Some fs')
     ∧ RedditClient.search_submissions self subreddit keywords time_filter min_score (Some fs)
       = RedditClient.search_submissions self subreddit keywords time_filter min_score
           (Some fs'))
  ∧ (∀ fs sub,
       fs ≠ [] →
       Py.or_empty (sub_link_flair_text sub) = "" →
       kept None (RedditClient.flair_set_of (Some fs)) sub = true ↔ "" ∈ fs).
Proof.
  split.
  - intros self subreddit start_date end_date keywords time_filter min_score fs fs' Hsame.
    assert (RedditClient.flair_set_of (Some fs) = RedditClient.flair_set_of (Some fs')) as Heq.
    { unfold RedditClient.flair_set_of.
      destruct fs as [|f fs], fs' as [|f' fs']; cbn [Py.truthy_list default]; try done.
      - specialize (Hsame (Py.lower f')). set_solver.
      - specialize (Hsame (Py.lower f)). set_solver.
      - f_equal. apply set_eq. intros x. rewrite !elem_of_list_to_set. apply Hsame. }
    unfold RedditClient.list_submission_ids, RedditClient.search_submissions.
    by rewrite Heq.
  - intros fs sub Hfs Hflair. unfold kept.
    rewrite flair_set_truthy.
    destruct fs as [|f fs]; [done|].
    cbn [Py.truthy_int Py.truthy_list andb negb].
    rewrite Hflair. unfold RedditClient.flair_set_of.
    cbn [Py.truthy_list default from_option id].
    rewrite (proj2 (lower_empty "") eq_refl).
    rewrite negb_involutive, bool_decide_eq_true, elem_of_list_to_set, list_elem_of_fmap.
    split.
    + intros (x & Hx & Hin). symmetry in Hx. apply (proj1 (lower_empty x)) in Hx.
      by subst x.
    + intros Hin. exists "". by rewrite (proj2 (lower_empty "") eq_refl).
Qed.


(** ** A run cut between the append and the mark *)

(** X19. A record whose mark failed is appended again.  When the store
    fails at [mark_done], the record is in the sink, its identifier is not
    checkpointed and the loop raises; when the candidate comes again and
    the store works, the thread is fetched and appended a second time: the
    sink then holds two records with that identifier. *)
Theorem interrupted_append_is_repeated n n' fuel fuel' self it rest rest' w sub sub' e fs :
  item_id it ∉ done_ids self w →
  w_store_faults w = None :: Some e :: None :: None :: fs →
  fails_transiently (RedditClient.reddit (Scraper.reddit self)) (item_id it)
    (w_requests w) n →
  submission (RedditClient.reddit (Scraper.reddit self)) (item_id it) (w_requests w + n)
  = Delivered sub →
  n < fuel →
  fails_transiently (RedditClient.reddit (Scraper.reddit self)) (item_id it)
    (w_requests w + S n) n' →
  submission (RedditClient.reddit (Scraper.reddit self)) (item_id it)
    (w_requests w + S n + n') = Delivered sub' →
  n' < fuel' →
  let first := Scraper.run_loop fuel self (Yield it rest) w in
  let again :=
    checkpointed self (item_id it) (tree_of (item_id it) sub')
      (appended self (tree_of (item_id it) sub')
         (after_attempts (item_id it)
            (RedditClient.ratelimit_sleep (Scraper.reddit self)) n'
            (set_store_faults tail first.2))) in
  first.1 = Raise e
  ∧ Submission.id <$> sink self first.2 = (Submission.id <$> sink self w) ++ [item_id it]
  ∧ (item_id it ∉ done_ids self first.2)
  ∧ Scraper.run_loop fuel' self (Yield it rest') first.2
    = Scraper.run_loop fuel' self rest' again
  ∧ Submission.id <$> sink self again
    = (Submission.id <$> sink self w) ++ [item_id it; item_id it]
  ∧ item_id it ∈ done_ids self again.
Proof.
  intros Hin Hfaults Hfail Hdel Hfuel Hfail' Hdel' Hfuel' first again.
  assert (Hok : next_store_op_ok w) by (intros e0; by rewrite Hfaults).
  pose proof (fetch_succeeds n fuel (Scraper.reddit self) (item_id it)
                (set_store_faults tail w) sub Hfail Hdel Hfuel) as Hfetch.
  assert (Hfirst : first
                   = (Raise e,
                      set_store_faults tail
                        (appended self (tree_of (item_id it) sub)
                           (after_attempts (item_id it)
                              (RedditClient.ratelimit_sleep (Scraper.reddit self)) n
                              (set_store_faults tail w))))).
  { subst first. apply (loop_mark_done_fails fuel self it rest w _ _ e Hok Hin Hfetch).
    cbn. by rewrite Hfaults. }
  assert (Hsink : sink self first.2
                  = sink self w ++ [Submission.from_pushshift_reddit (tree_of (item_id it) sub)]).
  { rewrite Hfirst. apply (sink_appended self _
      (after_attempts (item_id it) (RedditClient.ratelimit_sleep (Scraper.reddit self)) n
         (set_store_faults tail w))). }
  assert (Hin1 : item_id it ∉ done_ids self first.2) by (by rewrite Hfirst).
  assert (Hok1 : next_store_op_ok first.2).
  { rewrite Hfirst. intros e0. cbn. by rewrite Hfaults. }
  assert (Hreq1 : w_requests first.2 = w_requests w + S n) by (by rewrite Hfirst).
  split_and!.
  - by rewrite Hfirst.
  - rewrite Hsink, fmap_app. done.
  - exact Hin1.
  - subst again.
    apply (loop_save fuel' self it rest' first.2 _ _ Hok1 Hin1).
    + apply fetch_succeeds.
      * change (w_requests (set_store_faults tail first.2)) with (w_requests first.2).
        by rewrite Hreq1.
      * change (w_requests (set_store_faults tail first.2)) with (w_requests first.2).
        by rewrite Hreq1.
      * exact Hfuel'.
    + rewrite Hfirst. intros e0. cbn. by rewrite Hfaults.
  - subst again.
    change (sink self (checkpointed self (item_id it) ?raw ?w0)) with (sink self w0).
    rewrite sink_appended.
    change (sink self (after_attempts ?a ?b ?c (set_store_faults tail ?w0)))
      with (sink self w0).
    rewrite Hsink, !fmap_app, <- app_assoc. done.
  - subst again. rewrite done_ids_checkpointed. set_solver.
Qed.

End Verification.

(* ===================================================================== *)
(** * Scenarios *)
(* ===================================================================== *)

(** The scenarios run on the host [Py.ascii_host]. *)
#[global] Existing Instance Py.ascii_host.

(** The witness of C4: the thread [p4] was deleted, and every request for it
    is answered with 404; five attempts are allowed. *)
Lemma refused_request_is_retried_witness :
  NotFound ∈ refusals
  ∧ always_refused deleted_api "p4" 0
  ∧ (Scraper.run 5 (scenario_scraper deleted_api None) fresh_world).1 = Diverge
  ∧ w_requests (Scraper.run 5 (scenario_scraper deleted_api None) fresh_world).2 = 5
  ∧ sink (scenario_scraper deleted_api None)
      (Scraper.run 5 (scenario_scraper deleted_api None) fresh_world).2 = [].
Proof.
  assert (H0 : NotFound ∈ refusals) by (unfold refusals; set_solver).
  assert (H1 : always_refused deleted_api "p4" 0).
  { intros k. by exists NotFound. }
  split; [exact H0|]. split; [exact H1|].
  destruct (proj2 (proj2 (proj2 refused_request_is_retried)) 5
              (scenario_scraper deleted_api None)
              p4 fresh_world eq_refl ltac:(by intros e) ltac:(by vm_compute) H1)
    as (Hr & Hn & Hout & _).
  split; [exact Hr|]. split; [exact Hn|].
  unfold sink. rewrite Hout. reflexivity.
Defined.

(** The witness of C5: under a minimum of 0 and the allow-list ["News"] the
    flair test is applied and the score test is not; under a minimum of 5
    and the empty allow-list the score test is applied. *)
Lemma score_flair_filtering_witness :
  kept (Some 0%Z) (RedditClient.flair_set_of (Some ["News"]))
    (record_of "n" 0 (-1) (Some "NEWS")) = true
  ∧ kept (Some 0%Z) (RedditClient.flair_set_of (Some ["News"])) downvoted = false
  ∧ kept (Some 5%Z) (RedditClient.flair_set_of (Some [])) (record_of "x" 0 3 None) = false.
Proof.
  split_and!.
  - apply (proj1 score_flair_filtering (Some 0%Z) (Some ["News"])).
    split; [by left|]. right. vm_compute. by left.
  - destruct (kept (Some 0%Z) (RedditClient.flair_set_of (Some ["News"])) downvoted) eqn:Hk;
      [|done].
    apply (proj1 score_flair_filtering (Some 0%Z) (Some ["News"])) in Hk as [_ [[=]|Hf]].
    vm_compute in Hf. by apply elem_of_cons in Hf as [[=]|?%elem_of_nil].
  - destruct (kept (Some 5%Z) (RedditClient.flair_set_of (Some [])) (record_of "x" 0 3 None))
      eqn:Hk; [|done].
    apply (proj1 score_flair_filtering (Some 5%Z) (Some [])) in Hk as [[[=]|Hs] _].
    cbn in Hs. lia.
Defined.

(** C5 as the spec states it fails: a minimum score of 0 is supplied and the
    record of score -1, strictly below it, is yielded in both modes; and the
    empty allow-list is supplied, no value of which the flair "Discussion"
    matches, and the record is yielded. *)
Lemma score_flair_filtering_counterexample :
  ¬ score_ok (Some 0%Z) downvoted
  ∧ iter_items (RedditClient.search_submissions_loop (Some 0%Z)
                  (RedditClient.flair_set_of None) [downvoted] None)
    = [item_of downvoted]
  ∧ iter_items (RedditClient.list_submission_ids_loop 0 86399 (Some 0%Z)
                  (RedditClient.flair_set_of None) [downvoted] None)
    = [item_of downvoted]
  ∧ ¬ flair_ok (Some []) downvoted
  ∧ iter_items (RedditClient.search_submissions_loop None
                  (RedditClient.flair_set_of (Some [])) [downvoted] None)
    = [item_of downvoted].
Proof.
  split_and!.
  - cbn. lia.
  - reflexivity.
  - reflexivity.
  - cbn. by intros ?%elem_of_nil.
  - reflexivity.
Qed.

(** C6 as the spec states it fails: two command lines that differ in the
    keyword query, and in nothing else, get the same checkpoint store. *)
Lemma checkpoint_store_scoping_counterexample :
  cli.keywords (args_keywords "rust") ≠ cli.keywords (args_keywords "golang")
  ∧ checkpoint_store_of ["/"; "repo"] quiet_api (args_keywords "rust") empty_world
    = Some ["/"; "repo"; "outputs"; "progress";
            "progress_python_2024_01_01__2024_01_31.sqlite"]
  ∧ checkpoint_store_of ["/"; "repo"] quiet_api (args_keywords "golang") empty_world
    = Some ["/"; "repo"; "outputs"; "progress";
            "progress_python_2024_01_01__2024_01_31.sqlite"].
Proof. split_and!; [done|reflexivity|reflexivity]. Qed.

(** The witness of C1: [a] and [b] done, the candidates [a; b; c; d], a
    progress bar that counts. *)
Lemma resume_correctness_witness :
  delivers_within resume_api 0
  ∧ no_faults resume_world
  ∧ iter_end (iterator_of resume_scraper) = None
  ∧ done_ids resume_scraper resume_world = {["a"; "b"]}
  ∧ yielded_ids (iterator_of resume_scraper) = ["a"; "b"; "c"; "d"]
  ∧ Py.tqdm_disable = false
  ∧ ∃ w' recs,
      Scraper.run 1 resume_scraper resume_world = (Ret 2%Z, w')
      ∧ sink resume_scraper w' = recs
      ∧ Submission.id <$> recs = ["c"; "d"].
Proof.
  assert (H1 : delivers_within resume_api 0).
  { intros sid t. exists 0, a_thread. split_and!; [lia| |reflexivity].
    intros k Hk. lia. }
  assert (H2 : no_faults resume_world) by constructor.
  assert (H3 : iter_end (iterator_of resume_scraper) = None) by reflexivity.
  assert (H4 : done_ids resume_scraper resume_world = {["a"; "b"]}) by reflexivity.
  assert (H5 : yielded_ids (iterator_of resume_scraper) = ["a"; "b"; "c"; "d"])
    by reflexivity.
  assert (H6 : Py.tqdm_disable = false) by reflexivity.
  split_and!; try done.
  destruct (proj1 resume_correctness 1 0 resume_scraper resume_world H1 ltac:(lia) H2 H3)
    as (w' & tr & recs & n & _ & _ & _ & Hsink & _ & _ & _ & _ & _ & Hex).
  destruct (Hex H4 H5) as [Hids Hrun].
  exists w', recs. split_and!; [exact (Hrun H6)| |exact Hids].
  rewrite Hsink. reflexivity.
Defined.

(** The witness of C2: [p4] fails twice with a server error, then succeeds. *)
Lemma transient_retry_witness :
  next_store_op_ok fresh_world
  ∧ (item_id p4 ∉ done_ids retry_scraper fresh_world)
  ∧ fails_transiently retry_api "p4" 0 2
  ∧ submission retry_api "p4" 2 = Delivered a_thread
  ∧ ∃ w2,
      Scraper.run_loop 3 retry_scraper (Yield p4 Stop) fresh_world = (Ret tt, w2)
      ∧ Submission.id <$> sink retry_scraper w2 = ["p4"]
      ∧ done_ids retry_scraper w2 = {["p4"]}
      ∧ persist_events (w_trace w2) = persist_steps retry_scraper "p4"
      ∧ List.filter (λ ev, bool_decide (ev = EvSleep 2)) (w_trace w2)
        = [EvSleep 2; EvSleep 2].
Proof.
  assert (H1 : next_store_op_ok fresh_world) by (by intros e).
  assert (H2 : item_id p4 ∉ done_ids retry_scraper fresh_world) by (by vm_compute).
  assert (H3 : fails_transiently retry_api "p4" 0 2).
  { intros k Hk. exists ServerError. split; [|done].
    destruct k as [|[|k]]; [done|done|lia]. }
  assert (H4 : submission retry_api "p4" 2 = Delivered a_thread) by reflexivity.
  split_and!; try done.
  destruct (proj1 (proj2 (proj2 (proj2 transient_retry))) 2 3 retry_scraper p4 Stop
              fresh_world a_thread H1 H1 H2 H3 H4 ltac:(lia))
    as (w2 & Hrun & Hsink & Hid & Hdone & Hbar & Htr).
  exists w2. split_and!.
  - exact Hrun.
  - rewrite Hsink. reflexivity.
  - rewrite Hdone. reflexivity.
  - rewrite Htr. reflexivity.
  - rewrite Htr. reflexivity.
Defined.

(** The witness of C4: the first request for [p4] fails with an exception the
    [except] clause does not name. *)
Lemma nontransient_fail_fast_witness :
  next_store_op_ok fresh_world
  ∧ (item_id p4 ∉ done_ids refused_scraper fresh_world)
  ∧ fails_transiently refusing_api "p4" 0 0
  ∧ submission refusing_api "p4" 0 = Failed (OtherException "OAuthException")
  ∧ RedditClient.transient (OtherException "OAuthException") = false
  ∧ ∃ w1,
      Scraper.run_loop 1 refused_scraper (Yield p4 (Yield p4 Stop)) fresh_world
      = (Raise (OtherException "OAuthException"), w1)
      ∧ sink refused_scraper w1 = []
      ∧ w_trace w1 = [EvRequest "p4"].
Proof.
  assert (H1 : next_store_op_ok fresh_world) by (by intros e).
  assert (H2 : item_id p4 ∉ done_ids refused_scraper fresh_world) by (by vm_compute).
  assert (H3 : fails_transiently refusing_api "p4" 0 0) by (intros k Hk; lia).
  split_and!; try done.
  destruct (proj1 (proj2 nontransient_fail_fast) 0 1 refused_scraper p4 (Yield p4 Stop)
              fresh_world (OtherException "OAuthException") H1 H2 H3 eq_refl eq_refl
              ltac:(lia))
    as (w1 & Hrun & Hsink & _ & _ & Htr).
  exists w1. split_and!; [exact Hrun|by rewrite Hsink|by rewrite Htr].
Defined.

(** The witness of C3: the listing of timestamps 100, 90, 50 and 10 with two
    more records after it, the start boundary 60 and the end boundary 200. *)
Lemma range_window_witness :
  (100 ≤ 200)%Z
  ∧ item_id <$> iter_items
      (RedditClient.list_submission_ids_loop 60 200 None None
         (feed_100_90_50_10 ++ [record_of "e" 150 1 None; record_of "f" 5 1 None])
         (Some ServerError))
    = ["a"; "b"]
  ∧ iter_events
      (RedditClient.list_submission_ids_loop 60 200 None None
         (feed_100_90_50_10 ++ [record_of "e" 150 1 None; record_of "f" 5 1 None])
         (Some ServerError))
    = [FeedNext "a"; FeedNext "b"; FeedNext "c"].
Proof.
  split; [lia|].
  destruct (proj2 (proj2 (proj2 (proj2 (proj2 (proj2 range_window))))) 200%Z
              [record_of "e" 150 1 None; record_of "f" 5 1 None] (Some ServerError)
              ltac:(lia))
    as (Hitems & _ & Hevents & _).
  split; [exact Hitems|exact Hevents].
Defined.

(** The witness of C6: two subreddits over the same dates. *)
Lemma checkpoint_store_scoping_witness :
  no_slash "python" ∧ no_slash "rust"
  ∧ is_iso_date "2024-01-01" ∧ is_iso_date "2024-01-31"
  ∧ ("python", "2024-01-01", "2024-01-31") ≠ ("rust", "2024-01-01", "2024-01-31")
  ∧ cli.p_progress (cli.build_paths ["/"; "repo"] "python" "2024-01-01" "2024-01-31")
    ≠ cli.p_progress (cli.build_paths ["/"; "repo"] "rust" "2024-01-01" "2024-01-31").
Proof.
  assert (H1 : no_slash "python") by reflexivity.
  assert (H2 : no_slash "rust") by reflexivity.
  assert (H3 : is_iso_date "2024-01-01") by (by eexists).
  assert (H4 : is_iso_date "2024-01-31") by (by eexists).
  assert (H5 : ("python", "2024-01-01", "2024-01-31") ≠ ("rust", "2024-01-01", "2024-01-31"))
    by done.
  do 5 (split; [assumption|]).
  destruct (proj1 (proj2 (proj2 (checkpoint_store_scoping ["/"; "repo"])))
              "python" "2024-01-01" "2024-01-31" "rust" "2024-01-01" "2024-01-31"
              H1 H3 H4 H2 H3 H4 H5) as (_ & Hp & _).
  exact Hp.
Defined.

(** The witness of C7: the keywords [rust] and [golang]. *)
Lemma keyword_mode_witness :
  Py.truthy_list (Scraper.keywords keyword_scraper) = true
  ∧ iter_events (iterator_of keyword_scraper)
    = [Search "python" ((dquote +:+ "rust" +:+ dquote) +:+ " OR "
                        +:+ (dquote +:+ "golang" +:+ dquote)) "new" "year";
       FeedNext "a"; FeedNext "b"; FeedNext "c"; FeedNext "d"]
  ∧ iterator_of (with_dates keyword_scraper "2024-01-01" "2024-01-31")
    = iterator_of keyword_scraper.
Proof.
  split; [reflexivity|].
  destruct (keyword_mode keyword_scraper eq_refl) as (_ & _ & Hev & _ & _ & Hdates & _).
  split; [exact Hev|apply Hdates].
Defined.

(** The witness of C9: a Scraper built in the empty world, then SIGTERM. *)
Lemma interrupt_handling_witness :
  (Scraper.__init__ quiet_api "python" "2024-01-01" "2024-01-31" ["output.ndjson"]
     None None None ["progress.sqlite"] empty_world).1
  = Ret (with_dates (scenario_scraper quiet_api None) "2024-01-01" "2024-01-31")
  ∧ ∃ w',
      on_signal SIGTERM
        (Scraper.__init__ quiet_api "python" "2024-01-01" "2024-01-31" ["output.ndjson"]
           None None None ["progress.sqlite"] empty_world).2
      = Some (Raise (SystemExit 0), w')
      ∧ List.filter (λ ev, bool_decide (ev ≠ EvStoreOpen ["progress.sqlite"]
                                        ∧ ev ≠ EvSignalHandler SIGINT
                                        ∧ ev ≠ EvSignalHandler SIGTERM)) (w_trace w')
        = [EvLog WARNING "Received %s – shutting down gracefully…" [ArgS "SIGTERM"];
           EvStoreClose ["progress.sqlite"]].
Proof.
  split; [reflexivity|].
  destruct (proj1 interrupt_handling quiet_api "python" "2024-01-01" "2024-01-31"
              ["output.ndjson"] None None None ["progress.sqlite"] empty_world _ _ eq_refl)
    as (_ & _ & _ & Hsig).
  eexists. split; [apply Hsig; by right|]. reflexivity.
Defined.

(** The witness of C10: a run that ends by an exception of the platform. *)
Lemma cleanup_on_exit_witness :
  (Scraper.run 1 refused_scraper fresh_world).1 = Raise (OtherException "OAuthException")
  ∧ (∃ tr, w_trace (Scraper.run 1 refused_scraper fresh_world).2
           = w_trace fresh_world ++ tr
             ++ [EvBarClose; EvStoreClose ["progress.sqlite"]])
  ∧ (["progress.sqlite"] ∉ w_open (Scraper.run 1 refused_scraper fresh_world).2).
Proof.
  assert (H1 : (Scraper.run 1 refused_scraper fresh_world).1
               = Raise (OtherException "OAuthException")) by reflexivity.
  split; [exact H1|].
  destruct (cleanup_on_exit 1 refused_scraper fresh_world
              (Scraper.run 1 refused_scraper fresh_world).1
              (Scraper.run 1 refused_scraper fresh_world).2)
    as (Htr & Hopen & _).
  - by destruct (Scraper.run 1 refused_scraper fresh_world).
  - by rewrite H1.
  - split; [exact Htr|exact Hopen].
Defined.

(** The witness of C8: the fresh run of three threads returns, so all three
    are persisted, each by its append, its mark and the update of the count,
    in the order of the listing. *)
Lemma persistence_order_witness :
  (Scraper.run 1 fresh_scraper fresh_world).1 = Ret 3%Z
  ∧ Submission.id <$> sink fresh_scraper (Scraper.run 1 fresh_scraper fresh_world).2
    = ["p1"; "p2"; "p3"]
  ∧ persist_events (w_trace (Scraper.run 1 fresh_scraper fresh_world).2)
    = ["p1"; "p2"; "p3"] ≫= persist_steps fresh_scraper.
Proof.
  assert (Hret : (Scraper.run 1 fresh_scraper fresh_world).1 = Ret 3%Z) by reflexivity.
  split; [exact Hret|].
  destruct (persistence_order 1 fresh_scraper fresh_world)
    as (tr & processed & recs & saved & Htr & _ & Hall & Hsink & Hids & _).
  destruct (Hall _ Hret) as [-> Hp].
  split.
  - rewrite Hsink, fmap_app, Hids. reflexivity.
  - rewrite Htr, persist_events_app, Hp. reflexivity.
Defined.

(** The witness of X1: two comments that differ in the fraction of their
    timestamp and in their permalink give the same dictionary. *)
Lemma extract_comment_structure_witness :
  RedditClient._extract_comment
    (PrawComment "c1" "t3_p4" "t3_p4" None "hello" (QArith_base.Qmake 3 2) 1 0
       "/r/python/comments/p4/_/c1" [])
  = RedditClient._extract_comment
      (PrawComment "c1" "t3_p4" "t3_p4" None "hello" (QArith_base.Qmake 1 1) 1 0
         "/c1" []).
Proof.
  apply (proj1 (proj2 extract_comment_structure)). reflexivity.
Defined.

(** The witness of X10: on a host whose progress bars are disabled the fresh
    run appends three records, checkpoints them and returns 0. *)
Lemma run_books_witness :
  (Scraper.run (host := Py.disabled_bar_host) 1 fresh_scraper fresh_world).1 = Ret 0%Z
  ∧ done_ids fresh_scraper
      (Scraper.run (host := Py.disabled_bar_host) 1 fresh_scraper fresh_world).2
    = list_to_set
        (Submission.id
           <$> sink fresh_scraper
                 (Scraper.run (host := Py.disabled_bar_host) 1 fresh_scraper fresh_world).2)
  ∧ length (sink fresh_scraper
              (Scraper.run (host := Py.disabled_bar_host) 1 fresh_scraper fresh_world).2)
    = 3.
Proof.
  assert (Hret : (Scraper.run (host := Py.disabled_bar_host) 1 fresh_scraper fresh_world).1
                 = Ret 0%Z) by reflexivity.
  split; [exact Hret|]. split; [|reflexivity].
  destruct (run_books (host := Py.disabled_bar_host) 1 fresh_scraper fresh_world)
    as (recs & saved & Hsink & Hdone & _ & _ & _ & Hcount).
  cbv zeta in Hsink, Hdone, Hcount.
  destruct (Hcount _ Hret) as [_ Hsaved].
  rewrite Hdone, Hsink, <- Hsaved.
  assert (done_ids fresh_scraper fresh_world = ∅) as -> by reflexivity.
  assert (sink fresh_scraper fresh_world = []) as -> by reflexivity.
  rewrite app_nil_l. apply (left_id_L ∅ (∪)).
Defined.

(** The fresh-run scenario of the spec: three records in the sink, the three
    identifiers checkpointed, the count 3. *)
Example fresh_run :
  (Scraper.run 1 fresh_scraper fresh_world).1 = Ret 3%Z
  ∧ Submission.id <$> sink fresh_scraper (Scraper.run 1 fresh_scraper fresh_world).2
    = ["p1"; "p2"; "p3"]
  ∧ done_ids fresh_scraper (Scraper.run 1 fresh_scraper fresh_world).2
    = {["p1"; "p2"; "p3"]}
  ∧ persist_events (w_trace (Scraper.run 1 fresh_scraper fresh_world).2)
    = ["p1"; "p2"; "p3"] ≫= persist_steps fresh_scraper.
Proof. split_and!; reflexivity. Qed.

(** A run the checkpoint store ends: the record of [p1] is appended, the mark
    fails, the exception comes out, and the bar and the store are closed. *)
Example store_failure_run :
  (Scraper.run 1 fresh_scraper failing_store_world).1
  = Raise (OtherException "sqlite3.OperationalError")
  ∧ persist_events (w_trace (Scraper.run 1 fresh_scraper failing_store_world).2)
    = [EvAppend ["output.ndjson"] "p1"]
  ∧ done_ids fresh_scraper (Scraper.run 1 fresh_scraper failing_store_world).2 = ∅
  ∧ drop 4 (w_trace (Scraper.run 1 fresh_scraper failing_store_world).2)
    = [EvDiscovery (FeedNext "p1"); EvRequest "p1"; EvAppend ["output.ndjson"] "p1";
       EvBarClose; EvStoreClose ["progress.sqlite"]].
Proof. split_and!; reflexivity. Qed.

(** The witness of X3: the last day of February 2024 and the first of March. *)
Lemma to_ts_monotone_witness :
  Datetime.parse_isoformat_date "2024-02-29" = Some (2024, 2, 29)%Z
  ∧ Datetime.parse_isoformat_date "2024-03-01" = Some (2024, 3, 1)%Z
  ∧ ∃ t t',
      RedditClient._to_ts "2024-02-29" = Some t
      ∧ RedditClient._to_ts "2024-03-01" = Some t'
      ∧ (t + 86400 ≤ t')%Z.
Proof.
  split; [reflexivity|]. split; [reflexivity|].
  destruct (to_ts_monotone "2024-02-29" "2024-03-01" _ _ eq_refl eq_refl)
    as (t & t' & Ht & Ht' & _ & _ & Hlt & _).
  exists t, t'. split_and!; [exact Ht|exact Ht'|].
  apply Hlt. cbn. lia.
Defined.

(** The witness of X4: the dates of a January given in the wrong order. *)
Lemma inverted_window_empty_witness :
  Datetime.parse_isoformat_date "2024-01-31" = Some (2024, 1, 31)%Z
  ∧ Datetime.parse_isoformat_date "2024-01-01" = Some (2024, 1, 1)%Z
  ∧ date_lt (2024, 1, 1)%Z (2024, 1, 31)%Z
  ∧ iter_items (RedditClient.list_submission_ids
                  (RedditClient.__init__
                     (scripted_api [record_of "a" 1705000000 1 None] 0 ServerError
                        (Delivered a_thread)) 2)
                  "python" "2024-01-31" "2024-01-01" None None) = [].
Proof.
  assert (H : date_lt (2024, 1, 1)%Z (2024, 1, 31)%Z) by (cbn; lia).
  split; [reflexivity|]. split; [reflexivity|]. split; [exact H|].
  apply (proj2 inverted_window_empty _ "python" "2024-01-31" "2024-01-01" None None
           (2024, 1, 31)%Z (2024, 1, 1)%Z eq_refl eq_refl H).
Defined.

(** The witness of X6: a listing that fails after a record older than the
    start boundary, and one that fails after a record inside the window. *)
Lemma listing_failure_witness :
  Forall (λ s, (60 ≤ sub_created_utc s)%Z) [record_of "a" 100 1 None]
  ∧ Exists (λ s, (sub_created_utc s < 60)%Z) [record_of "a" 100 1 None; record_of "c" 50 1 None]
  ∧ iter_end (RedditClient.list_submission_ids_loop 60 200 None None
                [record_of "a" 100 1 None] (Some ServerError)) = Some ServerError
  ∧ iter_end (RedditClient.list_submission_ids_loop 60 200 None None
                [record_of "a" 100 1 None; record_of "c" 50 1 None] (Some ServerError))
    = None.
Proof.
  assert (H1 : Forall (λ s, (60 ≤ sub_created_utc s)%Z) [record_of "a" 100 1 None]).
  { constructor; [cbn; lia|constructor]. }
  assert (H2 : Exists (λ s, (sub_created_utc s < 60)%Z)
                 [record_of "a" 100 1 None; record_of "c" 50 1 None]).
  { apply Exists_cons_tl, Exists_cons_hd. cbn. lia. }
  split; [exact H1|]. split; [exact H2|]. split.
  - apply (proj1 (proj2 listing_failure) 60%Z 200%Z None None _ (Some ServerError) H1).
  - apply (proj2 (proj2 listing_failure) 60%Z 200%Z None None _ (Some ServerError) H2).
Defined.

(** The witness of X7: the thirteenth month. *)
Lemma bad_date_run_witness :
  Py.truthy_list (Scraper.keywords (with_dates resume_scraper "2024-13-01" "2024-12-31"))
  = false
  ∧ Datetime.is_bare_date "2024-13-01" = true
  ∧ Datetime.parse_isoformat_date "2024-13-01" = None
  ∧ (Scraper.run 1 (with_dates resume_scraper "2024-13-01" "2024-12-31") resume_world).1
    = Raise ValueError
  ∧ sink resume_scraper
      (Scraper.run 1 (with_dates resume_scraper "2024-13-01" "2024-12-31") resume_world).2
    = [].
Proof.
  split; [reflexivity|]. split; [reflexivity|]. split; [reflexivity|].
  rewrite (proj2 (proj2 bad_date_run) 1
             (with_dates resume_scraper "2024-13-01" "2024-12-31") resume_world eq_refl
             (or_introl (proj1 bad_date_run "2024-13-01" eq_refl eq_refl))).
  split; reflexivity.
Defined.

(** The witness of X8: all four candidates are done and the platform answers
    no request. *)
Lemma all_done_run_witness :
  no_faults (world_with_done ["progress.sqlite"] ["a"; "b"; "c"; "d"])
  ∧ (Scraper.run 0 (scenario_scraper
                      (scripted_api feed_100_90_50_10 0 ServerError (Failed ServerError)) None)
       (world_with_done ["progress.sqlite"] ["a"; "b"; "c"; "d"])).1 = Ret 0%Z.
Proof.
  assert (H1 : no_faults (world_with_done ["progress.sqlite"] ["a"; "b"; "c"; "d"]))
    by constructor.
  split; [exact H1|].
  refine (proj1 (all_done_run 0
            (scenario_scraper
               (scripted_api feed_100_90_50_10 0 ServerError (Failed ServerError)) None)
            (world_with_done ["progress.sqlite"] ["a"; "b"; "c"; "d"]) H1 _)).
  intros sid Hsid. vm_compute in Hsid.
  repeat (apply elem_of_cons in Hsid as [->|Hsid]); [by vm_compute..|].
  by apply elem_of_nil in Hsid.
Defined.

(** The witness of X11: the fresh run of three threads, then the same run
    again on a platform that would now refuse every request. *)
Lemma rerun_is_idle_witness :
  delivers_within fresh_api 0
  ∧ no_faults fresh_world
  ∧ (Scraper.run 0 (scenario_scraper
                      (scripted_api (records (new fresh_api "python")) 0 ServerError
                         (Failed ServerError)) None)
       (Scraper.run 1 fresh_scraper fresh_world).2).1 = Ret 0%Z.
Proof.
  assert (H1 : delivers_within fresh_api 0).
  { intros sid t. exists 0, a_thread. split_and!; [lia| |reflexivity].
    intros k Hk. lia. }
  assert (H2 : no_faults fresh_world) by constructor.
  split; [exact H1|]. split; [exact H2|].
  exact (proj1 (rerun_is_idle 1 0 0 fresh_scraper
                  (scenario_scraper
                     (scripted_api (records (new fresh_api "python")) 0 ServerError
                        (Failed ServerError)) None)
                  fresh_world H1 ltac:(lia) H2 eq_refl eq_refl (λ sid H, H))).
Defined.

(** The witness of X12: the platform refuses [p4] with a server error at
    every request; five attempts are allowed. *)
Lemma stuck_while_platform_is_down_witness :
  next_store_op_ok fresh_world
  ∧ always_transient
      (scripted_api [record_of "p4" 100 1 None] 0 ServerError (Failed ServerError)) "p4" 0
  ∧ (Scraper.run 5
       (scenario_scraper
          (scripted_api [record_of "p4" 100 1 None] 0 ServerError (Failed ServerError)) None)
       fresh_world).1 = Diverge
  ∧ w_requests
      (Scraper.run 5
         (scenario_scraper
            (scripted_api [record_of "p4" 100 1 None] 0 ServerError (Failed ServerError))
            None)
         fresh_world).2 = 5.
Proof.
  assert (H1 : next_store_op_ok fresh_world) by (by intros e).
  assert (H2 : always_transient
                 (scripted_api [record_of "p4" 100 1 None] 0 ServerError (Failed ServerError))
                 "p4" 0).
  { intros k. by exists ServerError. }
  split; [exact H1|]. split; [exact H2|].
  destruct (stuck_while_platform_is_down 5
              (scenario_scraper
                 (scripted_api [record_of "p4" 100 1 None] 0 ServerError (Failed ServerError))
                 None)
              p4 fresh_world eq_refl H1 ltac:(by vm_compute) H2) as (Hr & Hn & _).
  split; [exact Hr|exact Hn].
Defined.

(** The witness of X13: [--merged] alone, on a platform with nothing on it,
    on one with a thread to save, and on a host whose merge script fails. *)
Lemma main_outcome_witness :
  exports (w_trace (cli.main ["/"; "repo"] 1 quiet_api args_merged empty_world).2) = []
  ∧ exports (w_trace (cli.main ["/"; "repo"] 3 retry_api args_merged empty_world).2)
    = [EvTxtExport ["/"; "repo"; "outputs"; "data"; "output_python_1970_01_01__1970_01_01.ndjson"]
         ["/"; "repo"; "outputs"; "txt"; "conversations_python_1970_01_01__1970_01_01"];
       EvMergeScript ["/"; "repo"; "scripts"; "merge_contents.py"]
         ["/"; "repo"; "outputs"; "txt"; "conversations_python_1970_01_01__1970_01_01"]
         ["/"; "repo"; "outputs"; "txt"];
       EvRenameIfExists
         ["/"; "repo"; "outputs"; "txt"; "conversations_python_1970_01_01__1970_01_01.txt"]
         ["/"; "repo"; "outputs"; "txt"; "all_conversations_python_1970_01_01__1970_01_01.txt"]]
  ∧ (cli.main (host := Py.failing_merge_host) ["/"; "repo"] 3 retry_api args_merged
       empty_world).1
    = Raise (OtherException "CalledProcessError")
  ∧ exports (w_trace (cli.main (host := Py.failing_merge_host) ["/"; "repo"] 3 retry_api
                        args_merged empty_world).2)
    = [EvTxtExport ["/"; "repo"; "outputs"; "data"; "output_python_1970_01_01__1970_01_01.ndjson"]
         ["/"; "repo"; "outputs"; "txt"; "conversations_python_1970_01_01__1970_01_01"];
       EvMergeScript ["/"; "repo"; "scripts"; "merge_contents.py"]
         ["/"; "repo"; "outputs"; "txt"; "conversations_python_1970_01_01__1970_01_01"]
         ["/"; "repo"; "outputs"; "txt"]].
Proof.
  split_and!.
  - rewrite (proj2 (main_outcome ["/"; "repo"] 1 quiet_api _ empty_world _ _ eq_refl)).
    reflexivity.
  - rewrite (proj2 (main_outcome ["/"; "repo"] 3 retry_api _ empty_world _ _ eq_refl)).
    reflexivity.
  - rewrite (proj1 (main_outcome (host := Py.failing_merge_host) ["/"; "repo"] 3 retry_api
                      _ empty_world _ _ eq_refl)).
    reflexivity.
  - rewrite (proj2 (main_outcome (host := Py.failing_merge_host) ["/"; "repo"] 3 retry_api
                      _ empty_world _ _ eq_refl)).
    reflexivity.
Defined.

(** The witness of X14: r/python over January 2024. *)
Lemma build_paths_distinct_witness :
  no_slash "python" ∧ is_iso_date "2024-01-01" ∧ is_iso_date "2024-01-31"
  ∧ generated_of (cli.build_paths ["/"; "repo"] "python" "2024-01-01" "2024-01-31")
    ≠ cli.p_merged (cli.build_paths ["/"; "repo"] "python" "2024-01-01" "2024-01-31").
Proof.
  assert (H1 : no_slash "python") by reflexivity.
  assert (H3 : is_iso_date "2024-01-01") by (by eexists).
  assert (H4 : is_iso_date "2024-01-31") by (by eexists).
  do 3 (split; [assumption|]).
  destruct (build_paths_distinct ["/"; "repo"] "python" "2024-01-01" "2024-01-31" H1 H3 H4)
    as (_ & -> & -> & _).
  done.
Defined.

(** The witness of X15: a date written with hyphens and with underscores. *)
Lemma slug_properties_witness :
  Py.contains "-" "2024_01_01" = false
  ∧ Py.contains "-" "2024-01-01" = true
  ∧ cli._slug "2024_01_01" = "2024_01_01"
  ∧ cli.p_tag (cli.build_paths [] "python" "2024_01_01" "2024-01-31")
    = cli.p_tag (cli.build_paths [] "python" "2024-01-01" "2024-01-31").
Proof.
  split; [reflexivity|]. split; [reflexivity|]. split.
  - exact (proj1 (proj2 (proj2 slug_properties)) "2024_01_01" eq_refl).
  - exact (proj2 (proj2 (proj2 (proj2 (proj2 slug_properties))) [] "python" "2024-01-01"
                    "2024-01-31" eq_refl)).
Defined.

(** The witness of X16: a keyword string of one blank. *)
Lemma command_line_modes_witness :
  ∃ self,
    (cli.make_scraper [] quiet_api (args_keywords " ") empty_world).1 = Ret self
    ∧ Scraper.keywords self = Some [""]
    ∧ Py.truthy_list (Scraper.keywords self) = true.
Proof.
  eexists. split; [reflexivity|].
  destruct (command_line_modes [] quiet_api (args_keywords " ") empty_world _ _ eq_refl)
    as (Hk & _ & Hs & _).
  split; [|exact Hk].
  rewrite (Hs " " eq_refl ltac:(done)). reflexivity.
Defined.

(** The witness of X17: the Scraper of r/python in the empty world. *)
Lemma constructor_footprint_witness :
  handler_of
    (w_handlers (Scraper.__init__ quiet_api "python" "2024-01-01" "2024-01-31"
                   ["output.ndjson"] None None None ["progress.sqlite"] empty_world).2)
    SIGHUP = None.
Proof.
  exact (proj1 (proj2 (constructor_footprint quiet_api "python" "2024-01-01" "2024-01-31"
                         ["output.ndjson"] None None None ["progress.sqlite"] empty_world
                         _ _ eq_refl))
           SIGHUP ltac:(done) ltac:(done)).
Defined.

(** The witness of X18: the allow-lists [News, Discussion] and
    [discussion, NEWS, news], and a list with a trailing empty entry. *)
Lemma allow_list_semantics_witness :
  RedditClient.list_submission_ids (RedditClient.__init__ quiet_api 2) "python"
    "2024-01-01" "2024-01-31" None (Some ["News"; "Discussion"])
  = RedditClient.list_submission_ids (RedditClient.__init__ quiet_api 2) "python"
      "2024-01-01" "2024-01-31" None (Some ["discussion"; "NEWS"; "news"])
  ∧ kept None (RedditClient.flair_set_of (Some ["News"; ""])) (record_of "a" 100 1 None)
    = true.
Proof.
  split.
  - apply (proj1 allow_list_semantics (RedditClient.__init__ quiet_api 2) "python"
             "2024-01-01" "2024-01-31" [] "year" None
             ["News"; "Discussion"] ["discussion"; "NEWS"; "news"]).
    intros f. change (Py.lower <$> ["News"; "Discussion"]) with ["news"; "discussion"].
    change (Py.lower <$> ["discussion"; "NEWS"; "news"])
      with ["discussion"; "news"; "news"].
    rewrite !elem_of_cons, !elem_of_nil. tauto.
  - apply (proj2 allow_list_semantics ["News"; ""] (record_of "a" 100 1 None)
             ltac:(done) eq_refl).
    right. left.
Defined.

(** The witness of X19: the store of [failing_store_world] fails at the
    first mark; the thread [p4] is delivered at once, both times. *)
Lemma interrupted_append_is_repeated_witness :
  (Scraper.run_loop 1 (scenario_scraper resume_api None) (Yield p4 Stop)
     (set_store_faults (λ _, [None; Some ServerError; None; None]) fresh_world)).1
  = Raise ServerError
  ∧ Submission.id
      <$> sink (scenario_scraper resume_api None)
            (Scraper.run_loop 1 (scenario_scraper resume_api None) (Yield p4 Stop)
               (Scraper.run_loop 1 (scenario_scraper resume_api None) (Yield p4 Stop)
                  (set_store_faults (λ _, [None; Some ServerError; None; None])
                     fresh_world)).2).2
    = ["p4"; "p4"].
Proof.
  destruct (interrupted_append_is_repeated 0 0 1 1 (scenario_scraper resume_api None)
              p4 Stop Stop
              (set_store_faults (λ _, [None; Some ServerError; None; None]) fresh_world)
              a_thread a_thread ServerError []
              ltac:(by vm_compute) eq_refl ltac:(intros k Hk; lia) eq_refl ltac:(lia)
              ltac:(intros k Hk; lia) eq_refl ltac:(lia))
    as (Hr & _ & _ & Hsecond & Hsink & _).
  split; [exact Hr|].
  rewrite Hsecond. exact Hsink.
Defined.
